(** * Time-stepped kinematic animation loops of the Physics pages

    A shallow embedding of the steppers, models and drivers of the
    simulation pages (dual-ball drop, brick throw, free fall, stone throw,
    "last t seconds" ball throw, half escape speed, Kepler's third law).

    JavaScript numbers are modelled as real numbers: every arithmetic
    operation is the exact one, comparisons are the real order.  Rounding
    is not modelled: an equality between numbers is meant up to the
    rounding of the doubles, and where a statement says which update
    crosses a threshold it does so relative to the clock or angle the
    state holds, not to a sum of the deltas that led there.  Objects
    become records, mutation becomes explicit state passing, and the timer
    callbacks of the brick-throw page become events of a step function
    next to the driver's [update] calls. *)

From Stdlib Require Import Reals Lra Lia List Bool.
Import ListNotations.

Open Scope R_scope.

(** ** Number helpers shared by all pages *)

Module Num.

(** [x <= y] and [x < y] as booleans, the way a JS condition tests them. *)
Definition leb (x y : R) : bool := if Rle_dec x y then true else false.
Definition ltb (x y : R) : bool := if Rlt_dec x y then true else false.
Definition geb (x y : R) : bool := leb y x.
Definition gtb (x y : R) : bool := ltb y x.

End Num.

(** ** The bounded trail buffer the pages share *)

Module Trail.

(** [trail.push({height}); if (trail.length > cap) trail.shift()]. *)
Definition push (cap : nat) (tr : list R) (h : R) : list R :=
  let tr' := tr ++ [h] in
  if Nat.ltb cap (length tr') then tl tr' else tr'.

End Trail.

(** ** Dual-ball drop (dualball-simulation/simulation.js) *)

Module DualBall.

(** [CONFIG.physics]. *)
Definition CONFIG_g : R := 9.8.
Definition CONFIG_totalTime : R := 5.0.
Definition CONFIG_ball1DropTime : R := 0.
Definition CONFIG_ball2DropTime : R := 2.0.

(** One entry of [this.balls]; the trail keeps the pushed heights, oldest
    first. *)
Record Ball := mkBall {
  id : nat;
  dropTime : R;
  initialHeight : R;
  height : R;
  velocity : R;
  falling : bool;
  landed : bool;
  trail : list R
}.

Record Sim := mkSim {
  g : R;
  totalTime : R;
  ball1FallTime : R;
  ball2FallTime : R;
  ball1Height : R;
  ball2Height : R;
  heightDifference : R;
  ball1ImpactVelocity : R;
  ball2ImpactVelocity : R;
  balls : list Ball;
  time : R
}.

(** [new DualBallSimulation()]. *)
Definition constructor : Sim :=
  let g := CONFIG_g in
  let totalTime := CONFIG_totalTime in
  let ball1FallTime := 5.0 in
  let ball2FallTime := 3.0 in
  let ball1Height := 0.5 * g * ball1FallTime * ball1FallTime in
  let ball2Height := 0.5 * g * ball2FallTime * ball2FallTime in
  let heightDifference := ball1Height - ball2Height in
  let ball1ImpactVelocity := g * ball1FallTime in
  let ball2ImpactVelocity := g * ball2FallTime in
  mkSim g totalTime ball1FallTime ball2FallTime ball1Height ball2Height
        heightDifference ball1ImpactVelocity ball2ImpactVelocity
        [ mkBall 1 0 ball1Height ball1Height 0 false false [];
          mkBall 2 2.0 ball2Height ball2Height 0 false false [] ]
        0.

Definition reset_ball (b : Ball) : Ball :=
  mkBall (id b) (dropTime b) (initialHeight b) (initialHeight b) 0 false false [].

Definition reset (s : Sim) : Sim :=
  mkSim (g s) (totalTime s) (ball1FallTime s) (ball2FallTime s)
        (ball1Height s) (ball2Height s) (heightDifference s)
        (ball1ImpactVelocity s) (ball2ImpactVelocity s)
        (map reset_ball (balls s)) 0.

(** The body of [this.balls.forEach(ball => ...)] at simulation time [t]. *)
Definition update_ball (s : Sim) (t : R) (b : Ball) : Ball :=
  if Num.geb t (dropTime b) && negb (landed b) then
    let fallTime := t - dropTime b in
    let h := initialHeight b - 0.5 * g s * fallTime * fallTime in
    let v := g s * fallTime in
    let tr := Trail.push 60 (trail b) h in
    if Num.leb h 0 then
      mkBall (id b) (dropTime b) (initialHeight b) 0
             (if Nat.eqb (id b) 1 then ball1ImpactVelocity s
              else ball2ImpactVelocity s)
             true true tr
    else
      mkBall (id b) (dropTime b) (initialHeight b) h v true false tr
  else b.

Definition set_time_balls (s : Sim) (t : R) (bs : list Ball) : Sim :=
  mkSim (g s) (totalTime s) (ball1FallTime s) (ball2FallTime s)
        (ball1Height s) (ball2Height s) (heightDifference s)
        (ball1ImpactVelocity s) (ball2ImpactVelocity s) bs t.

(** [update(deltaTime, speedMultiplier)]: the next simulation and the
    returned completion flag. *)
Definition update (s : Sim) (deltaTime speedMultiplier : R) : Sim * bool :=
  let scaledDelta := deltaTime * speedMultiplier in
  let t0 := time s + scaledDelta in
  let t := if Num.gtb t0 (totalTime s) then totalTime s else t0 in
  let bs := map (update_ball s t) (balls s) in
  (set_time_balls s t bs, forallb landed bs).

(** Successive [update] calls over a list of (deltaTime, speedMultiplier). *)
Fixpoint run (s : Sim) (inputs : list (R * R)) : Sim :=
  match inputs with
  | [] => s
  | (dt, sp) :: rest => run (fst (update s dt sp)) rest
  end.

(** The states observed after each call, in order. *)
Fixpoint trace (s : Sim) (inputs : list (R * R)) : list Sim :=
  match inputs with
  | [] => []
  | (dt, sp) :: rest =>
      let s' := fst (update s dt sp) in s' :: trace s' rest
  end.

(** The textbook free-fall formulas, written from the specification:
    a ball rests at [h0] until its drop time, then
    [h(t) = h0 - (1/2) g (t - dropTime)^2] and [v(t) = g (t - dropTime)]. *)
Definition textbook_height (g h0 dropT t : R) : R :=
  if Num.ltb t dropT then h0
  else h0 - 0.5 * g * (t - dropT) * (t - dropT).

Definition textbook_velocity (g dropT t : R) : R :=
  if Num.ltb t dropT then 0 else g * (t - dropT).

(** Inputs whose scaled delta [deltaTime * speedMultiplier] is not negative,
    and the simulated time they add up to. *)
Definition nonneg_inputs (inputs : list (R * R)) : Prop :=
  Forall (fun p => 0 <= fst p * snd p) inputs.

Fixpoint elapsed (inputs : list (R * R)) : R :=
  match inputs with
  | [] => 0
  | (dt, sp) :: rest => dt * sp + elapsed rest
  end.

(** A ball follows the textbook formulas at the simulation's time. *)
Definition ball_tracks (s : Sim) (b : Ball) (i : nat) (d h0 : R) : Prop :=
  id b = i /\ dropTime b = d /\ initialHeight b = h0 /\
  height b = textbook_height (g s) h0 d (time s) /\
  velocity b = textbook_velocity (g s) d (time s) /\
  (landed b = true <-> time s = totalTime s).

(** The invariant of the simulation under non-negative deltas. *)
Definition tracked (s : Sim) : Prop :=
  g s = 9.8 /\ totalTime s = 5 /\
  ball1ImpactVelocity s = 49 /\ ball2ImpactVelocity s = 29.4 /\
  0 <= time s <= 5 /\
  exists b1 b2, balls s = [b1; b2] /\
    ball_tracks s b1 1 0 122.5 /\ ball_tracks s b2 2 2 44.1.

End DualBall.

(** ** The dual-ball driver: [state] and [animate(timestamp)] *)

Module DualBallDriver.

(** The page-level [state] object, without its canvas handles.
    [animationFrame] tells whether the frame request it names is still
    outstanding. *)
Record State := mkState {
  isPlaying : bool;
  speedMultiplier : R;
  animationFrame : bool;
  lastTimestamp : R;
  simulation : DualBall.Sim
}.

(** [Math.min((timestamp - state.lastTimestamp) / 1000, 0.1)]. *)
Definition frame_delta (st : State) (timestamp : R) : R :=
  Rmin ((timestamp - lastTimestamp st) / 1000) 0.1.

(** [animate(timestamp)]. *)
Definition animate (st : State) (timestamp : R) : State :=
  if negb (isPlaying st) then st
  else
    let deltaTime := frame_delta st timestamp in
    let '(sim, completed) :=
      DualBall.update (simulation st) deltaTime (speedMultiplier st) in
    if completed then
      mkState false (speedMultiplier st) false timestamp sim
    else
      mkState true (speedMultiplier st) true timestamp sim.

(** The play button's click handler, at wall-clock time [now]. *)
Definition play (st : State) (now : R) : State :=
  mkState true (speedMultiplier st) true now (simulation st).

(** Frames delivered at the given timestamps. *)
Fixpoint frames (st : State) (timestamps : list R) : State :=
  match timestamps with
  | [] => st
  | ts :: rest => frames (animate st ts) rest
  end.

(** The clamped deltas a run of frames computes, starting from the
    timestamp recorded last. *)
Fixpoint deltas (last : R) (timestamps : list R) : list R :=
  match timestamps with
  | [] => []
  | ts :: rest => Rmin ((ts - last) / 1000) 0.1 :: deltas ts rest
  end.

(** The stepper fed with deltas at one speed until it reports completion. *)
Fixpoint feed (sim : DualBall.Sim) (speed : R) (playing : bool)
  (ds : list R) : DualBall.Sim :=
  match ds with
  | [] => sim
  | d :: rest =>
      if playing then
        let '(sim', completed) := DualBall.update sim d speed in
        feed sim' speed (negb completed) rest
      else sim
  end.

End DualBallDriver.

(** ** Brick throw (wastage-simulation/simulation.js) *)

Module Wastage.

Definition CONFIG_g : R := 10.
Definition CONFIG_targetHeight : R := 10.
Definition CONFIG_velocityAtTarget : R := 6.

Inductive Phase :=
| throwing | ascending | at_target | continuing | at_max | descending
| landed.

Definition phase_eqb (p q : Phase) : bool :=
  match p, q with
  | throwing, throwing | ascending, ascending | at_target, at_target
  | continuing, continuing | at_max, at_max | descending, descending
  | landed, landed => true
  | _, _ => false
  end.

(** The fields written by the constructor and [calculateEnergetics]. *)
Record Model := mkModel {
  g : R;
  targetHeight : R;
  velocityAtTarget : R;
  initialVelocity : R;
  keAtTarget : R;
  peAtTarget : R;
  totalEnergyAtTarget : R;
  idealEnergy : R;
  wastedEnergy : R;
  wastePercentage : R;
  wastePercentageAlt : R;
  additionalHeight : R;
  maxHeight : R;
  timeToTarget : R;
  timeToMax : R
}.

(** The fields written by [reset] and [update]; the three energies are
    undefined until the first [update]. *)
Record State := mkState {
  time : R;
  height : R;
  velocity : R;
  phase : Phase;
  reachedTarget : bool;
  reachedMax : bool;
  trail : list R;
  currentKE : option R;
  currentPE : option R;
  currentTotal : option R
}.

Definition calculateEnergetics : Model :=
  let g := CONFIG_g in
  let targetHeight := CONFIG_targetHeight in
  let velocityAtTarget := CONFIG_velocityAtTarget in
  let initialVelocity :=
    sqrt (velocityAtTarget * velocityAtTarget + 2 * g * targetHeight) in
  let keAtTarget := 0.5 * velocityAtTarget * velocityAtTarget in
  let peAtTarget := g * targetHeight in
  let totalEnergyAtTarget := keAtTarget + peAtTarget in
  let idealEnergy := peAtTarget in
  let wastedEnergy := totalEnergyAtTarget - idealEnergy in
  let wastePercentage := (wastedEnergy / totalEnergyAtTarget) * 100 in
  let wastePercentageAlt := (wastedEnergy / idealEnergy) * 100 in
  let additionalHeight := (velocityAtTarget * velocityAtTarget) / (2 * g) in
  let maxHeight := targetHeight + additionalHeight in
  let timeToTarget := (initialVelocity - velocityAtTarget) / g in
  let timeToMax := initialVelocity / g in
  mkModel g targetHeight velocityAtTarget initialVelocity keAtTarget
          peAtTarget totalEnergyAtTarget idealEnergy wastedEnergy
          wastePercentage wastePercentageAlt additionalHeight maxHeight
          timeToTarget timeToMax.

(** [reset()], which also ends the constructor. *)
Definition reset (m : Model) : State :=
  mkState 0 0 (initialVelocity m) throwing false false [] None None None.

Definition set_time (s : State) (t : R) : State :=
  mkState t (height s) (velocity s) (phase s) (reachedTarget s)
          (reachedMax s) (trail s) (currentKE s) (currentPE s)
          (currentTotal s).

Definition set_phase (s : State) (p : Phase) : State :=
  mkState (time s) (height s) (velocity s) p (reachedTarget s)
          (reachedMax s) (trail s) (currentKE s) (currentPE s)
          (currentTotal s).

Definition set_motion (s : State) (h v : R) (tr : list R) : State :=
  mkState (time s) h v (phase s) (reachedTarget s) (reachedMax s) tr
          (currentKE s) (currentPE s) (currentTotal s).

Definition set_energies (s : State) (ke pe : R) : State :=
  mkState (time s) (height s) (velocity s) (phase s) (reachedTarget s)
          (reachedMax s) (trail s) (Some ke) (Some pe) (Some (ke + pe)).

(** The two [setTimeout] callbacks an [update] can schedule: the pause at
    the target (500 ms) and the pause at the apex (800 ms). *)
Inductive Timer := TargetPause | MaxPause.

Definition timer_eqb (a b : Timer) : bool :=
  match a, b with
  | TargetPause, TargetPause | MaxPause, MaxPause => true
  | _, _ => false
  end.

Definition delay_ms (k : Timer) : R :=
  match k with TargetPause => 500 | MaxPause => 800 end.

(** The ascending / continuing branch of [update]. *)
Definition rise (m : Model) (s : State) : State :=
  let v := initialVelocity m - g m * time s in
  let h := initialVelocity m * time s - 0.5 * g m * time s * time s in
  let s := set_motion s h v (Trail.push 80 (trail s) h) in
  let s :=
    if Num.geb (height s) (targetHeight m) && negb (reachedTarget s) then
      mkState (time s) (height s) (velocity s) at_target true
              (reachedMax s) (trail s) (currentKE s) (currentPE s)
              (currentTotal s)
    else s in
  if Num.leb (velocity s) 0 then
    mkState (time s) (maxHeight m) 0 at_max (reachedTarget s) true
            (trail s) (currentKE s) (currentPE s) (currentTotal s)
  else s.

(** The descending branch of [update]. *)
Definition fall (m : Model) (s : State) : State :=
  let v := - g m * time s in
  let h := maxHeight m - 0.5 * g m * time s * time s in
  let s := set_motion s h v (Trail.push 80 (trail s) h) in
  if Num.leb (height s) 0 then
    mkState (time s) 0 (velocity s) landed (reachedTarget s) (reachedMax s)
            (trail s) (currentKE s) (currentPE s) (currentTotal s)
  else s.

(** The head of [update]: the clock moves on, and the throwing pose ends
    0.3 s in, restarting the clock for the flight. *)
Definition tick (s : State) (scaledDelta : R) : State :=
  let s := set_time s (time s + scaledDelta) in
  if phase_eqb (phase s) throwing && Num.gtb (time s) 0.3 then
    set_time (set_phase s ascending) 0
  else s.

(** The [if / else if] chain of [update] over the phase: the moved state
    and the timers this call scheduled. *)
Definition move (m : Model) (s : State) : State * list Timer :=
  match phase s with
  | ascending | continuing => (rise m s, [])
  | at_target => (s, [TargetPause])
  | at_max => (s, [MaxPause])
  | descending => (fall m s, [])
  | throwing | landed => (s, [])
  end.

(** [update(deltaTime, speedMultiplier)]: the next state, the timers it
    scheduled, and the returned completion flag. *)
Definition update (m : Model) (s : State) (deltaTime speedMultiplier : R)
  : State * list Timer * bool :=
  let scaledDelta := deltaTime * speedMultiplier in
  let s := tick s scaledDelta in
  let '(s, timers) := move m s in
  let ke := 0.5 * velocity s * velocity s in
  let pe := g m * Rmax 0 (height s) in
  let s := set_energies s ke pe in
  (s, timers, phase_eqb (phase s) landed).

(** What a timer's callback does when it fires. *)
Definition fire (k : Timer) (s : State) : State :=
  match k with
  | TargetPause =>
      if phase_eqb (phase s) at_target then set_phase s continuing else s
  | MaxPause =>
      if phase_eqb (phase s) at_max then set_time (set_phase s descending) 0
      else s
  end.

(** The simulation object together with the timers that are scheduled and
    have not fired yet, oldest first. *)
Record World := mkWorld {
  sim : State;
  pending : list Timer
}.

(** What can happen to the page: the driver calls [update], or the event
    loop fires the oldest pending timer of a kind. *)
Inductive Event :=
| Update (deltaTime speedMultiplier : R)
| Fire (k : Timer).

Fixpoint remove_first (k : Timer) (l : list Timer) : option (list Timer) :=
  match l with
  | [] => None
  | k' :: rest =>
      if timer_eqb k k' then Some rest
      else option_map (cons k') (remove_first k rest)
  end.

Definition step (m : Model) (w : World) (e : Event) : option World :=
  match e with
  | Update dt sp =>
      let '(s, timers, _) := update m (sim w) dt sp in
      Some (mkWorld s (pending w ++ timers))
  | Fire k =>
      match remove_first k (pending w) with
      | Some rest => Some (mkWorld (fire k (sim w)) rest)
      | None => None
      end
  end.

Fixpoint exec (m : Model) (w : World) (es : list Event) : option World :=
  match es with
  | [] => Some w
  | e :: rest =>
      match step m w e with
      | Some w' => exec m w' rest
      | None => None
      end
  end.

(** The simulation states seen after each [update] call of a run. *)
Fixpoint observed (m : Model) (w : World) (es : list Event)
  : option (list State) :=
  match es with
  | [] => Some []
  | e :: rest =>
      match step m w e with
      | Some w' =>
          match e, observed m w' rest with
          | Update _ _, Some l => Some (sim w' :: l)
          | Fire _, Some l => Some l
          | _, None => None
          end
      | None => None
      end
  end.

(** The [update] arguments of a run, timers left out. *)
Fixpoint inputs_of (es : list Event) : list (R * R) :=
  match es with
  | [] => []
  | Update dt sp :: rest => (dt, sp) :: inputs_of rest
  | Fire _ :: rest => inputs_of rest
  end.

Definition nonneg_events (es : list Event) : Prop :=
  Forall (fun e => match e with
                   | Update dt sp => 0 <= dt * sp
                   | Fire _ => True
                   end) es.

(** The page right after [new BrickThrowSimulation()]. *)
Definition model : Model := calculateEnergetics.
Definition initial : World := mkWorld (reset model) [].

(** A model a brick can be thrown in: gravity pulls down, the throw goes
    up, the apex is above ground. *)
Definition sane (m : Model) : Prop :=
  0 < g m /\ 0 < initialVelocity m /\ 0 <= maxHeight m.

(** The brick-throw page as the facts below need it: its three rational
    constants and the bounds of its launch speed. *)
Definition page (m : Model) : Prop :=
  g m = 10 /\ targetHeight m = 10 /\ maxHeight m = 11.8 /\
  15 < initialVelocity m < 16.

(** The phase in which a timer's callback acts. *)
Definition pause_of (k : Timer) : Phase :=
  match k with
  | TargetPause => at_target
  | MaxPause => at_max
  end.


(** Two runs with the same [update] arguments; in the first the 500 ms
    timer fires between the third and the fourth call, in the second it
    has not fired yet. *)
Definition timer_fired : list Event :=
  [ Update 0.1 4; Update 0.1 10; Update 0.1 1; Fire TargetPause;
    Update 0.1 1 ].

Definition timer_late : list Event :=
  [ Update 0.1 4; Update 0.1 10; Update 0.1 1; Update 0.1 1 ].

End Wastage.

(** ** Free fall past sixteen storeys (freefall-simulation/simulation.js) *)

Module FreeFall.

Definition CONFIG_g : R := 10.
Definition CONFIG_totalTime : R := 4.
Definition CONFIG_totalStoreys : Z := 16.
Definition CONFIG_totalHeight : R := 80.
Definition CONFIG_storeyHeight : R := 5.

(** [Math.floor]. *)
Definition floor (x : R) : Z := Int_part x.

Record FallingBall := mkBall {
  y : R;
  velocity : R;
  currentFloor : Z;
  storeysFallen : Z;
  finished : bool
}.

Definition reset : FallingBall := mkBall 0 0 16 0 false.

(** [update(currentTime)]. *)
Definition update (b : FallingBall) (currentTime : R) : FallingBall :=
  if finished b then b
  else
    let over := Num.geb currentTime CONFIG_totalTime in
    let currentTime := if over then CONFIG_totalTime else currentTime in
    let y := 0.5 * CONFIG_g * currentTime * currentTime in
    let v := CONFIG_g * currentTime in
    let storeys := Z.min 16 (floor (y / CONFIG_storeyHeight)) in
    mkBall y v (Z.max 0 (16 - storeys)) storeys over.

(** The page-level [state]; [completedIntervals] is the set of whole
    seconds already reported. *)
Record State := mkState {
  isPlaying : bool;
  speed : R;
  currentTime : R;
  ball : FallingBall;
  lastTimestamp : R;
  completedIntervals : list Z
}.

(** The per-frame delta of this page: [(timestamp - lastTimestamp) / 1000]. *)
Definition frame_delta (st : State) (timestamp : R) : R :=
  (timestamp - lastTimestamp st) / 1000.

Definition mem_interval (i : Z) (l : list Z) : bool :=
  existsb (Z.eqb i) l.

(** [animate(timestamp)]. *)
Definition animate (st : State) (timestamp : R) : State :=
  if negb (isPlaying st) then st
  else
    let deltaTime := frame_delta st timestamp in
    let t := currentTime st + deltaTime * speed st in
    let over := Num.geb t CONFIG_totalTime in
    let t := if over then CONFIG_totalTime else t in
    let playing := if over then false else isPlaying st in
    let b := update (ball st) t in
    let currentInterval := floor t in
    let done :=
      if Z.ltb 0 currentInterval
         && negb (mem_interval currentInterval (completedIntervals st))
      then completedIntervals st ++ [currentInterval]
      else completedIntervals st in
    mkState playing (speed st) t b timestamp done.

(** The page after [init()] and a click on play at wall-clock [now]. *)
Definition playing_from (now : R) : State :=
  mkState true 1 0 reset now [].

End FreeFall.

(** ** Stone thrown vertically (stonethrow-simulation/simulation.js) *)

Module StoneThrow.

Definition CONFIG_g : R := 9.8.
Definition CONFIG_maxHeight : R := 500.
Definition CONFIG_timeToMaxHeight : R := 10.

Inductive Phase := Ready | Rising | Falling | Landed.

Record Sim := mkSim {
  g : R;
  maxHeight : R;
  timeToMaxHeight : R;
  initialVelocity : R;
  timeToFall : R;
  totalTime : R;
  time : R;
  height : R;
  velocity : R;
  phase : Phase
}.

Definition constructor : Sim :=
  let g := CONFIG_g in
  let maxHeight := CONFIG_maxHeight in
  let timeToMaxHeight := CONFIG_timeToMaxHeight in
  let initialVelocity := g * timeToMaxHeight in
  let timeToFall := sqrt ((2 * maxHeight) / g) in
  let totalTime := timeToMaxHeight + timeToFall in
  mkSim g maxHeight timeToMaxHeight initialVelocity timeToFall totalTime
        0 0 initialVelocity Ready.

Definition set_motion (s : Sim) (t h v : R) (p : Phase) : Sim :=
  mkSim (g s) (maxHeight s) (timeToMaxHeight s) (initialVelocity s)
        (timeToFall s) (totalTime s) t h v p.

(** [update(deltaTime)]. *)
Definition update (s : Sim) (deltaTime : R) : Sim * bool :=
  let t := time s + deltaTime in
  if Num.geb t (totalTime s) then
    (set_motion s (totalTime s) 0 0 Landed, true)
  else if Num.leb t (timeToMaxHeight s) then
    let h := initialVelocity s * t - 0.5 * g s * t * t in
    let v := initialVelocity s - g s * t in
    (set_motion s t (Rmax 0 h) v Rising, false)
  else
    let fallTime := t - timeToMaxHeight s in
    let h := maxHeight s - 0.5 * g s * fallTime * fallTime in
    let v := - g s * fallTime in
    (set_motion s t (Rmax 0 h) v Falling, false).

Fixpoint run (s : Sim) (deltas : list R) : Sim :=
  match deltas with
  | [] => s
  | dt :: rest => run (fst (update s dt)) rest
  end.

End StoneThrow.

(** ** Distance in the last t seconds of ascent (BallThrowSimulation) *)

Module BallThrow.

Definition CONFIG_u : R := 20.
Definition CONFIG_g : R := 10.
Definition CONFIG_tLast : R := 1.

Inductive Phase := ascending | descending | complete.

Record Model := mkModel {
  u : R;
  g : R;
  tLast : R;
  totalAscentTime : R;
  maxHeight : R;
  intervalStart : R;
  intervalEnd : R;
  heightAtIntervalStart : R;
  theoreticalDistance : R;
  actualIntervalDistance : R
}.

Record State := mkState {
  time : R;
  height : R;
  velocity : R;
  phase : Phase;
  inInterval : bool;
  trail : list R;
  intervalPositions : list (R * R);
  completed : bool;
  symmetryTime : R;
  symmetryHeight : R
}.

Definition calculateTheoreticalValues : Model :=
  let u := CONFIG_u in
  let g := CONFIG_g in
  let tLast := CONFIG_tLast in
  let totalAscentTime := u / g in
  let maxHeight := (u * u) / (2 * g) in
  let intervalStart := Rmax 0 (totalAscentTime - tLast) in
  let intervalEnd := totalAscentTime in
  let tStart := intervalStart in
  let heightAtIntervalStart := u * tStart - 0.5 * g * tStart * tStart in
  let theoreticalDistance := 0.5 * g * tLast * tLast in
  let actualIntervalDistance := maxHeight - heightAtIntervalStart in
  mkModel u g tLast totalAscentTime maxHeight intervalStart intervalEnd
          heightAtIntervalStart theoreticalDistance actualIntervalDistance.

Definition reset (m : Model) : State :=
  mkState 0 0 (u m) ascending false [] [] false 0 0.

(** [update(deltaTime, speedMultiplier)]. *)
Definition update (m : Model) (s : State) (deltaTime speedMultiplier : R)
  : State * bool :=
  let scaledDelta := deltaTime * speedMultiplier in
  match phase s with
  | ascending =>
      let t := time s + scaledDelta in
      let v := u m - g m * t in
      let h := u m * t - 0.5 * g m * t * t in
      let inside := Num.geb t (intervalStart m) && Num.leb t (intervalEnd m) in
      let positions :=
        if inside then intervalPositions s ++ [(t, h)]
        else intervalPositions s in
      let tr := Trail.push 100 (trail s) h in
      if Num.geb t (totalAscentTime m) then
        (mkState 0 (maxHeight m) 0 descending inside tr positions
                 (completed s) (symmetryTime s) (symmetryHeight s),
         completed s)
      else
        (mkState t h v ascending inside tr positions
                 (completed s) (symmetryTime s) (symmetryHeight s),
         completed s)
  | descending =>
      let t := time s + scaledDelta in
      let v := - g m * t in
      let h := maxHeight m - 0.5 * g m * t * t in
      let tr := Trail.push 100 (trail s) h in
      let symT := if Num.leb t (tLast m) then t else symmetryTime s in
      let symH :=
        if Num.leb t (tLast m) then maxHeight m - h else symmetryHeight s in
      if Num.leb h 0 then
        (mkState t 0 v complete (inInterval s) tr (intervalPositions s)
                 true symT symH, true)
      else
        (mkState t h v descending (inInterval s) tr (intervalPositions s)
                 (completed s) symT symH, completed s)
  | complete => (s, completed s)
  end.

Definition model : Model := calculateTheoreticalValues.

Fixpoint run (m : Model) (s : State) (inputs : list (R * R)) : State :=
  match inputs with
  | [] => s
  | (dt, sp) :: rest => run m (fst (update m s dt sp)) rest
  end.

End BallThrow.

(** ** Satellite at half the escape speed (halfesc-simulation/simulation.js) *)

Module HalfEscape.

Record Sim := mkSim {
  G : R;
  M_earth : R;
  R_earth : R;
  v_escape : R;
  v_orbital : R;
  orbitRadius : R;
  height : R;
  isPlaying : bool;
  angle : R
}.

Definition constructor : Sim :=
  let G := 6.674e-11 in
  let M_earth := 5.972e24 in
  let R_earth := 6.371e6 in
  let v_escape := sqrt (2 * G * M_earth / R_earth) in
  let v_orbital := v_escape / 2 in
  let orbitRadius := 2 * R_earth in
  let height := R_earth in
  mkSim G M_earth R_earth v_escape v_orbital orbitRadius height false 0.

(** The pixel radii [updateDisplay] and [play] draw with. *)
Definition earthRadiusPx : R := 50.
Definition orbitRadiusPx : R := earthRadiusPx * 2.

(** [updateSatellitePosition]: the satellite's [left] and [top]. *)
Definition satellite_position (s : Sim) (centerX centerY : R) : R * R :=
  (centerX + orbitRadiusPx * cos (angle s),
   centerY + orbitRadiusPx * sin (angle s)).

Definition set_angle (s : Sim) (playing : bool) (a : R) : Sim :=
  mkSim (G s) (M_earth s) (R_earth s) (v_escape s) (v_orbital s)
        (orbitRadius s) (height s) playing a.

(** One run of the inner [animate] closure of [play]; it takes no
    timestamp. *)
Definition animate (s : Sim) : Sim :=
  if negb (isPlaying s) then s
  else
    let angularSpeed := 0.02 in
    set_angle s (isPlaying s) (angle s + angularSpeed).

(** [play()] up to and including its first, synchronous [animate()]. *)
Definition play (s : Sim) : Sim :=
  if isPlaying s then s else animate (set_angle s true (angle s)).

(** [reset()]. *)
Definition reset (s : Sim) : Sim := set_angle s false 0.

(** The animation frames that follow [play()], one per entry; an entry is
    the wall-clock time in seconds since the frame before, which the
    closure never looks at. *)
Fixpoint frames (s : Sim) (gaps : list R) : Sim :=
  match gaps with
  | [] => s
  | _ :: rest => frames (animate s) rest
  end.

Fixpoint total (gaps : list R) : R :=
  match gaps with
  | [] => 0
  | x :: rest => x + total rest
  end.

End HalfEscape.

(** ** Kepler's third law (the two-planet page) *)

Module Kepler.

Definition CONFIG_G : R := 6.67430e-11.
Definition CONFIG_M_sun : R := 1.989e30.
Definition CONFIG_R1 : R := 1e12.
Definition CONFIG_R2 : R := 1e10.

(** [calculatePeriod(R)]: [2 * Math.PI * Math.sqrt(Math.pow(R, 3) / (G * M_sun))]. *)
Definition calculatePeriod (r : R) : R :=
  2 * PI * sqrt (r ^ 3 / (CONFIG_G * CONFIG_M_sun)).

Definition T1 : R := calculatePeriod CONFIG_R1.
Definition T2 : R := calculatePeriod CONFIG_R2.
Definition PERIOD_RATIO : R := T1 / T2.

End Kepler.

(** ** Dual-ball page: read-outs and buttons *)

Module DualBallView.

(** [getTimeProgress()]. *)
Definition getTimeProgress (s : DualBall.Sim) : R :=
  DualBall.time s / DualBall.totalTime s.

(** [getBall1FallTime()]. *)
Definition getBall1FallTime (s : DualBall.Sim) : R :=
  if Num.ltb (DualBall.time s) 0 then 0
  else Rmin (DualBall.time s) (DualBall.ball1FallTime s).

(** [getBall2FallTime()]. *)
Definition getBall2FallTime (s : DualBall.Sim) : R :=
  if Num.ltb (DualBall.time s) 2.0 then 0
  else Rmin (DualBall.time s - 2.0) (DualBall.ball2FallTime s).

(** The skip button's handler, as far as it writes the simulation. *)
Definition skip_ball (s : DualBall.Sim) (b : DualBall.Ball) : DualBall.Ball :=
  DualBall.mkBall (DualBall.id b) (DualBall.dropTime b)
    (DualBall.initialHeight b) 0
    (if Nat.eqb (DualBall.id b) 1 then DualBall.ball1ImpactVelocity s
     else DualBall.ball2ImpactVelocity s)
    (DualBall.falling b) true (DualBall.trail b).

Definition skip (s : DualBall.Sim) : DualBall.Sim :=
  DualBall.set_time_balls s 5.0 (map (skip_ball s) (DualBall.balls s)).

(** The pause button's handler and [resetSimulation()] on the page state. *)
Definition pause (st : DualBallDriver.State) : DualBallDriver.State :=
  DualBallDriver.mkState false (DualBallDriver.speedMultiplier st) false
    (DualBallDriver.lastTimestamp st) (DualBallDriver.simulation st).

Definition resetSimulation (st : DualBallDriver.State)
  : DualBallDriver.State :=
  DualBallDriver.mkState false (DualBallDriver.speedMultiplier st) false
    (DualBallDriver.lastTimestamp st)
    (DualBall.reset (DualBallDriver.simulation st)).

(** Timestamps that never run backwards, starting from the one recorded
    last. *)
Fixpoint ascending_from (last : R) (timestamps : list R) : Prop :=
  match timestamps with
  | [] => True
  | ts :: rest => last <= ts /\ ascending_from ts rest
  end.

(** The page right after [init()]: [state] with a fresh simulation. *)
Definition loaded : DualBallDriver.State :=
  DualBallDriver.mkState false 1 false 0 DualBall.constructor.

End DualBallView.

(** ** Satellite energy ratio (second page of dualball-simulation/simulation.js) *)

Module Satellite.

(** [CONSTANTS]. *)
Definition G : R := 6.67430e-11.
Definition M_earth : R := 5.972e24.
Definition R_earth : R := 6.371e6.
Definition m_satellite : R := 1000.

Record Sat := mkSat {
  radius : R;
  mass : R;
  angle : R;
  velocity : R;
  angularVelocity : R;
  period : R;
  KE : R;
  PE : R;
  TE : R;
  ratio : R
}.

(** [calculateOrbitalParameters()], over the radius, mass and angle the
    object holds. *)
Definition calculateOrbitalParameters (r m a : R) : Sat :=
  let velocity := sqrt (G * M_earth / r) in
  let angularVelocity := velocity / r in
  let period := 2 * PI * r / velocity in
  let KE := 0.5 * m * velocity * velocity in
  let PE := - G * M_earth * m / r in
  let TE := PE + KE in
  let ratio := PE / KE in
  mkSat r m a velocity angularVelocity period KE PE TE ratio.

(** [new Satellite(orbitalRadius)]. *)
Definition constructor (orbitalRadius : R) : Sat :=
  calculateOrbitalParameters orbitalRadius m_satellite 0.

(** [setRadius(newRadius)]. *)
Definition setRadius (s : Sat) (newRadius : R) : Sat :=
  calculateOrbitalParameters newRadius (mass s) (angle s).

Definition set_angle (s : Sat) (a : R) : Sat :=
  mkSat (radius s) (mass s) a (velocity s) (angularVelocity s) (period s)
        (KE s) (PE s) (TE s) (ratio s).

(** [update(deltaTime, speedMultiplier)]. *)
Definition update (s : Sat) (deltaTime speedMultiplier : R) : Sat :=
  let effectiveAngularVelocity := angularVelocity s * speedMultiplier * 500 in
  let a := angle s + effectiveAngularVelocity * deltaTime in
  set_angle s (if Num.gtb a (2 * PI) then a - 2 * PI else a).

(** [getPosition()], [getVelocityDirection()], [getForceDirection()]:
    the [x] and [y] of the returned object. *)
Definition getPosition (s : Sat) : R * R :=
  (cos (angle s) * radius s, sin (angle s) * radius s).

Definition getVelocityDirection (s : Sat) : R * R :=
  (- sin (angle s), cos (angle s)).

Definition getForceDirection (s : Sat) : R * R :=
  (- cos (angle s), - sin (angle s)).

(** What the drawing code reads from the page state. *)
Record View := mkView {
  centerX : R;
  centerY : R;
  scale : R
}.

(** [metersToPixels(meters)] and [worldToCanvas(x, y)]. *)
Definition metersToPixels (v : View) (meters : R) : R := meters * scale v.

Definition worldToCanvas (v : View) (x y : R) : R * R :=
  (centerX v + metersToPixels v x, centerY v - metersToPixels v y).

(** The radius of the circle [drawOrbitPath] strokes around the centre. *)
Definition orbit_path_radius (v : View) (s : Sat) : R :=
  metersToPixels v (radius s).

(** Where [drawSatellite] puts the satellite. *)
Definition satellite_canvas_position (v : View) (s : Sat) : R * R :=
  worldToCanvas v (fst (getPosition s)) (snd (getPosition s)).

(** The far ends of the two arrows of [drawVectors]: velocity, then
    force. *)
Definition velocity_arrow_end (v : View) (s : Sat) : R * R :=
  let p := satellite_canvas_position v s in
  let vectorLength := 50 in
  (fst p + fst (getVelocityDirection s) * vectorLength,
   snd p - snd (getVelocityDirection s) * vectorLength).

Definition force_arrow_end (v : View) (s : Sat) : R * R :=
  let p := satellite_canvas_position v s in
  let vectorLength := 50 in
  (fst p + fst (getForceDirection s) * vectorLength * 0.7,
   snd p - snd (getForceDirection s) * vectorLength * 0.7).

(** Successive [update] calls. *)
Fixpoint run (s : Sat) (inputs : list (R * R)) : Sat :=
  match inputs with
  | [] => s
  | (dt, sp) :: rest => run (update s dt sp) rest
  end.

End Satellite.

(** ** Brick-throw page: the method bodies over arbitrary fields *)

Module WastageView.
Import Wastage.

(** [calculateEnergetics()] as a function of the three fields the
    constructor stores before calling it. *)
Definition calculateEnergeticsWith (g targetHeight velocityAtTarget : R)
  : Model :=
  let initialVelocity :=
    sqrt (velocityAtTarget * velocityAtTarget + 2 * g * targetHeight) in
  let keAtTarget := 0.5 * velocityAtTarget * velocityAtTarget in
  let peAtTarget := g * targetHeight in
  let totalEnergyAtTarget := keAtTarget + peAtTarget in
  let idealEnergy := peAtTarget in
  let wastedEnergy := totalEnergyAtTarget - idealEnergy in
  let wastePercentage := (wastedEnergy / totalEnergyAtTarget) * 100 in
  let wastePercentageAlt := (wastedEnergy / idealEnergy) * 100 in
  let additionalHeight := (velocityAtTarget * velocityAtTarget) / (2 * g) in
  let maxHeight := targetHeight + additionalHeight in
  let timeToTarget := (initialVelocity - velocityAtTarget) / g in
  let timeToMax := initialVelocity / g in
  mkModel g targetHeight velocityAtTarget initialVelocity keAtTarget
          peAtTarget totalEnergyAtTarget idealEnergy wastedEnergy
          wastePercentage wastePercentageAlt additionalHeight maxHeight
          timeToTarget timeToMax.

(** [getDisplayVelocity()]. *)
Definition getDisplayVelocity (s : State) : R := Rabs (velocity s).

(** The order in which the phases are meant to follow each other. *)
Definition rank (p : Phase) : nat :=
  match p with
  | throwing => 0 | ascending => 1 | at_target => 2 | continuing => 3
  | at_max => 4 | descending => 5 | landed => 6
  end.

(** Runs in which no timer callback ever fires. *)
Definition updates_only (es : list Event) : Prop :=
  Forall (fun e => match e with Update _ _ => True | Fire _ => False end) es.

(** A model whose launch energy and apex energy both equal the total
    energy at the target. *)
Definition energetic (m : Model) : Prop :=
  0 < g m /\ 0 < initialVelocity m /\
  initialVelocity m * initialVelocity m = 2 * totalEnergyAtTarget m /\
  g m * maxHeight m = totalEnergyAtTarget m.

(** What the energy read-out shows while the brick is in flight, and what
    it may show once it has landed. *)
Definition conserving (m : Model) (s : State) : Prop :=
  0 <= time s /\
  (phase s <> landed ->
   0 <= height s /\
   0.5 * velocity s * velocity s + g m * height s = totalEnergyAtTarget m) /\
  (phase s = landed ->
   totalEnergyAtTarget m
     <= 0.5 * velocity s * velocity s + g m * Rmax 0 (height s)).

(** The pauses are entered only through the target check. *)
Definition target_marked (s : State) : Prop :=
  phase s = at_target \/ phase s = continuing -> reachedTarget s = true.

End WastageView.

(** ** Free-fall page: tables, buttons and events *)

Module FreeFallView.
Import FreeFall.

(** The three look-up objects, keyed by whole seconds; a missing key is
    [undefined]. *)
Definition DISTANCES (k : Z) : option R :=
  match k with
  | 0%Z => Some 0
  | 1%Z => Some (0.5 * CONFIG_g * 1 * 1)
  | 2%Z => Some (0.5 * CONFIG_g * 2 * 2)
  | 3%Z => Some (0.5 * CONFIG_g * 3 * 3)
  | 4%Z => Some (0.5 * CONFIG_g * 4 * 4)
  | _ => None
  end.

Definition STOREYS_AT (k : Z) : option Z :=
  match k with
  | 0%Z => Some 0%Z
  | 1%Z => Some 1%Z
  | 2%Z => Some 4%Z
  | 3%Z => Some 9%Z
  | 4%Z => Some 16%Z
  | _ => None
  end.

Definition STOREYS_PER_SECOND (k : Z) : option Z :=
  match k with
  | 1%Z => Some 1%Z
  | 2%Z => Some 3%Z
  | 3%Z => Some 5%Z
  | 4%Z => Some 7%Z
  | _ => None
  end.

(** [getStoreysInInterval(intervalNum)]:
    [STOREYS_PER_SECOND[intervalNum] || 0]. *)
Definition getStoreysInInterval (intervalNum : Z) : Z :=
  match STOREYS_PER_SECOND intervalNum with
  | Some v => if Z.eqb v 0 then 0%Z else v
  | None => 0%Z
  end.

(** [resetSimulation()]. *)
Definition resetSimulation (st : State) : State :=
  mkState false (speed st) 0 reset (lastTimestamp st) [].

(** The play button's handler at wall-clock [now]. *)
Definition playClick (st : State) (now : R) : State :=
  let st := if Num.geb (currentTime st) CONFIG_totalTime
            then resetSimulation st else st in
  mkState true (speed st) (currentTime st) (ball st) now
          (completedIntervals st).

(** The pause button's handler. *)
Definition pauseClick (st : State) : State :=
  mkState false (speed st) (currentTime st) (ball st) (lastTimestamp st)
          (completedIntervals st).

(** A speed button's handler. *)
Definition speedClick (st : State) (x : R) : State :=
  mkState (isPlaying st) x (currentTime st) (ball st) (lastTimestamp st)
          (completedIntervals st).

(** [Set.prototype.add] on the list of reported seconds. *)
Definition add_interval (i : Z) (l : list Z) : list Z :=
  if mem_interval i l then l else l ++ [i].

(** The jump-to-last-second button's handler. *)
Definition lastSecondClick (st : State) : State :=
  mkState false (speed st) 3 (update (ball st) 3) (lastTimestamp st)
          (add_interval 3 (add_interval 2 (add_interval 1
             (completedIntervals st)))).

(** What can happen to the page. *)
Inductive Event :=
| Frame (timestamp : R)
| Play (now : R)
| Pause
| Reset
| Speed (x : R)
| LastSecond.

Definition handle (st : State) (e : Event) : State :=
  match e with
  | Frame ts => animate st ts
  | Play now => playClick st now
  | Pause => pauseClick st
  | Reset => resetSimulation st
  | Speed x => speedClick st x
  | LastSecond => lastSecondClick st
  end.

Definition is_jump (e : Event) : bool :=
  match e with LastSecond => true | _ => false end.

Definition handle_all (st : State) (es : list Event) : State :=
  fold_left handle es st.

(** The page right after [init()]. *)
Definition loaded : State := mkState false 1 0 reset 0 [].

(** The ball shows what the clock says. *)
Definition in_sync (st : State) : Prop :=
  y (ball st) = 0.5 * CONFIG_g * currentTime st * currentTime st /\
  velocity (ball st) = CONFIG_g * currentTime st /\
  currentTime st <= CONFIG_totalTime /\
  (finished (ball st) = true <-> currentTime st = CONFIG_totalTime) /\
  (isPlaying st = true -> currentTime st < CONFIG_totalTime).

(** The reported whole seconds are seconds 1 to 4, each once. *)
Definition intervals_ok (l : list Z) : Prop :=
  Forall (fun i => (1 <= i <= 4)%Z) l /\ NoDup l.

End FreeFallView.

(** ** Kepler page: the two-planet system (class SolarSystem) *)

Module SolarSystem.
Import Kepler.

(** [Math.trunc] and the remainder operator [%] on numbers. *)
Definition trunc (x : R) : Z :=
  if Num.leb 0 x then Int_part x else (- Int_part (- x))%Z.

Definition rem (a b : R) : R := a - b * IZR (trunc (a / b)).

(** One entry of [planets]; its [trail] is written by the drawing code
    only and is left out, as are the colours. *)
Record Planet := mkPlanet {
  R_orbit : R;
  T : R;
  omega : R;
  angle : R
}.

Record System := mkSystem {
  planets : list Planet;
  simulationTime : R;
  innerOrbits : Z;
  baseTimeScale : R
}.

Definition constructor : System :=
  mkSystem [mkPlanet CONFIG_R1 T1 (2 * PI / T1) 0;
            mkPlanet CONFIG_R2 T2 (2 * PI / T2) 0]
           0 0 (T2 / 5).

(** The body of the [forEach] of [update] for the planet at [index]:
    the planet afterwards, and by how much [innerOrbits] went up. *)
Definition step_planet (index : nat) (simDelta : R) (p : Planet)
  : Planet * Z :=
  let a := angle p + omega p * simDelta in
  let inner := Nat.eqb index 1 && Num.geb a (2 * PI) in
  let a := if inner then a - 2 * PI else a in
  let outer := Nat.eqb index 0 && Num.geb a (2 * PI) in
  let a := if outer then a - 2 * PI else a in
  (mkPlanet (R_orbit p) (T p) (omega p) a, if inner then 1%Z else 0%Z).

Fixpoint step_planets (index : nat) (simDelta : R) (ps : list Planet)
  : list Planet * Z :=
  match ps with
  | [] => ([], 0%Z)
  | p :: ps =>
      let (p', c) := step_planet index simDelta p in
      let (ps', c') := step_planets (S index) simDelta ps in
      (p' :: ps', (c + c')%Z)
  end.

(** [update(deltaTime, speedMultiplier)]. *)
Definition update (s : System) (deltaTime speedMultiplier : R) : System :=
  let simDelta := deltaTime * baseTimeScale s * speedMultiplier in
  let (ps, c) := step_planets 0 simDelta (planets s) in
  mkSystem ps (simulationTime s + simDelta) (innerOrbits s + c)%Z
           (baseTimeScale s).

(** [getProgress(planetIndex)]; [None] is the TypeError of an index with
    no planet. *)
Definition getProgress (s : System) (planetIndex : nat) : option R :=
  match nth_error (planets s) planetIndex with
  | Some p => Some (rem (angle p) (2 * PI) / (2 * PI))
  | None => None
  end.

(** [reset()]. *)
Definition reset (s : System) : System :=
  mkSystem (map (fun p => mkPlanet (R_orbit p) (T p) (omega p) 0) (planets s))
           0 0 (baseTimeScale s).

(** A run of [update] calls, each with its [(deltaTime, speedMultiplier)]. *)
Definition run (s : System) (inputs : list (R * R)) : System :=
  fold_left (fun s i => update s (fst i) (snd i)) inputs s.

(** Real seconds times speed, summed over the calls. *)
Definition turned (inputs : list (R * R)) : R :=
  fold_right (fun i acc => fst i * snd i + acc) 0 inputs.

(** Every call moves forward by less than one inner orbit (five scaled
    seconds). *)
Definition gentle (inputs : list (R * R)) : Prop :=
  Forall (fun i => 0 <= fst i * snd i < 5) inputs.

(** The system after [x] scaled seconds, in closed form. *)
Definition at_turn (x : R) : System :=
  mkSystem [mkPlanet CONFIG_R1 T1 (2 * PI / T1)
              (2 * PI * frac_part (x / 5000));
            mkPlanet CONFIG_R2 T2 (2 * PI / T2)
              (2 * PI * frac_part (x / 5))]
           (T2 / 5 * x) (Int_part (x / 5)) (T2 / 5).

End SolarSystem.

(** ** Stone-throw page: read-outs *)

Module StoneThrowView.
Import StoneThrow.

(** The drawing constants the constructor stores next to the physics. *)
Definition animationHeight : R := 360.
Definition groundOffset : R := 50.
Definition scale (s : Sim) : R := animationHeight / maxHeight s.

(** [getStonePosition()]: the stone's [bottom] in pixels. *)
Definition getStonePosition (s : Sim) : R :=
  groundOffset + height s * scale s.

(** [getProgress()]. *)
Definition getProgress (s : Sim) : R := (time s / totalTime s) * 100.

(** The constants of [constructor], which no method changes. *)
Definition configured (s : Sim) : Prop :=
  g s = CONFIG_g /\ maxHeight s = CONFIG_maxHeight /\
  timeToMaxHeight s = CONFIG_timeToMaxHeight /\
  initialVelocity s = CONFIG_g * CONFIG_timeToMaxHeight /\
  totalTime s = CONFIG_timeToMaxHeight + timeToFall s /\
  1 < timeToFall s.

(** What every state of a run satisfies. *)
Definition bounded (s : Sim) : Prop :=
  0 <= height s <= maxHeight s /\
  time s <= totalTime s /\
  (time s <= timeToMaxHeight s -> height s <= maxHeight s - 10).

End StoneThrowView.

(** ** Ball-throw page: parameters and read-outs *)

Module BallThrowView.
Import BallThrow.

(** [calculateTheoreticalValues()] on the fields [u], [g], [tLast] it
    reads. *)
Definition calculateTheoreticalValuesWith (u g tLast : R) : Model :=
  let totalAscentTime := u / g in
  let maxHeight := (u * u) / (2 * g) in
  let intervalStart := Rmax 0 (totalAscentTime - tLast) in
  let intervalEnd := totalAscentTime in
  let tStart := intervalStart in
  let heightAtIntervalStart := u * tStart - 0.5 * g * tStart * tStart in
  let theoreticalDistance := 0.5 * g * tLast * tLast in
  let actualIntervalDistance := maxHeight - heightAtIntervalStart in
  mkModel u g tLast totalAscentTime maxHeight intervalStart intervalEnd
          heightAtIntervalStart theoreticalDistance actualIntervalDistance.

(** [getDisplayTime()]. *)
Definition getDisplayTime (m : Model) (s : State) : R :=
  match phase s with
  | ascending => time s
  | descending => totalAscentTime m + time s
  | complete => totalAscentTime m * 2
  end.

Definition nonneg_inputs (inputs : list (R * R)) : Prop :=
  Forall (fun i => 0 <= fst i * snd i) inputs.

(** The phase clock of a flight in progress lies within its phase. *)
Definition on_clock (m : Model) (s : State) : Prop :=
  match phase s with
  | ascending => 0 <= time s < totalAscentTime m
  | descending => 0 <= time s < totalAscentTime m
  | complete => True
  end.

End BallThrowView.

(* ================================================================ *)
(** * Facts *)

Module NumFacts.
Import Num.

Lemma leb_true x y : leb x y = true <-> x <= y.
Proof. unfold leb; destruct (Rle_dec x y); split; intros; congruence || auto. Qed.

Lemma leb_false x y : leb x y = false <-> y < x.
Proof.
  unfold leb; destruct (Rle_dec x y); split; intros; try congruence; lra.
Qed.

Lemma ltb_true x y : ltb x y = true <-> x < y.
Proof. unfold ltb; destruct (Rlt_dec x y); split; intros; congruence || auto. Qed.

Lemma ltb_false x y : ltb x y = false <-> y <= x.
Proof.
  unfold ltb; destruct (Rlt_dec x y); split; intros; try congruence; lra.
Qed.

Lemma leb_spec x y : reflect (x <= y) (leb x y).
Proof. unfold leb; destruct (Rle_dec x y); constructor; assumption. Qed.

Lemma ltb_spec x y : reflect (x < y) (ltb x y).
Proof. unfold ltb; destruct (Rlt_dec x y); constructor; assumption. Qed.

End NumFacts.

(** Decide one comparison of the goal by linear arithmetic over the
    hypotheses, or split on it when it is open. *)
Ltac cmp_by_lra :=
  match goal with
  | |- context [Num.leb ?a ?b] =>
      first [ rewrite (proj2 (NumFacts.leb_true a b)) by lra
            | rewrite (proj2 (NumFacts.leb_false a b)) by lra ]
  | |- context [Num.ltb ?a ?b] =>
      first [ rewrite (proj2 (NumFacts.ltb_true a b)) by lra
            | rewrite (proj2 (NumFacts.ltb_false a b)) by lra ]
  end.

Ltac cmp_split :=
  match goal with
  | |- context [Num.leb ?a ?b] => destruct (NumFacts.leb_spec a b)
  | |- context [Num.ltb ?a ?b] => destruct (NumFacts.ltb_spec a b)
  end.

(** Run the innermost [DualBall.update] of the goal on its concrete
    state, settling each comparison by linear arithmetic. *)
Ltac dualball_step :=
  match goal with
  | |- context [DualBall.update ?s ?dt ?sp] =>
      lazymatch s with
      | context [DualBall.update _ _ _] => fail
      | _ =>
          let H := fresh "Hstep" in
          eassert (H : DualBall.update s dt sp = _);
          [ unfold DualBall.update, DualBall.update_ball, Num.gtb, Num.geb;
            simpl; repeat (cmp_by_lra; simpl); reflexivity
          | rewrite H; clear H; cbn [fst snd] ]
      end
  end.

Module DualBallFacts.
Import DualBall.

Lemma tracked_constructor : tracked constructor.
Proof.
  unfold tracked, constructor, CONFIG_g, CONFIG_totalTime; simpl.
  repeat split; try lra.
  eexists _, _; split; [reflexivity|].
  unfold ball_tracks, textbook_height, textbook_velocity; simpl.
  repeat cmp_by_lra.
  repeat split; try lra; try discriminate; intros; lra.
Qed.

(** A ball released at [d] from [4.9 (5 - d)^2] keeps following the
    textbook formulas when the clock moves forward to [t]. *)
Lemma update_ball_tracks s t bs b i d h0 :
  g s = 9.8 -> totalTime s = 5 ->
  (if Nat.eqb i 1 then ball1ImpactVelocity s else ball2ImpactVelocity s)
    = 9.8 * (5 - d) ->
  h0 = 4.9 * (5 - d) * (5 - d) -> 0 <= d < 5 ->
  time s <= t <= 5 ->
  ball_tracks s b i d h0 ->
  ball_tracks (set_time_balls s t bs) (update_ball s t b) i d h0.
Proof.
  intros Hg HT Hv Hh0 Hd Ht (Hi & Hdr & Hh & Hy & Hw & Hl).
  unfold ball_tracks, update_ball, Num.geb; simpl.
  rewrite Hi, Hdr, Hh, Hg, HT, Hv in *.
  unfold textbook_height, textbook_velocity in *.
  destruct (landed b) eqn:El; simpl.
  - assert (time s = 5) by (apply Hl; reflexivity).
    assert (t = 5) by lra. subst t.
    rewrite andb_false_r. rewrite H in *.
    repeat split; auto.
  - assert (time s <> 5) by (intro E; apply Hl in E; discriminate).
    rewrite andb_true_r.
    destruct (NumFacts.leb_spec d t) as [Hle|Hgt]; simpl.
    + rewrite (proj2 (NumFacts.ltb_false t d)) by lra.
      destruct (NumFacts.leb_spec (h0 - 0.5 * 9.8 * (t - d) * (t - d)) 0)
        as [Hz|Hp]; simpl.
      * assert (t = 5) by nra. subst t.
        repeat split; auto; try nra.
      * repeat split; auto; try discriminate.
        intros ->. exfalso. nra.
    + rewrite (proj2 (NumFacts.ltb_true t d)) by lra.
      rewrite (proj2 (NumFacts.ltb_true (time s) d)) in Hy, Hw by lra.
      rewrite El. repeat split; auto; try discriminate.
      intros ->. lra.
Qed.

Lemma tracked_update s dt sp :
  tracked s -> 0 <= dt * sp -> tracked (fst (update s dt sp)).
Proof.
  intros (Hg & HT & Hv1 & Hv2 & Ht & b1 & b2 & Hb & H1 & H2) Hd.
  unfold update, Num.gtb; simpl.
  rewrite Hb, HT; simpl.
  set (t := if Num.ltb 5 (time s + dt * sp) then 5 else time s + dt * sp).
  assert (Htb : time s <= t <= 5).
  { subst t; cmp_split; lra. }
  unfold tracked.
  repeat (split; [simpl; assumption || lra|]).
  eexists _, _; split; [reflexivity|].
  split; apply update_ball_tracks; auto; simpl; try lra.
Qed.

Lemma tracked_run inputs : forall s,
  tracked s -> nonneg_inputs inputs -> tracked (run s inputs).
Proof.
  induction inputs as [|[dt sp] rest IH]; intros s Hs Hn; cbn [run].
  - exact Hs.
  - inversion Hn; subst. apply IH; [apply tracked_update|]; assumption.
Qed.

Lemma time_update s dt sp :
  time (fst (update s dt sp)) = Rmin (totalTime s) (time s + dt * sp).
Proof.
  unfold update, Num.gtb; simpl. cmp_split.
  - rewrite Rmin_left by lra. reflexivity.
  - rewrite Rmin_right by lra. reflexivity.
Qed.

Lemma totalTime_update s dt sp :
  totalTime (fst (update s dt sp)) = totalTime s.
Proof. reflexivity. Qed.

Lemma totalTime_run inputs : forall s, totalTime (run s inputs) = totalTime s.
Proof.
  induction inputs as [|[dt sp] rest IH]; intros s; cbn [run]; [reflexivity|].
  rewrite IH. apply totalTime_update.
Qed.

Lemma elapsed_nonneg inputs : nonneg_inputs inputs -> 0 <= elapsed inputs.
Proof.
  induction 1 as [|[dt sp] rest H _ IH]; simpl in *; lra.
Qed.

(** Clamping after every call is clamping once at the end. *)
Lemma time_run inputs : forall s,
  nonneg_inputs inputs -> time s <= totalTime s ->
  time (run s inputs) = Rmin (totalTime s) (time s + elapsed inputs).
Proof.
  induction inputs as [|[dt sp] rest IH]; intros s Hn Hs; cbn [run elapsed].
  - rewrite Rmin_right by lra. lra.
  - inversion Hn as [|? ? Hd Hr]; subst; simpl in Hd.
    pose proof (elapsed_nonneg rest Hr) as He.
    rewrite IH; [|assumption|rewrite time_update; apply Rmin_l].
    rewrite totalTime_update, time_update.
    set (d := dt * sp) in *. set (e := elapsed rest) in *.
    unfold Rmin.
    destruct (Rle_dec (totalTime s) (time s + d));
      repeat match goal with |- context [Rle_dec ?a ?b] =>
        destruct (Rle_dec a b) end; lra.
Qed.

(** Both balls of a tracked simulation sit on the textbook curves. *)
Lemma tracked_closed_form s :
  tracked s ->
  Forall (fun b =>
            height b = textbook_height (g s) (initialHeight b) (dropTime b)
                         (time s) /\
            velocity b = textbook_velocity (g s) (dropTime b) (time s))
         (balls s).
Proof.
  intros (_ & _ & _ & _ & _ & b1 & b2 & Hb & H1 & H2).
  rewrite Hb.
  destruct H1 as (_ & Hd1 & Hh1 & Hy1 & Hw1 & _).
  destruct H2 as (_ & Hd2 & Hh2 & Hy2 & Hw2 & _).
  repeat constructor; congruence.
Qed.

Lemma tracked_trace inputs : forall s,
  tracked s -> nonneg_inputs inputs -> Forall tracked (trace s inputs).
Proof.
  induction inputs as [|[dt sp] rest IH]; intros s Hs Hn; cbn [trace].
  - constructor.
  - inversion Hn; subst.
    assert (tracked (fst (update s dt sp))) by (apply tracked_update; auto).
    constructor; [|apply IH]; assumption.
Qed.

(** On the textbook curves no ball is below ground before [totalTime]. *)
Lemma tracked_height_nonneg s :
  tracked s -> Forall (fun b => 0 <= height b) (balls s).
Proof.
  intros (Hg & _ & _ & _ & Ht & b1 & b2 & Hb & H1 & H2).
  rewrite Hb.
  destruct H1 as (_ & _ & _ & Hy1 & _).
  destruct H2 as (_ & _ & _ & Hy2 & _).
  unfold textbook_height in *. rewrite Hg in *.
  set (t := time s) in *.
  constructor; [|constructor; [|constructor]].
  - rewrite Hy1. cmp_split; [lra|].
    assert (0 <= (5 - t) * (5 + t)) by (apply Rmult_le_pos; lra). nra.
  - rewrite Hy2. cmp_split; [lra|].
    assert (0 <= (5 - t) * (t + 1)) by (apply Rmult_le_pos; lra). nra.
Qed.

(** The ground check of [update]: a falling ball whose formula is at or
    below ground comes out at exactly 0, landed. *)
Lemma update_ball_clamps s t b :
  landed b = false -> dropTime b <= t ->
  initialHeight b - 0.5 * g s * (t - dropTime b) * (t - dropTime b) <= 0 ->
  height (update_ball s t b) = 0 /\ landed (update_ball s t b) = true.
Proof.
  intros Hl Hd Hh. unfold update_ball, Num.geb.
  rewrite Hl, (proj2 (NumFacts.leb_true _ _) Hd); simpl.
  rewrite (proj2 (NumFacts.leb_true _ _) Hh); simpl. auto.
Qed.

(** A landed ball is left alone. *)
Lemma update_ball_landed s t b : landed b = true -> update_ball s t b = b.
Proof.
  intros Hl. unfold update_ball. rewrite Hl, andb_false_r. reflexivity.
Qed.

(** Once every ball has landed the clock sits at [totalTime], so a further
    call with a non-negative scaled delta returns the same object. *)
Lemma terminal_fixed s dt sp :
  tracked s -> forallb landed (balls s) = true -> 0 <= dt * sp ->
  update s dt sp = (s, true).
Proof.
  intros (_ & HT & _ & _ & Ht & b1 & b2 & Hb & H1 & H2) Hall Hd.
  rewrite Hb in Hall. simpl in Hall.
  apply andb_true_iff in Hall as [L1 Hall].
  apply andb_true_iff in Hall as [L2 _].
  assert (E : time s = totalTime s) by (apply H1; exact L1).
  unfold update, Num.gtb.
  assert (Et : (if Num.ltb (totalTime s) (time s + dt * sp)
                then totalTime s else time s + dt * sp) = time s).
  { cmp_split; lra. }
  rewrite Et, Hb. simpl.
  rewrite !update_ball_landed by assumption.
  rewrite L1, L2. simpl. f_equal.
  destruct s; simpl in *. subst. reflexivity.
Qed.


End DualBallFacts.

Module ConstantsFacts.

(** C7: with g = 9.8 and drops at t = 0 and t = 2.0, the dual-ball model
    derives height1 = 122.5 m, height2 = 44.1 m and a difference of 78.4 m
    (each within 0.05), the balls start at those heights, and one update
    to t = 5.0 lands both. *)
Theorem C7_dualball_heights :
  let s := DualBall.constructor in
  DualBall.g s = 9.8 /\
  map DualBall.dropTime (DualBall.balls s) = [0; 2.0] /\
  map DualBall.height (DualBall.balls s)
    = [DualBall.ball1Height s; DualBall.ball2Height s] /\
  Rabs (DualBall.ball1Height s - 122.5) <= 0.05 /\
  Rabs (DualBall.ball2Height s - 44.1) <= 0.05 /\
  Rabs (DualBall.heightDifference s - 78.4) <= 0.05 /\
  DualBall.time (fst (DualBall.update s 5.0 1)) = 5.0 /\
  map DualBall.height (DualBall.balls (fst (DualBall.update s 5.0 1)))
    = [0; 0] /\
  snd (DualBall.update s 5.0 1) = true.
Proof.
  cbv zeta.
  unfold DualBall.update, DualBall.update_ball, DualBall.constructor,
    DualBall.CONFIG_g, DualBall.CONFIG_totalTime, Num.gtb, Num.geb; simpl.
  repeat cmp_by_lra; simpl.
  repeat cmp_by_lra; simpl.
  repeat split; try reflexivity;
    try (apply Rabs_le; lra); try lra.
Qed.

(** [sqrt (4 x) = 2 sqrt x]: a square root doubles when its argument
    quadruples. *)
Lemma sqrt_quadruple x : 0 <= x -> sqrt (4 * x) = 2 * sqrt x.
Proof.
  intros Hx.
  rewrite sqrt_mult by lra.
  replace 4 with (2 * 2) by lra.
  rewrite sqrt_square by lra. reflexivity.
Qed.

(** C8: the half-escape model is built from G = 6.674e-11,
    M_earth = 5.972e24 kg and R_earth = 6.371e6 m; its escape speed is
    sqrt(2 G M / R), a positive speed, and it builds
    v_orbital = v_escape / 2, orbit radius r = 2R and height h = R = r - R,
    one Earth radius of 6.371e6 m; that speed is the circular-orbit speed
    sqrt(GM/r) at the radius it stores, and the page draws the orbit one
    Earth radius (in pixels) above the surface. *)
Theorem C8_half_escape_orbit :
  let s := HalfEscape.constructor in
  HalfEscape.v_orbital s = HalfEscape.v_escape s / 2 /\
  HalfEscape.orbitRadius s = 2 * HalfEscape.R_earth s /\
  HalfEscape.height s = HalfEscape.R_earth s /\
  HalfEscape.height s = HalfEscape.orbitRadius s - HalfEscape.R_earth s /\
  HalfEscape.v_orbital s
    = sqrt (HalfEscape.G s * HalfEscape.M_earth s / HalfEscape.orbitRadius s) /\
  HalfEscape.orbitRadiusPx - HalfEscape.earthRadiusPx
    = HalfEscape.earthRadiusPx /\
  HalfEscape.G s = 6.674e-11 /\
  HalfEscape.M_earth s = 5.972e24 /\
  HalfEscape.R_earth s = 6.371e6 /\
  HalfEscape.height s = 6.371e6 /\
  HalfEscape.orbitRadius s = 12.742e6 /\
  HalfEscape.v_escape s
    = sqrt (2 * HalfEscape.G s * HalfEscape.M_earth s / HalfEscape.R_earth s) /\
  0 < HalfEscape.v_orbital s < HalfEscape.v_escape s /\
  HalfEscape.v_escape s * HalfEscape.v_escape s
    = 2 * 6.674e-11 * 5.972e24 / 6.371e6 /\
  0 < HalfEscape.earthRadiusPx.
Proof.
  cbv zeta. unfold HalfEscape.constructor; simpl.
  set (G := 6.674e-11). set (M := 5.972e24). set (Re := 6.371e6).
  assert (HG : 0 < G) by (unfold G; lra).
  assert (HM : 0 < M) by (unfold M; lra).
  assert (HR : 0 < Re) by (unfold Re; lra).
  assert (Hq : 0 < G * M / (2 * Re)).
  { apply Rdiv_lt_0_compat; [apply Rmult_lt_0_compat|]; lra. }
  assert (He : 0 < 2 * G * M / Re).
  { apply Rdiv_lt_0_compat; [|lra].
    apply Rmult_lt_0_compat; [lra|exact HM]. }
  pose proof (sqrt_lt_R0 _ He) as Hv.
  repeat split; try lra; try reflexivity.
  - replace (2 * G * M / Re) with (4 * (G * M / (2 * Re))) by (field; lra).
    rewrite sqrt_quadruple by lra. lra.
  - unfold HalfEscape.orbitRadiusPx, HalfEscape.earthRadiusPx. lra.
  - unfold Re. lra.
  - apply sqrt_sqrt. lra.
  - unfold HalfEscape.earthRadiusPx. lra.
Qed.

(** C9: for R1 = 1e12 m and R2 = 1e10 m around a solar mass the periods
    T = 2 pi sqrt(R^3 / GM) have ratio T1 / T2 = 1000, hence within 1 % of
    1000. *)
Theorem C9_kepler_ratio :
  Kepler.PERIOD_RATIO = 1000 /\
  Rabs (Kepler.PERIOD_RATIO - 1000) <= 0.01 * 1000.
Proof.
  assert (E : Kepler.PERIOD_RATIO = 1000).
  { unfold Kepler.PERIOD_RATIO, Kepler.T1, Kepler.T2, Kepler.calculatePeriod,
      Kepler.CONFIG_R1, Kepler.CONFIG_R2.
    set (k := Kepler.CONFIG_G * Kepler.CONFIG_M_sun).
    assert (Hk : 0 < k).
    { unfold k, Kepler.CONFIG_G, Kepler.CONFIG_M_sun.
      apply Rmult_lt_0_compat; lra. }
    set (a := 1e10 ^ 3 / k).
    assert (Hp : 0 < 1e10 ^ 3) by (apply pow_lt; lra).
    assert (Ha : 0 < a) by (apply Rdiv_lt_0_compat; assumption).
    replace (1e12 ^ 3 / k) with ((1000 * 1000) * a).
    2:{ unfold a. replace 1e12 with (100 * 1e10) by lra.
        rewrite Rpow_mult_distr. field. lra. }
    rewrite sqrt_mult by lra.
    rewrite sqrt_square by lra.
    assert (Hs : 0 < sqrt a) by (apply sqrt_lt_R0; assumption).
    pose proof PI_RGT_0. field. split; lra. }
  split; [exact E|].
  rewrite E. replace (1000 - 1000) with 0 by lra. rewrite Rabs_R0. lra.
Qed.

End ConstantsFacts.

Module DriverFacts.

(** The clamped delta of the dual-ball driver never exceeds 0.1 s. *)
Lemma frame_delta_le st timestamp :
  DualBallDriver.frame_delta st timestamp <= 0.1.
Proof. unfold DualBallDriver.frame_delta. apply Rmin_r. Qed.

(** The free-fall driver hands over the raw delta and only stops the
    clock at [totalTime]. *)
Lemma freefall_animate_time st timestamp :
  FreeFall.isPlaying st = true ->
  FreeFall.currentTime (FreeFall.animate st timestamp)
  = Rmin FreeFall.CONFIG_totalTime
      (FreeFall.currentTime st
       + (timestamp - FreeFall.lastTimestamp st) / 1000 * FreeFall.speed st).
Proof.
  intros Hp. unfold FreeFall.animate, FreeFall.frame_delta, Num.geb.
  rewrite Hp; simpl.
  cmp_split.
  - rewrite Rmin_left by lra. reflexivity.
  - rewrite Rmin_right by lra. reflexivity.
Qed.

(** C3, as amended: a playing dual-ball driver steps its simulation with
    dt = min((timestamp - lastTimestamp) / 1000, 0.1), which is at most
    0.1 s; a playing free-fall driver advances its clock by the unclamped
    (timestamp - lastTimestamp) / 1000 times the speed, and only caps the
    resulting time at totalTime. *)
Theorem C3_frame_delta
  (st : DualBallDriver.State) (ft : FreeFall.State) (timestamp : R) :
  DualBallDriver.isPlaying st = true ->
  FreeFall.isPlaying ft = true ->
  let dt := DualBallDriver.frame_delta st timestamp in
  dt = Rmin ((timestamp - DualBallDriver.lastTimestamp st) / 1000) 0.1 /\
  dt <= 0.1 /\
  DualBallDriver.simulation (DualBallDriver.animate st timestamp)
    = fst (DualBall.update (DualBallDriver.simulation st) dt
             (DualBallDriver.speedMultiplier st)) /\
  DualBallDriver.lastTimestamp (DualBallDriver.animate st timestamp)
    = timestamp /\
  FreeFall.frame_delta ft timestamp
    = (timestamp - FreeFall.lastTimestamp ft) / 1000 /\
  FreeFall.currentTime (FreeFall.animate ft timestamp)
    = Rmin FreeFall.CONFIG_totalTime
        (FreeFall.currentTime ft
         + FreeFall.frame_delta ft timestamp * FreeFall.speed ft).
Proof.
  intros Hp Hf dt.
  split; [reflexivity|].
  split; [apply frame_delta_le|].
  assert (Ha : DualBallDriver.animate st timestamp
               = let '(sim, completed) :=
                   DualBall.update (DualBallDriver.simulation st) dt
                     (DualBallDriver.speedMultiplier st) in
                 if completed
                 then DualBallDriver.mkState false
                        (DualBallDriver.speedMultiplier st) false timestamp sim
                 else DualBallDriver.mkState true
                        (DualBallDriver.speedMultiplier st) true timestamp sim).
  { unfold DualBallDriver.animate. rewrite Hp. reflexivity. }
  rewrite Ha.
  destruct (DualBall.update _ _ _) as [sim [|]]; simpl.
  - repeat split; try reflexivity. apply freefall_animate_time; assumption.
  - repeat split; try reflexivity. apply freefall_animate_time; assumption.
Qed.

Lemma C3_frame_delta_witness :
  let st := DualBallDriver.play
              (DualBallDriver.mkState false 1 false 0 DualBall.constructor) 0 in
  let ft := FreeFall.playing_from 0 in
  DualBallDriver.frame_delta st 1000 <= 0.1 /\
  FreeFall.currentTime (FreeFall.animate ft 1000)
    = Rmin FreeFall.CONFIG_totalTime
        (FreeFall.currentTime ft
         + FreeFall.frame_delta ft 1000 * FreeFall.speed ft).
Proof.
  intros st ft.
  pose proof (C3_frame_delta st ft 1000 eq_refl eq_refl) as H.
  cbv zeta in H. split; apply H.
Defined.

(** C3 fails as stated: after one second without a frame the free-fall
    driver's delta is 1 s, not min(1, 0.1), and the ball's clock jumps by
    a whole second in one frame. *)
Lemma C3_counterexample :
  let ft := FreeFall.playing_from 0 in
  FreeFall.frame_delta ft 1000 = 1 /\
  FreeFall.frame_delta ft 1000
    <> Rmin ((1000 - FreeFall.lastTimestamp ft) / 1000) 0.1 /\
  ~ FreeFall.frame_delta ft 1000 <= 0.1 /\
  FreeFall.currentTime (FreeFall.animate ft 1000) = 1 /\
  FreeFall.y (FreeFall.ball (FreeFall.animate ft 1000)) = 5.
Proof.
  cbv zeta.
  unfold FreeFall.animate, FreeFall.update, FreeFall.frame_delta,
    FreeFall.playing_from, FreeFall.CONFIG_totalTime, FreeFall.CONFIG_g,
    Num.geb; simpl.
  repeat cmp_by_lra; simpl.
  rewrite Rmin_right by lra.
  repeat split; try lra.
Qed.

(** What the driver's wall clock contributes to a run is the list of
    clamped deltas, and nothing else. *)
Lemma frames_feed timestamps : forall st,
  DualBallDriver.simulation (DualBallDriver.frames st timestamps)
  = DualBallDriver.feed (DualBallDriver.simulation st)
      (DualBallDriver.speedMultiplier st) (DualBallDriver.isPlaying st)
      (DualBallDriver.deltas (DualBallDriver.lastTimestamp st) timestamps).
Proof.
  induction timestamps as [|ts rest IH]; intros st;
    cbn [DualBallDriver.frames DualBallDriver.deltas DualBallDriver.feed].
  - reflexivity.
  - rewrite IH. unfold DualBallDriver.animate, DualBallDriver.frame_delta.
    destruct (DualBallDriver.isPlaying st) eqn:Hp; cbn [negb].
    + destruct (DualBall.update _ _ _) as [sim [|]]; reflexivity.
    + rewrite Hp. destruct rest; reflexivity.
Qed.

End DriverFacts.

Module HalfEscapeFacts.
Import HalfEscape.

(** While playing, every frame adds the same 0.02 rad. *)
Lemma frames_angle gaps : forall s,
  isPlaying s = true ->
  angle (frames s gaps) = angle s + 0.02 * INR (length gaps).
Proof.
  induction gaps as [|x rest IH]; intros s Hp.
  - simpl. lra.
  - cbn [frames length]. rewrite S_INR, IH.
    + unfold animate. rewrite Hp. simpl. lra.
    + unfold animate. rewrite Hp. reflexivity.
Qed.

End HalfEscapeFacts.

Module ClosedFormFacts.

(** C1, as amended: for the dual-ball stepper and any update calls with
    non-negative scaled deltas, the clock is t = min(totalTime, sum of
    dt * speed) and each ball's height and velocity are the textbook
    values at t (h0 and 0 before its drop time, h0 - g (t - dropTime)^2 / 2
    and g (t - dropTime) from then on); the half-escape orbit has no time
    input at all: its angle is accumulated, 0.02 rad per frame, whatever
    time the frames took. *)
Theorem C1_closed_form (inputs : list (R * R)) (gaps : list R) :
  DualBall.nonneg_inputs inputs ->
  let s := DualBall.run DualBall.constructor inputs in
  DualBall.time s = Rmin (DualBall.totalTime s) (DualBall.elapsed inputs) /\
  Forall (fun b =>
            DualBall.height b
              = DualBall.textbook_height (DualBall.g s)
                  (DualBall.initialHeight b) (DualBall.dropTime b)
                  (DualBall.time s) /\
            DualBall.velocity b
              = DualBall.textbook_velocity (DualBall.g s)
                  (DualBall.dropTime b) (DualBall.time s))
         (DualBall.balls s) /\
  HalfEscape.angle
    (HalfEscape.frames (HalfEscape.play HalfEscape.constructor) gaps)
    = 0.02 * INR (S (length gaps)).
Proof.
  intros Hn s. split; [|split].
  - subst s. rewrite DualBallFacts.time_run; [|assumption|].
    + rewrite DualBallFacts.totalTime_run. f_equal.
      unfold DualBall.constructor; simpl. lra.
    + unfold DualBall.constructor, DualBall.CONFIG_totalTime; simpl. lra.
  - apply DualBallFacts.tracked_closed_form.
    apply DualBallFacts.tracked_run;
      [apply DualBallFacts.tracked_constructor | assumption].
  - rewrite HalfEscapeFacts.frames_angle by reflexivity.
    rewrite S_INR. unfold HalfEscape.play, HalfEscape.animate; simpl. lra.
Qed.

Lemma C1_closed_form_witness :
  DualBall.nonneg_inputs [(0.1, 1); (0.1, 2)] /\
  DualBall.time (DualBall.run DualBall.constructor [(0.1, 1); (0.1, 2)])
    = Rmin 5.0 (DualBall.elapsed [(0.1, 1); (0.1, 2)]) /\
  HalfEscape.angle
    (HalfEscape.frames (HalfEscape.play HalfEscape.constructor) [1; 0.5])
    = 0.02 * INR 3.
Proof.
  assert (Hn : DualBall.nonneg_inputs [(0.1, 1); (0.1, 2)]).
  { repeat constructor; simpl; lra. }
  split; [exact Hn|].
  pose proof (C1_closed_form [(0.1, 1); (0.1, 2)] [1; 0.5] Hn) as H.
  cbv zeta in H. destruct H as (Ht & _ & Ha).
  split; [exact Ht | exact Ha].
Defined.

(** C1 fails as stated.  The half-escape angle is no function of the
    absolute time: one frame after a second and two frames after half a
    second each reach the same time with different angles.  And the
    dual-ball heights follow the clock only forwards: after a step back
    from t = 3 to t = 1 the second ball, not yet dropped at t = 1, still
    shows its height of t = 3. *)
Lemma C1_counterexample :
  ~ (exists f : R -> R, forall gaps,
       HalfEscape.angle
         (HalfEscape.frames (HalfEscape.play HalfEscape.constructor) gaps)
       = f (HalfEscape.total gaps)) /\
  (let s := DualBall.run DualBall.constructor [(3, 1); (-2, 1)] in
   DualBall.time s = 1 /\
   map DualBall.height (DualBall.balls s) = [117.6; 39.2] /\
   map (fun b => DualBall.textbook_height (DualBall.g s)
                   (DualBall.initialHeight b) (DualBall.dropTime b)
                   (DualBall.time s)) (DualBall.balls s)
     = [117.6; 44.1]).
Proof.
  split.
  - intros [f Hf].
    pose proof (Hf [1]) as H1. pose proof (Hf [0.5; 0.5]) as H2.
    rewrite HalfEscapeFacts.frames_angle in H1, H2 by reflexivity.
    simpl in H1, H2.
    replace (0.5 + (0.5 + 0)) with (1 + 0) in H2 by lra.
    rewrite <- H1 in H2. lra.
  - cbv zeta. cbn [DualBall.run].
    unfold DualBall.constructor, DualBall.CONFIG_g,
      DualBall.CONFIG_totalTime.
    repeat dualball_step.
    unfold DualBall.textbook_height; simpl.
    repeat cmp_by_lra.
    split; [lra|].
    split; (f_equal; [lra | f_equal; lra]).
Qed.

End ClosedFormFacts.

(** Unfold the record plumbing of the brick-throw page, leaving the real
    arithmetic and the comparisons as they are. *)
Ltac wastage_cbv :=
  cbv beta iota zeta delta
    [Wastage.time Wastage.height Wastage.velocity Wastage.phase
     Wastage.reachedTarget Wastage.reachedMax Wastage.trail
     Wastage.currentKE Wastage.currentPE Wastage.currentTotal
     Wastage.set_time Wastage.set_phase Wastage.set_motion
     Wastage.set_energies Wastage.phase_eqb Wastage.timer_eqb
     Wastage.sim Wastage.pending Wastage.fire Wastage.remove_first
     Wastage.g Wastage.targetHeight Wastage.velocityAtTarget
     Wastage.initialVelocity Wastage.maxHeight
     Trail.push andb negb orb app length Nat.ltb Nat.leb tl fst snd
     option_map Num.gtb Num.geb].

(** Evaluate one call [f args] of the goal apart, so that its result is
    shared by all its uses; each comparison is settled by linear
    arithmetic. *)
Ltac wastage_sub call unfolder :=
  let H := fresh "Hsub" in
  eassert (H : call = _);
  [ unfolder; wastage_cbv; repeat (cmp_by_lra; wastage_cbv); reflexivity
  | rewrite H; clear H ].

Ltac wastage_parts :=
  repeat match goal with
         | |- context [Wastage.tick ?s ?d] =>
             wastage_sub (Wastage.tick s d) ltac:(unfold Wastage.tick)
         | |- context [Wastage.rise ?m ?s] =>
             wastage_sub (Wastage.rise m s) ltac:(unfold Wastage.rise)
         | |- context [Wastage.fall ?m ?s] =>
             wastage_sub (Wastage.fall m s) ltac:(unfold Wastage.fall)
         end.

(** Run the innermost [Wastage.update] of the goal on its concrete state. *)
Ltac wastage_step :=
  match goal with
  | |- context [Wastage.update ?m ?s ?dt ?sp] =>
      lazymatch s with
      | context [Wastage.update _ _ _ _] => fail
      | _ =>
          let H := fresh "Hstep" in
          eassert (H : Wastage.update m s dt sp = _);
          [ unfold Wastage.update; wastage_parts;
            unfold Wastage.move; wastage_cbv; wastage_parts; wastage_cbv;
            reflexivity
          | rewrite H; clear H ]
      end
  end.

(** Run a whole list of events from a concrete world. *)
Ltac wastage_run :=
  repeat (cbn [Wastage.exec Wastage.observed Wastage.step];
          wastage_cbv;
          try wastage_step).

(** Replace the [Wastage.observed] run of the goal by the states it
    yields. *)
Ltac wastage_observe :=
  match goal with
  | |- context [Wastage.observed ?m ?w ?es] =>
      let E := fresh "Eobs" in
      eassert (E : Wastage.observed m w es = Some _)
        by (wastage_run; reflexivity);
      rewrite E; clear E; cbn [option_map map]; wastage_cbv
  end.

Module WastageFacts.
Import Wastage.

(** The launch speed sqrt(236) lies between 15 and 16 m/s. *)
Lemma initialVelocity_bounds : 15 < initialVelocity model < 16.
Proof.
  unfold model, calculateEnergetics, CONFIG_g, CONFIG_targetHeight,
    CONFIG_velocityAtTarget; simpl.
  replace (6 * 6 + 2 * 10 * 10) with 236 by lra.
  split.
  - replace 15 with (sqrt (15 * 15)) by (apply sqrt_square; lra).
    apply sqrt_lt_1; lra.
  - replace 16 with (sqrt (16 * 16)) by (apply sqrt_square; lra).
    apply sqrt_lt_1; lra.
Qed.

Lemma model_g : g model = 10.
Proof. reflexivity. Qed.

Lemma model_targetHeight : targetHeight model = 10.
Proof. reflexivity. Qed.

Lemma model_maxHeight : maxHeight model = 11.8.
Proof.
  unfold model, calculateEnergetics, CONFIG_g, CONFIG_targetHeight,
    CONFIG_velocityAtTarget; simpl. lra.
Qed.

Lemma model_sane : sane model.
Proof.
  unfold sane. rewrite model_g, model_maxHeight.
  pose proof initialVelocity_bounds. lra.
Qed.

Lemma rise_height_nonneg m s :
  sane m -> 0 <= time s -> 0 <= height (rise m s).
Proof.
  intros (Hg & Hu & Hm) Ht. unfold rise, Num.geb; simpl.
  set (t := time s) in *.
  destruct (Num.leb (targetHeight m) _ && negb (reachedTarget s)); simpl;
    (destruct (NumFacts.leb_spec (initialVelocity m - g m * t) 0);
     simpl; [assumption|];
     assert (0 <= t * (initialVelocity m - g m * t))
       by (apply Rmult_le_pos; lra); nra).
Qed.

Lemma fall_height_nonneg m s : 0 <= height (fall m s).
Proof.
  unfold fall; simpl. cmp_split; simpl; lra.
Qed.

Lemma tick_time_nonneg s d : 0 <= time s -> 0 <= d -> 0 <= time (tick s d).
Proof.
  intros Ht Hd. unfold tick; simpl.
  destruct (phase_eqb (phase s) throwing && _); simpl; lra.
Qed.

Lemma tick_height s d : height (tick s d) = height s.
Proof.
  unfold tick; simpl.
  destruct (phase_eqb (phase s) throwing && _); reflexivity.
Qed.

Lemma move_time m s : time (fst (move m s)) = time s.
Proof.
  unfold move, rise, fall.
  destruct (phase s); simpl; try reflexivity;
    repeat match goal with
           | |- context [if ?c then _ else _] => destruct c; simpl
           end; reflexivity.
Qed.

Lemma move_height_nonneg m s :
  sane m -> 0 <= time s -> 0 <= height s -> 0 <= height (fst (move m s)).
Proof.
  intros Hm Ht Hh. unfold move.
  destruct (phase s); simpl; auto using rise_height_nonneg, fall_height_nonneg.
Qed.

(** [update] keeps the clock and the height at or above zero. *)
Lemma update_nonneg m s dt sp :
  sane m -> 0 <= dt * sp -> 0 <= time s -> 0 <= height s ->
  let s' := fst (fst (update m s dt sp)) in
  0 <= time s' /\ 0 <= height s'.
Proof.
  intros Hm Hd Ht Hh. cbv zeta. unfold update.
  pose proof (tick_time_nonneg s (dt * sp) Ht Hd) as H1.
  pose proof (tick_height s (dt * sp)) as H2.
  pose proof (move_time m (tick s (dt * sp))) as H3.
  pose proof (move_height_nonneg m (tick s (dt * sp)) Hm H1) as H4.
  rewrite H2 in H4. specialize (H4 Hh).
  destruct (move m (tick s (dt * sp))) as [s2 timers]; simpl in *.
  split; lra.
Qed.

Lemma fire_nonneg k s :
  0 <= time s -> 0 <= height s ->
  0 <= time (fire k s) /\ 0 <= height (fire k s).
Proof.
  intros Ht Hh. unfold fire.
  destruct k; match goal with |- context [if ?c then _ else _] =>
    destruct c end; simpl; split; lra.
Qed.

Lemma step_nonneg m w e w' :
  sane m ->
  match e with Update dt sp => 0 <= dt * sp | Fire _ => True end ->
  0 <= time (sim w) -> 0 <= height (sim w) ->
  step m w e = Some w' ->
  0 <= time (sim w') /\ 0 <= height (sim w').
Proof.
  intros Hm He Ht Hh Hs. destruct e as [dt sp|k]; simpl in Hs.
  - pose proof (update_nonneg m (sim w) dt sp Hm He Ht Hh) as H.
    cbv zeta in H.
    destruct (update m (sim w) dt sp) as [[s2 timers] fin].
    inversion Hs; subst; simpl in *. exact H.
  - destruct (remove_first k (pending w)); [|discriminate].
    inversion Hs; subst; simpl. apply fire_nonneg; assumption.
Qed.

(** Whatever the driver and the timers do, with non-negative scaled
    deltas the brick is never shown below ground. *)
Lemma exec_nonneg m es : forall w w',
  sane m -> nonneg_events es ->
  0 <= time (sim w) -> 0 <= height (sim w) ->
  exec m w es = Some w' ->
  0 <= time (sim w') /\ 0 <= height (sim w').
Proof.
  induction es as [|e rest IH]; intros w w' Hm Hn Ht Hh He; simpl in He.
  - inversion He; subst. split; assumption.
  - inversion Hn as [|? ? H1 H2]; subst.
    destruct (step m w e) as [w1|] eqn:Es; [|discriminate].
    destruct (step_nonneg m w e w1 Hm H1 Ht Hh Es) as [Ht1 Hh1].
    eapply IH; eauto.
Qed.

Lemma model_page : page model.
Proof.
  unfold page. rewrite model_maxHeight.
  pose proof initialVelocity_bounds. auto.
Qed.

(** Open the model of a page: its rational fields become numerals, its
    launch speed a variable with bounds. *)
Ltac page_fields H :=
  match type of H with
  | page ?m =>
      let Hg := fresh in let Ht := fresh in let Hx := fresh in
      destruct H as (Hg & Ht & Hx & ?); destruct m;
      cbn [g targetHeight maxHeight initialVelocity] in *; subst
  end.

(** A list of reals equals a list of numerals when the entries agree. *)
Ltac reals_eq :=
  repeat (apply f_equal2; [lra|]); reflexivity.


(** A run that overshoots the apex in one step: the rising formula is
    below ground at t = 4, and the brick is put at the apex. *)
Lemma overshoot m :
  page m ->
  let obs := observed m (mkWorld (reset m) [])
               [Update 0.1 4; Update 0.1 40] in
  option_map (map phase) obs = Some [ascending; at_max] /\
  option_map (map time) obs = Some [0; 4] /\
  option_map (map height) obs = Some [0; 11.8].
Proof.
  intros Hm obs. subst obs. page_fields Hm. unfold reset.
  wastage_observe.
  split; [reflexivity | split; f_equal; reals_eq].
Qed.


Lemma timer_fired_observed m :
  page m ->
  let obs := observed m (mkWorld (reset m) []) timer_fired in
  option_map (map phase) obs
    = Some [ascending; at_target; at_target; continuing] /\
  option_map (map height) obs
    = Some [0; initialVelocity m - 5; initialVelocity m - 5;
            1.2 * initialVelocity m - 7.2].
Proof.
  intros Hm obs. subst obs. page_fields Hm. unfold reset, timer_fired.
  wastage_observe.
  split; [reflexivity | f_equal; reals_eq].
Qed.

Lemma timer_late_observed m :
  page m ->
  let obs := observed m (mkWorld (reset m) []) timer_late in
  option_map (map phase) obs
    = Some [ascending; at_target; at_target; at_target] /\
  option_map (map height) obs
    = Some [0; initialVelocity m - 5; initialVelocity m - 5;
            initialVelocity m - 5].
Proof.
  intros Hm obs. subst obs. page_fields Hm. unfold reset, timer_late.
  wastage_observe.
  split; [reflexivity | f_equal; reals_eq].
Qed.




(** During a pause the stepper only moves the clock and sets its timer
    once more; it cannot leave the pause by itself. *)
Lemma paused_update m s dt sp :
  phase s = at_target \/ phase s = at_max ->
  let '(s', timers, fin) := update m s dt sp in
  phase s' = phase s /\ height s' = height s /\ velocity s' = velocity s /\
  time s' = time s + dt * sp /\ fin = false /\
  timers = [if phase_eqb (phase s) at_target then TargetPause else MaxPause].
Proof.
  intros [Hp|Hp]; destruct s; simpl in Hp; subst;
    unfold update, tick, move; simpl; repeat split; reflexivity.
Qed.

(** A timer that fires outside its own pause changes nothing. *)
Lemma fire_elsewhere k s :
  phase s <> (match k with TargetPause => at_target | MaxPause => at_max end) ->
  fire k s = s.
Proof.
  intros Hp. unfold fire.
  destruct k, (phase s); simpl; try reflexivity; contradiction.
Qed.

(** The timer that ends the pause at the target resumes the flight; the
    one that ends the pause at the apex starts the descent on a fresh
    clock. *)
Lemma fire_in_pause s :
  (phase s = at_target ->
   fire TargetPause s = set_phase s continuing) /\
  (phase s = at_max ->
   fire MaxPause s = set_time (set_phase s descending) 0).
Proof.
  split; intros Hp; unfold fire; rewrite Hp; reflexivity.
Qed.

(** The ground check of the descent and the apex check of the ascent. *)
Lemma fall_clamps m s :
  maxHeight m - 0.5 * g m * time s * time s <= 0 ->
  height (fall m s) = 0 /\ phase (fall m s) = landed.
Proof.
  intros H. unfold fall; simpl.
  rewrite (proj2 (NumFacts.leb_true _ _) H). auto.
Qed.

Lemma rise_snaps m s :
  initialVelocity m - g m * time s <= 0 ->
  height (rise m s) = maxHeight m /\ velocity (rise m s) = 0 /\
  phase (rise m s) = at_max.
Proof.
  intros H. unfold rise; simpl.
  destruct (Num.geb _ _ && negb (reachedTarget s)); simpl;
    rewrite (proj2 (NumFacts.leb_true _ _) H); auto.
Qed.

(** Every state seen after an [update] of a run has its height at or
    above zero. *)
Lemma observed_nonneg m es : forall w l,
  sane m -> nonneg_events es ->
  0 <= time (sim w) -> 0 <= height (sim w) ->
  observed m w es = Some l ->
  Forall (fun s => 0 <= height s) l.
Proof.
  induction es as [|e rest IH]; intros w l Hm Hn Ht Hh Ho; simpl in Ho.
  - inversion Ho; subst. constructor.
  - inversion Hn as [|? ? H1 H2]; subst.
    destruct (step m w e) as [w1|] eqn:Es; [|discriminate].
    destruct (step_nonneg m w e w1 Hm H1 Ht Hh Es) as [Ht1 Hh1].
    specialize (IH w1).
    destruct e as [dt sp|k];
      destruct (observed m w1 rest) as [l1|]; try discriminate;
      inversion Ho; subst.
    + constructor; [assumption|]. eapply IH; eauto.
    + eapply IH; eauto.
Qed.

End WastageFacts.

Module TerminalFacts.





End TerminalFacts.

Module InvariantFacts.

(** C4: under non-negative scaled deltas the height seen after every
    update is never negative, for both dual-ball balls, for the brick
    (whatever its timers do) and for the stone; a falling-phase formula
    that reaches or crosses the ground is clamped to exactly 0.  (A
    rising-phase step of the brick that runs past the apex ends at
    maxHeight, which is not negative either.) *)
Theorem C4_height_nonneg
  (inputs : list (R * R)) (es : list Wastage.Event)
  (l : list Wastage.State) :
  DualBall.nonneg_inputs inputs ->
  Wastage.nonneg_events es ->
  Wastage.observed Wastage.model Wastage.initial es = Some l ->
  Forall (fun s => Forall (fun b => 0 <= DualBall.height b)
                          (DualBall.balls s))
         (DualBall.trace DualBall.constructor inputs) /\
  Forall (fun s => 0 <= Wastage.height s) l /\
  (forall s dt, 0 <= StoneThrow.height (fst (StoneThrow.update s dt))) /\
  (forall s t b,
     DualBall.landed b = false -> DualBall.dropTime b <= t ->
     DualBall.initialHeight b
       - 0.5 * DualBall.g s * (t - DualBall.dropTime b)
           * (t - DualBall.dropTime b) <= 0 ->
     DualBall.height (DualBall.update_ball s t b) = 0) /\
  (forall m s,
     Wastage.maxHeight m
       - 0.5 * Wastage.g m * Wastage.time s * Wastage.time s <= 0 ->
     Wastage.height (Wastage.fall m s) = 0) /\
  (forall m s,
     Wastage.initialVelocity m - Wastage.g m * Wastage.time s <= 0 ->
     Wastage.height (Wastage.rise m s) = Wastage.maxHeight m).
Proof.
  intros Hn He Ho. repeat split.
  - pose proof (DualBallFacts.tracked_trace inputs DualBall.constructor
                  DualBallFacts.tracked_constructor Hn) as Ht.
    eapply Forall_impl; [|exact Ht].
    intros s Hs. apply DualBallFacts.tracked_height_nonneg. exact Hs.
  - eapply WastageFacts.observed_nonneg;
      [apply WastageFacts.model_sane | exact He | | | exact Ho];
      simpl; lra.
  - intros s dt. unfold StoneThrow.update.
    repeat match goal with
           | |- context [if ?c then _ else _] => destruct c
           end; simpl; try lra; apply Rmax_l.
  - intros s t b Hl Hd Hh.
    apply (DualBallFacts.update_ball_clamps s t b Hl Hd Hh).
  - intros m s Hh. apply (WastageFacts.fall_clamps m s Hh).
  - intros m s Hv. apply (WastageFacts.rise_snaps m s Hv).
Qed.

Lemma C4_height_nonneg_witness :
  Forall (fun s => Forall (fun b => 0 <= DualBall.height b)
                          (DualBall.balls s))
         (DualBall.trace DualBall.constructor [(0.1, 1); (5, 1)]) /\
  (exists l,
     Wastage.observed Wastage.model Wastage.initial
       [Wastage.Update 0.1 4; Wastage.Update 0.1 40] = Some l /\
     Forall (fun s => 0 <= Wastage.height s) l).
Proof.
  assert (Hn : DualBall.nonneg_inputs [(0.1, 1); (5, 1)])
    by (repeat constructor; simpl; lra).
  assert (He : Wastage.nonneg_events
                 [Wastage.Update 0.1 4; Wastage.Update 0.1 40]).
  { constructor; [lra|]. constructor; [lra|]. constructor. }
  destruct (Wastage.observed Wastage.model Wastage.initial
              [Wastage.Update 0.1 4; Wastage.Update 0.1 40]) as [l|] eqn:Eo.
  - pose proof (C4_height_nonneg _ _ l Hn He Eo) as (H1 & H2 & _).
    split; [exact H1|]. exists l. split; [reflexivity | exact H2].
  - exfalso.
    pose proof (WastageFacts.overshoot Wastage.model WastageFacts.model_page)
      as H.
    cbv zeta in H. destruct H as (H & _).
    change (Wastage.mkWorld (Wastage.reset Wastage.model) [])
      with Wastage.initial in H.
    rewrite Eo in H. discriminate.
Defined.




End InvariantFacts.

Module DeterminismFacts.

(** C6, as amended: the dual-ball simulation after a run of frames is
    determined by the prior simulation, the speed, the playing flag and
    the clamped deltas; the wall-clock timestamps enter through those
    deltas only.  The brick's state sequence is determined by the
    (deltaTime, speedMultiplier) sequence together with the moments at
    which its two pause timers fire: a firing timer changes the state only
    in its own pause, which it ends, and update alone never leaves a
    pause (it moves the clock and sets the timer again). *)
Theorem C6_determinism
  (st1 st2 : DualBallDriver.State) (tss1 tss2 : list R)
  (m : Wastage.Model) (w : Wastage.State) (k : Wastage.Timer)
  (dt sp : R) :
  DualBallDriver.simulation st1 = DualBallDriver.simulation st2 ->
  DualBallDriver.speedMultiplier st1 = DualBallDriver.speedMultiplier st2 ->
  DualBallDriver.isPlaying st1 = DualBallDriver.isPlaying st2 ->
  DualBallDriver.deltas (DualBallDriver.lastTimestamp st1) tss1
    = DualBallDriver.deltas (DualBallDriver.lastTimestamp st2) tss2 ->
  DualBallDriver.simulation (DualBallDriver.frames st1 tss1)
    = DualBallDriver.simulation (DualBallDriver.frames st2 tss2) /\
  (Wastage.phase w <> Wastage.pause_of k -> Wastage.fire k w = w) /\
  (Wastage.phase w = Wastage.pause_of k ->
   Wastage.fire k w
   = match k with
     | Wastage.TargetPause => Wastage.set_phase w Wastage.continuing
     | Wastage.MaxPause =>
         Wastage.set_time (Wastage.set_phase w Wastage.descending) 0
     end) /\
  (Wastage.phase w = Wastage.pause_of k ->
   let '(w', timers, fin) := Wastage.update m w dt sp in
   Wastage.phase w' = Wastage.phase w /\
   Wastage.height w' = Wastage.height w /\
   Wastage.velocity w' = Wastage.velocity w /\
   Wastage.time w' = Wastage.time w + dt * sp /\
   fin = false /\ timers = [k]).
Proof.
  intros Hs Hv Hp Hd. repeat split.
  - rewrite !DriverFacts.frames_feed. rewrite Hs, Hv, Hp, Hd. reflexivity.
  - intros Hk. apply WastageFacts.fire_elsewhere. exact Hk.
  - intros Hk. destruct k; apply WastageFacts.fire_in_pause; exact Hk.
  - intros Hk.
    assert (Hor : Wastage.phase w = Wastage.at_target
                  \/ Wastage.phase w = Wastage.at_max)
      by (destruct k; simpl in Hk; auto).
    pose proof (WastageFacts.paused_update m w dt sp Hor) as H.
    destruct (Wastage.update m w dt sp) as [[w' timers] fin].
    destruct H as (H1 & H2 & H3 & H4 & H5 & H6).
    repeat split; try assumption.
    rewrite H6, Hk. destruct k; reflexivity.
Qed.

Lemma C6_determinism_witness :
  let fresh := DualBallDriver.mkState false 1 false 0 DualBall.constructor in
  let st1 := DualBallDriver.play fresh 1000 in
  let st2 := DualBallDriver.play fresh 5000 in
  let w := Wastage.mkState 1.1 10.3 5.3 Wastage.at_target true false []
             None None None in
  DualBallDriver.simulation (DualBallDriver.frames st1 [1016; 1032])
    = DualBallDriver.simulation (DualBallDriver.frames st2 [5016; 5032]) /\
  Wastage.fire Wastage.TargetPause w
    = Wastage.set_phase w Wastage.continuing /\
  Wastage.phase
    (fst (fst (Wastage.update Wastage.model w 0.1 1))) = Wastage.at_target.
Proof.
  intros fresh st1 st2 w.
  assert (Hd : DualBallDriver.deltas (DualBallDriver.lastTimestamp st1)
                 [1016; 1032]
               = DualBallDriver.deltas (DualBallDriver.lastTimestamp st2)
                   [5016; 5032]).
  { simpl. f_equal; [f_equal; lra | f_equal; f_equal; lra]. }
  pose proof (C6_determinism st1 st2 [1016; 1032] [5016; 5032]
                Wastage.model w Wastage.TargetPause 0.1 1
                eq_refl eq_refl eq_refl Hd) as (H1 & _ & H3 & H4).
  split; [exact H1|]. split; [exact (H3 eq_refl)|].
  specialize (H4 eq_refl).
  destruct (Wastage.update Wastage.model w 0.1 1) as [[w' timers] fin].
  simpl. apply H4.
Defined.

(** C6 fails as stated.  Two runs of the brick page receive the same
    four (deltaTime, speedMultiplier) pairs; in one the 500 ms timer set
    by the third call fires before the fourth call, in the other it has
    not fired yet.  The fourth states differ: the brick is continuing its
    flight above the target in one and still pausing in the other. *)
Lemma C6_counterexample :
  Wastage.inputs_of Wastage.timer_fired
    = Wastage.inputs_of Wastage.timer_late /\
  Wastage.nonneg_events Wastage.timer_fired /\
  Wastage.nonneg_events Wastage.timer_late /\
  option_map (map Wastage.phase)
    (Wastage.observed Wastage.model Wastage.initial Wastage.timer_fired)
    = Some [Wastage.ascending; Wastage.at_target; Wastage.at_target;
            Wastage.continuing] /\
  option_map (map Wastage.phase)
    (Wastage.observed Wastage.model Wastage.initial Wastage.timer_late)
    = Some [Wastage.ascending; Wastage.at_target; Wastage.at_target;
            Wastage.at_target] /\
  Wastage.observed Wastage.model Wastage.initial Wastage.timer_fired
    <> Wastage.observed Wastage.model Wastage.initial Wastage.timer_late.
Proof.
  pose proof (WastageFacts.timer_fired_observed Wastage.model
                WastageFacts.model_page) as Hf.
  pose proof (WastageFacts.timer_late_observed Wastage.model
                WastageFacts.model_page) as Hl.
  cbv zeta in Hf, Hl. destruct Hf as (Hf & _). destruct Hl as (Hl & _).
  change (Wastage.mkWorld (Wastage.reset Wastage.model) [])
    with Wastage.initial in Hf, Hl.
  split; [reflexivity|].
  split; [unfold Wastage.timer_fired;
          repeat (constructor; try lra)|].
  split; [unfold Wastage.timer_late;
          repeat (constructor; try lra)|].
  split; [exact Hf|]. split; [exact Hl|].
  intros E. rewrite E, Hl in Hf. discriminate.
Qed.

End DeterminismFacts.

(** * Further facts about the pages *)

Module TrailFacts.

(** The trail buffer never grows beyond its cap, and the newest height is
    always its last entry. *)
Lemma push_length cap tr h :
  (length tr <= cap)%nat -> (length (Trail.push cap tr h) <= cap)%nat.
Proof.
  intros H. unfold Trail.push.
  destruct (Nat.ltb cap (length (tr ++ [h]))) eqn:E.
  - destruct tr as [|x tr']; simpl in *.
    + lia.
    + rewrite length_app in *. simpl in *. lia.
  - apply Nat.ltb_ge in E. exact E.
Qed.

Lemma push_last cap tr h :
  (1 <= cap)%nat -> last (Trail.push cap tr h) 0 = h.
Proof.
  intros Hc. unfold Trail.push.
  destruct (Nat.ltb cap (length (tr ++ [h]))) eqn:E.
  - apply Nat.ltb_lt in E. rewrite length_app in E. simpl in E.
    destruct tr as [|x tr']; simpl in *; [lia|].
    apply last_last.
  - apply last_last.
Qed.

End TrailFacts.

Module DualBallMoreFacts.
Import DualBall.

Lemma reset_ball_update_ball s t b :
  reset_ball (update_ball s t b) = reset_ball b.
Proof.
  unfold update_ball, reset_ball.
  destruct (Num.geb t (dropTime b) && negb (landed b)); [|reflexivity].
  destruct (Num.leb _ 0); reflexivity.
Qed.

Lemma reset_update s dt sp : reset (fst (update s dt sp)) = reset s.
Proof.
  unfold update, reset; simpl. f_equal.
  rewrite map_map. apply map_ext. intros b. apply reset_ball_update_ball.
Qed.

Lemma reset_run inputs : forall s, reset (run s inputs) = reset s.
Proof.
  induction inputs as [|[dt sp] rest IH]; intros s; cbn [run]; [reflexivity|].
  rewrite IH. apply reset_update.
Qed.

(** X1: whatever update calls came before (any deltas, any speeds, landed
    or not), reset() puts the dual-ball simulation back into exactly the
    state the constructor built, and resetSimulation() also stops the
    driver. *)
Theorem X1_reset_restores_constructor
  (inputs : list (R * R)) (st : DualBallDriver.State) :
  reset (run constructor inputs) = constructor /\
  (DualBallDriver.simulation st = run constructor inputs ->
   DualBallDriver.simulation (DualBallView.resetSimulation st) = constructor /\
   DualBallDriver.isPlaying (DualBallView.resetSimulation st) = false).
Proof.
  assert (H : reset (run constructor inputs) = constructor)
    by (rewrite reset_run; reflexivity).
  split; [exact H|].
  intros Hs. unfold DualBallView.resetSimulation; simpl.
  rewrite Hs. auto.
Qed.

Lemma X1_reset_restores_constructor_witness :
  DualBallDriver.simulation
    (DualBallView.resetSimulation
       (DualBallDriver.mkState true 2 true 16
          (run constructor [(3, 1); (-1, 2)])))
  = constructor.
Proof.
  apply (X1_reset_restores_constructor [(3, 1); (-1, 2)]
           (DualBallDriver.mkState true 2 true 16
              (run constructor [(3, 1); (-1, 2)]))).
  reflexivity.
Defined.

Lemma update_ball_trail s t b :
  (length (trail b) <= 60)%nat ->
  (length (trail (update_ball s t b)) <= 60)%nat.
Proof.
  intros H. unfold update_ball.
  destruct (Num.geb t (dropTime b) && negb (landed b)); [|exact H].
  destruct (Num.leb _ 0); simpl; apply TrailFacts.push_length; exact H.
Qed.

Lemma run_trails inputs : forall s,
  Forall (fun b => (length (trail b) <= 60)%nat) (balls s) ->
  Forall (fun b => (length (trail b) <= 60)%nat) (balls (run s inputs)).
Proof.
  induction inputs as [|[dt sp] rest IH]; intros s Hs; cbn [run]; [exact Hs|].
  apply IH. unfold update; simpl.
  apply Forall_map. eapply Forall_impl; [|exact Hs].
  intros b Hb. apply update_ball_trail. exact Hb.
Qed.

(** In a tracked simulation a ball has landed exactly when the clock
    stands at totalTime. *)
Lemma tracked_landed s :
  tracked s ->
  (forallb landed (balls s) = true <-> time s = totalTime s) /\
  (time s < totalTime s -> Forall (fun b => landed b = false) (balls s)).
Proof.
  intros (_ & HT & _ & _ & Ht & b1 & b2 & Hb & H1 & H2).
  destruct H1 as (_ & _ & _ & _ & _ & L1).
  destruct H2 as (_ & _ & _ & _ & _ & L2).
  rewrite Hb; simpl. split; [split|].
  - intros H. apply andb_true_iff in H as [H _]. apply L1. exact H.
  - intros E. rewrite (proj2 L1 E), (proj2 L2 E). reflexivity.
  - intros Hlt.
    constructor; [|constructor; [|constructor]].
    + destruct (landed b1); [|reflexivity].
      assert (time s = totalTime s) by (apply L1; reflexivity). lra.
    + destruct (landed b2); [|reflexivity].
      assert (time s = totalTime s) by (apply L2; reflexivity). lra.
Qed.



(** X4: on every state reached with non-negative scaled deltas the
    read-outs agree with the balls: each ball's velocity is g times the
    fall time shown for it, its height is the initial height less
    g * fallTime^2 / 2, and the timeline progress lies between 0 and 1. *)
Theorem X4_readouts_agree (inputs : list (R * R)) :
  nonneg_inputs inputs ->
  let s := run constructor inputs in
  map velocity (balls s)
    = [g s * DualBallView.getBall1FallTime s;
       g s * DualBallView.getBall2FallTime s] /\
  map height (balls s)
    = [ball1Height s - 0.5 * g s * DualBallView.getBall1FallTime s
                         * DualBallView.getBall1FallTime s;
       ball2Height s - 0.5 * g s * DualBallView.getBall2FallTime s
                         * DualBallView.getBall2FallTime s] /\
  0 <= DualBallView.getTimeProgress s <= 1.
Proof.
  intros Hn s.
  assert (Hs : tracked s)
    by (apply DualBallFacts.tracked_run;
        [apply DualBallFacts.tracked_constructor | assumption]).
  assert (Hc : ball1FallTime s = 5 /\ ball2FallTime s = 3 /\
               ball1Height s = 122.5 /\ ball2Height s = 44.1).
  { assert (Hk : forall l s0,
              ball1FallTime (run s0 l) = ball1FallTime s0 /\
              ball2FallTime (run s0 l) = ball2FallTime s0 /\
              ball1Height (run s0 l) = ball1Height s0 /\
              ball2Height (run s0 l) = ball2Height s0).
    { induction l as [|[d p] l IH]; intros s0; cbn [run]; [auto|].
      destruct (IH (fst (update s0 d p))) as (A & B & C & D).
      rewrite A, B, C, D. auto. }
    destruct (Hk inputs constructor) as (A & B & C & D).
    fold s in A, B, C, D. rewrite A, B, C, D.
    unfold constructor, CONFIG_g; simpl. repeat split; lra. }
  destruct Hc as (F1 & F2 & Hh1 & Hh2).
  destruct Hs as (Hg & HT & _ & _ & Ht & b1 & b2 & Hb & H1 & H2).
  destruct H1 as (_ & _ & _ & Hy1 & Hw1 & _).
  destruct H2 as (_ & _ & _ & Hy2 & Hw2 & _).
  unfold DualBallView.getBall1FallTime, DualBallView.getBall2FallTime,
    DualBallView.getTimeProgress.
  rewrite Hb, F1, F2, Hh1, Hh2, HT; simpl.
  rewrite Hy1, Hy2, Hw1, Hw2.
  unfold textbook_height, textbook_velocity.
  set (t := time s) in *.
  rewrite (proj2 (NumFacts.ltb_false t 0)) by lra.
  rewrite (Rmin_left t 5) by lra.
  replace (Num.ltb t 2.0) with (Num.ltb t 2)
    by (f_equal; lra).
  split; [|split].
  - f_equal; [f_equal; lra|]. f_equal.
    destruct (NumFacts.ltb_spec t 2); [lra|].
    rewrite Rmin_left by lra. f_equal. lra.
  - f_equal; [lra|]. f_equal.
    destruct (NumFacts.ltb_spec t 2); [lra|].
    rewrite Rmin_left by lra.
    replace (t - 2.0) with (t - 2) by lra. reflexivity.
  - lra.
Qed.

Lemma X4_readouts_agree_witness :
  0 <= DualBallView.getTimeProgress (run constructor [(0.1, 1); (3, 1)])
    <= 1.
Proof.
  apply (X4_readouts_agree [(0.1, 1); (3, 1)]).
  repeat constructor; simpl; lra.
Defined.

(** X5: the skip button writes what running to the end would have
    written: on any state reached with non-negative scaled deltas, clock,
    heights, velocities and landed flags after skip equal those after one
    update that carries the clock to totalTime, and the next update
    reports completion. *)
Theorem X5_skip_agrees_with_running_out
  (inputs : list (R * R)) (dt sp : R) :
  nonneg_inputs inputs ->
  let s := run constructor inputs in
  let skipped := DualBallView.skip s in
  let ended := fst (update s 5 1) in
  time skipped = time ended /\
  map height (balls skipped) = map height (balls ended) /\
  map velocity (balls skipped) = map velocity (balls ended) /\
  map landed (balls skipped) = map landed (balls ended) /\
  snd (update skipped dt sp) = true.
Proof.
  intros Hn s skipped ended.
  assert (Hs : tracked s)
    by (apply DualBallFacts.tracked_run;
        [apply DualBallFacts.tracked_constructor | assumption]).
  assert (He : tracked ended)
    by (apply DualBallFacts.tracked_update; [exact Hs | lra]).
  assert (Hte : time ended = 5).
  { subst ended. rewrite DualBallFacts.time_update.
    destruct Hs as (_ & HT & _ & _ & Ht & _). rewrite HT.
    apply Rmin_left. lra. }
  clearbody ended. clearbody s.
  destruct He as (Hg & HT & _ & _ & _ & e1 & e2 & Heb & E1 & E2).
  destruct E1 as (_ & _ & _ & Ey1 & Ew1 & El1).
  destruct E2 as (_ & _ & _ & Ey2 & Ew2 & El2).
  rewrite Hg, Hte in Ey1, Ey2, Ew1, Ew2.
  unfold textbook_height, textbook_velocity in *.
  rewrite (proj2 (NumFacts.ltb_false 5 0)) in Ey1, Ew1 by lra.
  rewrite (proj2 (NumFacts.ltb_false 5 2)) in Ey2, Ew2 by lra.
  assert (L1 : landed e1 = true) by (apply El1; lra).
  assert (L2 : landed e2 = true) by (apply El2; lra).
  destruct Hs as (_ & _ & Hv1 & Hv2 & _ & b1 & b2 & Hb & B1 & B2).
  destruct B1 as (Hi1 & _). destruct B2 as (Hi2 & _).
  rewrite Heb. subst skipped. unfold DualBallView.skip.
  rewrite Hb; simpl. rewrite Hi1, Hi2, Hv1, Hv2; simpl.
  rewrite Hte, Ey1, Ey2, Ew1, Ew2, L1, L2.
  split; [lra|]. split; [f_equal; [lra | f_equal; lra]|].
  split; [f_equal; [lra | f_equal; lra]|]. split; [reflexivity|].
  rewrite !DualBallFacts.update_ball_landed by reflexivity. reflexivity.
Qed.

Lemma X5_skip_agrees_with_running_out_witness :
  time (DualBallView.skip (run constructor [(1, 1)]))
  = time (fst (update (run constructor [(1, 1)]) 5 1)).
Proof.
  apply (X5_skip_agrees_with_running_out [(1, 1)] 0.1 1).
  repeat constructor; simpl; lra.
Defined.

(** One playing frame with a forward timestamp keeps the simulation
    tracked and moves its clock by at most 0.1 s times the speed. *)
Lemma animate_step st ts :
  tracked (DualBallDriver.simulation st) ->
  DualBallDriver.isPlaying st = true ->
  0 <= DualBallDriver.speedMultiplier st ->
  DualBallDriver.lastTimestamp st <= ts ->
  let st' := DualBallDriver.animate st ts in
  tracked (DualBallDriver.simulation st') /\
  DualBallDriver.speedMultiplier st' = DualBallDriver.speedMultiplier st /\
  DualBallDriver.lastTimestamp st' = ts /\
  time (DualBallDriver.simulation st')
    <= time (DualBallDriver.simulation st)
       + 0.1 * DualBallDriver.speedMultiplier st /\
  (DualBallDriver.isPlaying st' = false ->
   time (DualBallDriver.simulation st') = 5).
Proof.
  intros Hs Hp Hv Hts st'.
  set (d := DualBallDriver.frame_delta st ts).
  assert (Hd : 0 <= d <= 0.1).
  { subst d. unfold DualBallDriver.frame_delta. split.
    - apply Rmin_glb; [|lra].
      apply Rmult_le_pos; [lra|].
      apply Rlt_le, Rinv_0_lt_compat. lra.
    - apply Rmin_r. }
  assert (Hdv : 0 <= d * DualBallDriver.speedMultiplier st)
    by (apply Rmult_le_pos; lra).
  pose proof (DualBallFacts.tracked_update _ d _ Hs Hdv) as Hs'.
  pose proof (DualBallFacts.time_update (DualBallDriver.simulation st) d
                (DualBallDriver.speedMultiplier st)) as Ht.
  pose proof (tracked_landed _ Hs') as [Hiff _].
  assert (Hst : st' = let '(sim, completed) :=
                        update (DualBallDriver.simulation st) d
                          (DualBallDriver.speedMultiplier st) in
                      if completed
                      then DualBallDriver.mkState false
                             (DualBallDriver.speedMultiplier st) false ts sim
                      else DualBallDriver.mkState true
                             (DualBallDriver.speedMultiplier st) true ts sim).
  { subst st'. unfold DualBallDriver.animate. rewrite Hp. reflexivity. }
  assert (Hc : snd (update (DualBallDriver.simulation st) d
                      (DualBallDriver.speedMultiplier st))
               = forallb landed
                   (balls (fst (update (DualBallDriver.simulation st) d
                                  (DualBallDriver.speedMultiplier st)))))
    by reflexivity.
  assert (HT : totalTime (DualBallDriver.simulation st) = 5) by apply Hs.
  assert (Hbound : Rmin (totalTime (DualBallDriver.simulation st))
                     (time (DualBallDriver.simulation st)
                      + d * DualBallDriver.speedMultiplier st)
                   <= time (DualBallDriver.simulation st)
                      + 0.1 * DualBallDriver.speedMultiplier st).
  { eapply Rle_trans; [apply Rmin_r|].
    apply Rplus_le_compat_l. apply Rmult_le_compat_r; lra. }
  assert (HT' : totalTime (fst (update (DualBallDriver.simulation st) d
                                    (DualBallDriver.speedMultiplier st))) = 5)
    by apply Hs'.
  rewrite Hst.
  destruct (update (DualBallDriver.simulation st) d
              (DualBallDriver.speedMultiplier st)) as [sim completed].
  cbn [fst snd] in *.
  destruct completed; cbn [DualBallDriver.simulation
    DualBallDriver.speedMultiplier DualBallDriver.lastTimestamp
    DualBallDriver.isPlaying].
  - split; [exact Hs'|]. split; [reflexivity|]. split; [reflexivity|].
    split; [rewrite Ht; exact Hbound|].
    intros _. rewrite <- HT'. apply Hiff. symmetry. exact Hc.
  - split; [exact Hs'|]. split; [reflexivity|]. split; [reflexivity|].
    split; [rewrite Ht; exact Hbound|].
    intros H. discriminate H.
Qed.

(** X6: because each frame moves the clock by at most 0.1 s times the
    speed, a playing dual-ball page fed with forward timestamps is still
    playing, and its clock is bounded by 0.1 * speed per frame, as long as
    that bound stays below totalTime = 5 s: at speed 1 no run of fewer
    than 50 frames can finish the drop, however long the frames took. *)
Theorem X6_frames_needed (tss : list R) : forall st,
  tracked (DualBallDriver.simulation st) ->
  DualBallDriver.isPlaying st = true ->
  0 <= DualBallDriver.speedMultiplier st ->
  DualBallView.ascending_from (DualBallDriver.lastTimestamp st) tss ->
  time (DualBallDriver.simulation st)
    + 0.1 * DualBallDriver.speedMultiplier st * INR (length tss) < 5 ->
  DualBallDriver.isPlaying (DualBallDriver.frames st tss) = true /\
  time (DualBallDriver.simulation (DualBallDriver.frames st tss))
    <= time (DualBallDriver.simulation st)
       + 0.1 * DualBallDriver.speedMultiplier st * INR (length tss).
Proof.
  induction tss as [|ts rest IH]; intros st Hs Hp Hv Ha Hlt.
  - simpl. split; [exact Hp | lra].
  - cbn [DualBallDriver.frames]. destruct Ha as [Hts Ha].
    rewrite length_cons, S_INR in Hlt |- *.
    pose proof (pos_INR (length rest)) as Hn.
    assert (Hm : 0 <= 0.1 * DualBallDriver.speedMultiplier st
                      * INR (length rest))
      by (apply Rmult_le_pos; [apply Rmult_le_pos; lra | exact Hn]).
    destruct (animate_step st ts Hs Hp Hv Hts)
      as (Hs' & Hv' & Hl' & Hb' & Hstop).
    assert (Hp' : DualBallDriver.isPlaying (DualBallDriver.animate st ts)
                  = true).
    { destruct (DualBallDriver.isPlaying (DualBallDriver.animate st ts));
        [reflexivity|].
      specialize (Hstop eq_refl). lra. }
    destruct (IH (DualBallDriver.animate st ts)) as [Hq Hr];
      try assumption.
    + rewrite Hv'. exact Hv.
    + rewrite Hl'. exact Ha.
    + rewrite Hv'. lra.
    + split; [exact Hq|]. rewrite Hv' in Hr. lra.
Qed.

Lemma X6_frames_needed_witness :
  DualBallDriver.isPlaying
    (DualBallDriver.frames (DualBallDriver.play DualBallView.loaded 1000)
       [1016; 9000; 9016]) = true.
Proof.
  apply (X6_frames_needed [1016; 9000; 9016]
           (DualBallDriver.play DualBallView.loaded 1000)).
  - apply DualBallFacts.tracked_constructor.
  - reflexivity.
  - simpl. lra.
  - simpl. repeat split; lra.
  - simpl. unfold CONFIG_totalTime. lra.
Defined.

End DualBallMoreFacts.

Module SatelliteFacts.
Import Satellite.

Lemma GM_pos : 0 < G * M_earth.
Proof. unfold G, M_earth. apply Rmult_lt_0_compat; lra. Qed.

Lemma velocity_sqr r m a :
  0 < r ->
  velocity (calculateOrbitalParameters r m a)
  * velocity (calculateOrbitalParameters r m a) = G * M_earth / r.
Proof.
  intros Hr. simpl. apply sqrt_sqrt.
  apply Rlt_le, Rdiv_lt_0_compat; [apply GM_pos | exact Hr].
Qed.

Lemma velocity_pos r m a :
  0 < r -> 0 < velocity (calculateOrbitalParameters r m a).
Proof.
  intros Hr. simpl. apply sqrt_lt_R0.
  apply Rdiv_lt_0_compat; [apply GM_pos | exact Hr].
Qed.

(** X7: for every orbital radius r > 0 and satellite mass m > 0 the
    computed energies satisfy PE / KE = -2, TE = -KE = PE / 2, KE > 0 > PE;
    so the ratio shown does not change when the radius slider calls
    setRadius, which also keeps the satellite's angle and mass. *)
Theorem X7_energy_ratio (s : Sat) (r : R) :
  0 < r -> 0 < mass s ->
  let s' := setRadius s r in
  ratio s' = -2 /\ TE s' = - KE s' /\ 2 * TE s' = PE s' /\
  0 < KE s' /\ PE s' < 0 /\
  radius s' = r /\ angle s' = angle s /\ mass s' = mass s /\
  ratio (constructor r) = -2.
Proof.
  intros Hr Hm s'.
  assert (Hk : forall m a, 0 < m ->
            let c := calculateOrbitalParameters r m a in
            KE c = 0.5 * m * (G * M_earth / r) /\
            PE c = - (m * (G * M_earth / r))).
  { intros m a Hm0 c. subst c. split.
    - change (KE (calculateOrbitalParameters r m a))
        with (0.5 * m * velocity (calculateOrbitalParameters r m a)
              * velocity (calculateOrbitalParameters r m a)).
      rewrite Rmult_assoc, velocity_sqr by assumption. reflexivity.
    - simpl. field. lra. }
  pose proof GM_pos as HGM.
  assert (Hq : 0 < G * M_earth / r) by (apply Rdiv_lt_0_compat; assumption).
  assert (Hratio : forall m a, 0 < m ->
            ratio (calculateOrbitalParameters r m a) = -2).
  { intros m a Hm0. destruct (Hk m a Hm0) as [Ek Ep].
    change (ratio (calculateOrbitalParameters r m a))
      with (PE (calculateOrbitalParameters r m a)
            / KE (calculateOrbitalParameters r m a)).
    rewrite Ek, Ep. replace 0.5 with (/ 2) by lra. field.
    repeat split; try lra; unfold G, M_earth; lra. }
  destruct (Hk (mass s) (angle s) Hm) as [Ek Ep].
  assert (Hmq : 0 < mass s * (G * M_earth / r))
    by (apply Rmult_lt_0_compat; assumption).
  subst s'. unfold setRadius.
  change (TE (calculateOrbitalParameters r (mass s) (angle s)))
    with (PE (calculateOrbitalParameters r (mass s) (angle s))
          + KE (calculateOrbitalParameters r (mass s) (angle s))).
  rewrite Ek, Ep.
  split; [apply Hratio; exact Hm|].
  split; [lra|]. split; [lra|]. split; [lra|]. split; [lra|].
  split; [reflexivity|]. split; [reflexivity|]. split; [reflexivity|].
  apply Hratio. unfold m_satellite. lra.
Qed.

Lemma X7_energy_ratio_witness :
  ratio (setRadius (constructor 1e7) 4.2e7) = -2.
Proof.
  apply (X7_energy_ratio (constructor 1e7) 4.2e7).
  - lra.
  - simpl. unfold m_satellite. lra.
Defined.

(** X8: for every radius r > 0 the orbital parameters are consistent with
    each other and with Kepler's third law: one period turns the
    satellite by 2 pi and carries it once around the circumference, and
    T^2 = 4 pi^2 r^3 / (G M). *)
Theorem X8_period_consistent (r m a : R) :
  0 < r ->
  let c := calculateOrbitalParameters r m a in
  angularVelocity c * period c = 2 * PI /\
  velocity c * period c = 2 * PI * r /\
  period c * period c = 4 * (PI * PI) * (r * r * r) / (G * M_earth).
Proof.
  intros Hr c.
  pose proof (velocity_pos r m a Hr) as Hv.
  pose proof (velocity_sqr r m a Hr) as Hvv.
  pose proof GM_pos as HGM.
  fold c in Hv, Hvv.
  assert (Ha : angularVelocity c = velocity c / r) by reflexivity.
  assert (Hp : period c = 2 * PI * r / velocity c) by reflexivity.
  clearbody c. rewrite Ha, Hp.
  set (v := velocity c) in *.
  split; [field; split; lra|]. split; [field; lra|].
  replace (2 * PI * r / v * (2 * PI * r / v))
    with (4 * (PI * PI) * (r * r) / (v * v))
    by (field; lra).
  rewrite Hvv. field. repeat split; try lra; unfold G, M_earth; lra.
Qed.

Lemma X8_period_consistent_witness :
  angularVelocity (constructor 1e7) * period (constructor 1e7) = 2 * PI.
Proof.
  apply (X8_period_consistent 1e7 m_satellite 0). lra.
Defined.

Lemma sin_cos_sqr a : sin a * sin a + cos a * cos a = 1.
Proof. pose proof (sin2_cos2 a) as H. unfold Rsqr in H. exact H. Qed.

(** X9: at every angle the satellite sits on the circle of its orbital
    radius, the velocity direction is a unit vector at right angles to the
    position, and the force direction is the unit vector pointing from the
    satellite straight back to the centre. *)
Theorem X9_directions (s : Sat) :
  let '(x, y) := getPosition s in
  let '(vx, vy) := getVelocityDirection s in
  let '(fx, fy) := getForceDirection s in
  x * x + y * y = radius s * radius s /\
  vx * vx + vy * vy = 1 /\
  x * vx + y * vy = 0 /\
  fx * fx + fy * fy = 1 /\
  x = - radius s * fx /\ y = - radius s * fy.
Proof.
  unfold getPosition, getVelocityDirection, getForceDirection.
  pose proof (sin_cos_sqr (angle s)) as H.
  set (sn := sin (angle s)) in *. set (cs := cos (angle s)) in *.
  repeat split; try nra; ring.
Qed.

Lemma update_fields s dt sp :
  radius (update s dt sp) = radius s /\
  angularVelocity (update s dt sp) = angularVelocity s.
Proof. split; reflexivity. Qed.

(** The angle after [update], up to the full turn it may have dropped. *)
Lemma update_angle s dt sp :
  exists k : nat,
    angle (update s dt sp)
    = angle s + angularVelocity s * 500 * (dt * sp) - 2 * INR k * PI.
Proof.
  unfold update, Num.gtb; simpl.
  destruct (Num.ltb (2 * PI) _).
  - exists 1%nat. simpl. ring.
  - exists 0%nat. simpl. ring.
Qed.

Lemma run_angle inputs : forall s,
  radius (run s inputs) = radius s /\
  exists k : nat,
    angle (run s inputs)
    = angle s + angularVelocity s * 500 * DualBall.elapsed inputs
      - 2 * INR k * PI.
Proof.
  induction inputs as [|[dt sp] rest IH]; intros s;
    cbn [run DualBall.elapsed].
  - split; [reflexivity|]. exists 0%nat. simpl. ring.
  - destruct (IH (update s dt sp)) as [Hr [k Hk]].
    destruct (update_angle s dt sp) as [j Hj].
    destruct (update_fields s dt sp) as [Er Ew].
    split; [rewrite Hr; exact Er|].
    exists (k + j)%nat. rewrite Hk, Hj, Ew, plus_INR. ring.
Qed.

(** X10: dropping a full turn never moves the satellite: after any run of
    update calls its position is the point of the orbit at the angle
    angle0 + 500 * angularVelocity * (sum of deltaTime * speedMultiplier).
    And a step of at most one turn keeps an angle that is within
    [0, 2 pi] inside that range. *)
Theorem X10_position_closed_form (s : Sat) (inputs : list (R * R))
  (dt sp : R) :
  getPosition (run s inputs)
  = (cos (angle s + angularVelocity s * 500 * DualBall.elapsed inputs)
       * radius s,
     sin (angle s + angularVelocity s * 500 * DualBall.elapsed inputs)
       * radius s) /\
  (0 <= angle s <= 2 * PI ->
   0 <= angularVelocity s * sp * 500 * dt <= 2 * PI ->
   0 <= angle (update s dt sp) <= 2 * PI).
Proof.
  split.
  - destruct (run_angle inputs s) as [Hr [k Hk]].
    unfold getPosition. rewrite Hr, Hk.
    set (A := angle s + angularVelocity s * 500 * DualBall.elapsed inputs).
    pose proof (cos_period (A - 2 * INR k * PI) k) as Hc.
    pose proof (sin_period (A - 2 * INR k * PI) k) as Hs.
    replace (A - 2 * INR k * PI + 2 * INR k * PI) with A in Hc, Hs by ring.
    rewrite <- Hc, <- Hs. reflexivity.
  - intros Ha Hstep. unfold update, Num.gtb; simpl.
    cmp_split; lra.
Qed.

Lemma X10_position_closed_form_witness :
  let s := set_angle (constructor 1e7) 6 in
  let inputs := [(10, 1); (10, 1); (10, 1)] in
  getPosition (run s inputs)
  = (cos (angle s + angularVelocity s * 500 * DualBall.elapsed inputs)
       * radius s,
     sin (angle s + angularVelocity s * 500 * DualBall.elapsed inputs)
       * radius s) /\
  0 <= angle (update s 10 1) <= 2 * PI.
Proof.
  intros s inputs.
  pose proof PI2_3_2 as Hpi.
  assert (Hw : 0 <= angularVelocity s <= 1e-3).
  { subst s. unfold set_angle, constructor, calculateOrbitalParameters.
    cbn [angularVelocity].
    assert (Hx : 0 <= G * M_earth / 1e7 <= 1e4 * 1e4)
      by (unfold G, M_earth; lra).
    pose proof (sqrt_pos (G * M_earth / 1e7)) as H0.
    assert (H1 : sqrt (G * M_earth / 1e7) <= 1e4).
    { rewrite <- (sqrt_square 1e4) by lra.
      apply sqrt_le_1_alt. lra. }
    lra. }
  destruct (X10_position_closed_form s inputs 10 1) as [Hpos Hstep].
  split; [exact Hpos|]. apply Hstep.
  - subst s. cbn [set_angle angle]. lra.
  - lra.
Defined.

(** X11: on the canvas the satellite is drawn exactly on the dashed orbit
    circle, the velocity arrow is tangent to that circle, and the force
    arrow points from the satellite towards the drawn centre of the
    Earth. *)
Theorem X11_canvas_geometry (v : View) (s : Sat) :
  let '(px, py) := satellite_canvas_position v s in
  let '(vx, vy) := velocity_arrow_end v s in
  let '(fx, fy) := force_arrow_end v s in
  let cx := centerX v in
  let cy := centerY v in
  (px - cx) * (px - cx) + (py - cy) * (py - cy)
    = orbit_path_radius v s * orbit_path_radius v s /\
  (vx - px) * (px - cx) + (vy - py) * (py - cy) = 0 /\
  (fx - px) * (px - cx) + (fy - py) * (py - cy)
    = - (35 * orbit_path_radius v s) /\
  (fx - px) * (py - cy) - (fy - py) * (px - cx) = 0.
Proof.
  unfold satellite_canvas_position, velocity_arrow_end, force_arrow_end,
    worldToCanvas, orbit_path_radius, metersToPixels, getPosition,
    getVelocityDirection, getForceDirection; simpl.
  unfold metersToPixels.
  pose proof (sin_cos_sqr (angle s)) as H.
  set (sn := sin (angle s)) in *. set (cs := cos (angle s)) in *.
  set (r := radius s). set (k := scale v).
  set (cx := centerX v). set (cy := centerY v).
  assert (E : sn * sn = 1 - cs * cs) by lra.
  split; [|split; [|split]].
  - replace ((cx + cs * r * k - cx) * (cx + cs * r * k - cx)
             + (cy - sn * r * k - cy) * (cy - sn * r * k - cy))
      with (r * k * (r * k) * (sn * sn + cs * cs)) by ring.
    rewrite H. ring.
  - ring.
  - replace 0.7 with (7 / 10) by lra.
    replace ((cx + cs * r * k + - cs * 50 * (7 / 10) - (cx + cs * r * k))
             * (cx + cs * r * k - cx)
             + (cy - sn * r * k - - sn * 50 * (7 / 10) - (cy - sn * r * k))
               * (cy - sn * r * k - cy))
      with (- (35 * (r * k)) * (sn * sn + cs * cs)) by field.
    rewrite H. ring.
  - replace 0.7 with (7 / 10) by lra. field.
Qed.

End SatelliteFacts.

Module WastageMoreFacts.
Import Wastage WastageView.

Lemma model_energetic : energetic model.
Proof.
  unfold energetic. rewrite WastageFacts.model_g, WastageFacts.model_maxHeight.
  pose proof WastageFacts.initialVelocity_bounds as Hu.
  split; [lra|]. split; [lra|]. split.
  - unfold model, calculateEnergetics, CONFIG_g, CONFIG_targetHeight,
      CONFIG_velocityAtTarget; simpl.
    rewrite sqrt_sqrt by lra. lra.
  - unfold model, calculateEnergetics, CONFIG_g, CONFIG_targetHeight,
      CONFIG_velocityAtTarget; simpl. lra.
Qed.

Lemma rise_conserving m s :
  energetic m -> 0 <= time s -> phase s <> landed ->
  conserving m (rise m s).
Proof.
  intros (Hg & Hu & Huu & Hmax) Ht Hph.
  unfold conserving, rise, Num.geb; simpl.
  set (t := time s) in *. set (u := initialVelocity m) in *.
  set (gg := g m) in *. set (E := totalEnergyAtTarget m) in *.
  destruct (Num.leb (targetHeight m) _ && negb (reachedTarget s)); simpl;
    destruct (NumFacts.leb_spec (u - gg * t) 0) as [Hv|Hv]; simpl;
    (split; [exact Ht|]);
    (split; [intros _ | intros Hp; try discriminate Hp; contradiction]).
  - split; [|lra]. assert (0 < gg * maxHeight m) by nra. nra.
  - assert (0 <= t * (u - gg * t)) by (apply Rmult_le_pos; lra).
    split; [nra|]. replace 0.5 with (/ 2) by lra. nra.
  - split; [|lra]. assert (0 < gg * maxHeight m) by nra. nra.
  - assert (0 <= t * (u - gg * t)) by (apply Rmult_le_pos; lra).
    split; [nra|]. replace 0.5 with (/ 2) by lra. nra.
Qed.

Lemma fall_conserving m s :
  energetic m -> 0 <= time s -> phase s <> landed ->
  conserving m (fall m s).
Proof.
  intros (Hg & Hu & Huu & Hmax) Ht Hph.
  unfold conserving, fall; simpl.
  set (t := time s) in *. set (gg := g m) in *.
  set (E := totalEnergyAtTarget m) in *. set (H := maxHeight m) in *.
  destruct (NumFacts.leb_spec (H - 0.5 * gg * t * t) 0) as [Hh|Hh]; simpl;
    (split; [exact Ht|]).
  - split; [intros Hp; contradiction Hp; reflexivity|]. intros _.
    rewrite Rmax_left by lra.
    assert (0 <= gg * (0.5 * gg * t * t - H))
      by (apply Rmult_le_pos; lra).
    nra.
  - split; [|intros Hp; contradiction]. intros _.
    split; [lra|]. replace 0.5 with (/ 2) in * by lra. nra.
Qed.

Lemma tick_conserving m s d :
  conserving m s -> 0 <= d -> conserving m (tick s d).
Proof.
  intros (Ht & Hf & Hl) Hd. unfold conserving, tick; simpl.
  destruct (phase_eqb (phase s) throwing && Num.gtb (time s + d) 0.3)
    eqn:E; simpl.
  - split; [lra|]. split; [|intros H; discriminate H].
    intros _. apply Hf. intros Hp. rewrite Hp in E. discriminate E.
  - split; [lra|]. split; assumption.
Qed.

Lemma move_conserving m s :
  energetic m -> conserving m s -> conserving m (fst (move m s)).
Proof.
  intros Hm Hs. pose proof Hs as (Ht & _).
  unfold move. destruct (phase s) eqn:Ep; simpl; try exact Hs.
  - apply rise_conserving; try assumption. rewrite Ep. discriminate.
  - apply rise_conserving; try assumption. rewrite Ep. discriminate.
  - apply fall_conserving; try assumption. rewrite Ep. discriminate.
Qed.

(** What one [update] leaves behind: a conserving state whose energy
    read-out is the sum it just computed. *)
Lemma update_conserving m s dt sp :
  energetic m -> conserving m s -> 0 <= dt * sp ->
  let s' := fst (fst (update m s dt sp)) in
  conserving m s' /\
  currentTotal s'
  = Some (0.5 * velocity s' * velocity s' + g m * Rmax 0 (height s')).
Proof.
  intros Hm Hs Hd. cbv zeta. unfold update.
  pose proof (move_conserving m (tick s (dt * sp)) Hm
                (tick_conserving m s (dt * sp) Hs Hd)) as H.
  destruct (move m (tick s (dt * sp))) as [s2 timers]; simpl in *.
  split; [|reflexivity].
  destruct H as (Ht & Hf & Hl). unfold conserving; simpl.
  split; [exact Ht|]. split; assumption.
Qed.

Lemma fire_conserving m k s :
  conserving m s -> conserving m (fire k s).
Proof.
  intros (Ht & Hf & Hl). unfold fire.
  destruct k.
  - destruct (phase_eqb (phase s) at_target) eqn:E;
      [|split; [exact Ht|]; split; assumption].
    unfold conserving; simpl. split; [exact Ht|].
    split; [|intros H; discriminate H].
    intros _. apply Hf. intros Hp. rewrite Hp in E. discriminate E.
  - destruct (phase_eqb (phase s) at_max) eqn:E;
      [|split; [exact Ht|]; split; assumption].
    unfold conserving; simpl. split; [lra|].
    split; [|intros H; discriminate H].
    intros _. apply Hf. intros Hp. rewrite Hp in E. discriminate E.
Qed.

Lemma observed_conserving m es : forall w l,
  energetic m -> nonneg_events es -> conserving m (sim w) ->
  observed m w es = Some l ->
  Forall (fun s =>
            (phase s <> landed ->
             currentTotal s = Some (totalEnergyAtTarget m)) /\
            (phase s = landed ->
             exists e, currentTotal s = Some e /\
                       totalEnergyAtTarget m <= e)) l.
Proof.
  induction es as [|e rest IH]; intros w l Hm Hn Hw Ho; simpl in Ho.
  - inversion Ho; subst. constructor.
  - inversion Hn as [|? ? H1 H2]; subst.
    destruct e as [dt sp|k]; simpl in Ho.
    + pose proof (update_conserving m (sim w) dt sp Hm Hw H1) as Hu.
      cbv zeta in Hu.
      destruct (update m (sim w) dt sp) as [[s2 timers] fin].
      simpl in Hu. destruct Hu as [Hc Ht].
      destruct (observed m _ rest) as [l1|] eqn:Eo; [|discriminate].
      inversion Ho; subst. simpl.
      constructor.
      * destruct Hc as (_ & Hf & Hl). split.
        -- intros Hp. destruct (Hf Hp) as [Hh He].
           rewrite Ht, Rmax_right by exact Hh. f_equal. exact He.
        -- intros Hp. eexists. split; [exact Ht|]. apply Hl. exact Hp.
      * eapply IH; [exact Hm | exact H2 | | exact Eo]. exact Hc.
    + destruct (remove_first k (pending w)) as [rest'|]; [|discriminate].
      destruct (observed m _ rest) as [l1|] eqn:Eo; [|discriminate].
      inversion Ho; subst.
      eapply IH; [exact Hm | exact H2 | | exact Eo].
      simpl. apply fire_conserving. exact Hw.
Qed.

(** X12: the energy read-out conserves energy.  In every run of the brick
    page with non-negative scaled deltas, whatever its timers do, each
    state seen after an update that has not landed yet shows
    currentTotal = totalEnergyAtTarget (118 per unit mass): kinetic plus
    potential energy stays what it was at the throw; after landing the
    total shown is at least that much. *)
Theorem X12_energy_conserved (es : list Event) (l : list State) :
  nonneg_events es ->
  observed model initial es = Some l ->
  totalEnergyAtTarget model = 118 /\
  Forall (fun s =>
            (phase s <> landed ->
             currentTotal s = Some (totalEnergyAtTarget model)) /\
            (phase s = landed ->
             exists e, currentTotal s = Some e /\
                       totalEnergyAtTarget model <= e)) l.
Proof.
  intros Hn Ho. split.
  - unfold model, calculateEnergetics, CONFIG_g, CONFIG_targetHeight,
      CONFIG_velocityAtTarget; simpl. lra.
  - eapply observed_conserving; [apply model_energetic | exact Hn | | exact Ho].
    destruct model_energetic as (Hg & Hu & Huu & Hmax).
    unfold conserving, initial, reset.
    cbn [sim time height velocity phase].
    split; [lra|]. split; [|intros H; discriminate H].
    intros _. split; [lra|].
    replace 0.5 with (/ 2) by lra. nra.
Qed.

Lemma X12_energy_conserved_witness :
  exists l,
    observed model initial [Update 0.1 4; Update 0.1 40] = Some l /\
    Forall (fun s =>
              phase s <> landed ->
              currentTotal s = Some (totalEnergyAtTarget model)) l.
Proof.
  assert (He : nonneg_events [Update 0.1 4; Update 0.1 40]).
  { constructor; [lra|]. constructor; [lra|]. constructor. }
  destruct (observed model initial [Update 0.1 4; Update 0.1 40])
    as [l|] eqn:Eo.
  - exists l. split; [reflexivity|].
    destruct (X12_energy_conserved _ l He Eo) as [_ H].
    eapply Forall_impl; [|exact H]. intros s [Hs _]. exact Hs.
  - exfalso.
    pose proof (WastageFacts.overshoot model WastageFacts.model_page) as H.
    cbv zeta in H. destruct H as (H & _).
    change (mkWorld (reset model) []) with initial in H.
    rewrite Eo in H. discriminate.
Defined.

(** Where [rise] and [fall] can leave the phase and the target flag. *)
Lemma rise_phase m s :
  (phase (rise m s) = at_max \/
   (phase (rise m s) = at_target /\ reachedTarget (rise m s) = true) \/
   (phase (rise m s) = phase s /\
    reachedTarget (rise m s) = reachedTarget s)).
Proof.
  unfold rise, Num.geb; simpl.
  destruct (Num.leb (targetHeight m) _ && negb (reachedTarget s)); simpl;
    destruct (Num.leb _ 0); simpl; auto.
Qed.

Lemma fall_phase m s :
  (phase (fall m s) = landed \/ phase (fall m s) = phase s) /\
  reachedTarget (fall m s) = reachedTarget s.
Proof.
  unfold fall; simpl. destruct (Num.leb _ 0); simpl; auto.
Qed.

Lemma tick_phase s d :
  (phase s = throwing /\ phase (tick s d) = ascending \/
   phase (tick s d) = phase s) /\
  reachedTarget (tick s d) = reachedTarget s.
Proof.
  unfold tick; simpl.
  destruct (phase_eqb (phase s) throwing && Num.gtb (time s + d) 0.3) eqn:E;
    simpl; [|auto].
  split; [|reflexivity]. left. split; [|reflexivity].
  destruct (phase s); simpl in E; try discriminate E; reflexivity.
Qed.

Lemma update_phase m s dt sp :
  phase (fst (fst (update m s dt sp)))
    = phase (fst (move m (tick s (dt * sp)))) /\
  reachedTarget (fst (fst (update m s dt sp)))
    = reachedTarget (fst (move m (tick s (dt * sp)))).
Proof.
  unfold update. destruct (move m (tick s (dt * sp))); simpl. auto.
Qed.

(** The phases [update] can reach by itself. *)
Lemma update_without_timers m s dt sp :
  (rank (phase s) <= 2 \/ phase s = at_max)%nat ->
  let s' := fst (fst (update m s dt sp)) in
  (rank (phase s') <= 2 \/ phase s' = at_max)%nat.
Proof.
  intros Hp. cbv zeta.
  destruct (update_phase m s dt sp) as [-> _].
  assert (Ht : (rank (phase (tick s (dt * sp))) <= 2
                \/ phase (tick s (dt * sp)) = at_max)%nat).
  { destruct (tick_phase s (dt * sp)) as [[[_ H]|H] _]; rewrite H;
      [left; simpl; lia | exact Hp]. }
  set (s1 := tick s (dt * sp)) in *. clearbody s1.
  unfold move. destruct (phase s1) eqn:Ep; simpl in *; rewrite ?Ep;
    try (left; simpl; lia); try (right; reflexivity);
    try (destruct Ht as [Ht|Ht]; [lia | discriminate Ht]).
  destruct (rise_phase m s1) as [H|[[H _]|[H _]]]; rewrite H, ?Ep;
    [right; reflexivity | left; simpl; lia | left; simpl; lia].
Qed.

(** X13: the brick never comes down without its timer.  In a run in which
    no timer callback fires, whatever the deltas and speeds, every state
    seen after an update is throwing, ascending, at_target or at_max: the
    stepper by itself never reaches continuing, descending or landed, and
    update never reports completion. *)
Theorem X13_no_landing_without_timer
  (m : Model) (es : list Event) : forall (w : World) (l : list State),
  updates_only es ->
  (rank (phase (sim w)) <= 2 \/ phase (sim w) = at_max)%nat ->
  observed m w es = Some l ->
  Forall (fun s => phase s = throwing \/ phase s = ascending \/
                   phase s = at_target \/ phase s = at_max) l.
Proof.
  induction es as [|e rest IH]; intros w l Hu Hw Ho; simpl in Ho.
  - inversion Ho; subst. constructor.
  - inversion Hu as [|? ? H1 H2]; subst.
    destruct e as [dt sp|k]; [|contradiction].
    simpl in Ho.
    pose proof (update_without_timers m (sim w) dt sp Hw) as Hs.
    cbv zeta in Hs.
    destruct (update m (sim w) dt sp) as [[s2 timers] fin]. simpl in Hs.
    destruct (observed m _ rest) as [l1|] eqn:Eo; [|discriminate].
    inversion Ho; subst. simpl. constructor.
    + destruct (phase s2); simpl in Hs; auto;
        destruct Hs as [Hs|Hs]; try lia; discriminate Hs.
    + eapply IH; [exact H2 | | exact Eo]. exact Hs.
Qed.

Lemma X13_no_landing_without_timer_witness :
  exists l,
    observed model initial timer_late = Some l /\
    Forall (fun s => phase s = throwing \/ phase s = ascending \/
                     phase s = at_target \/ phase s = at_max) l.
Proof.
  destruct (observed model initial timer_late) as [l|] eqn:Eo.
  - exists l. split; [reflexivity|].
    apply (X13_no_landing_without_timer model timer_late initial l).
    + unfold timer_late, updates_only. repeat constructor.
    + left. simpl. lia.
    + exact Eo.
  - exfalso.
    pose proof (WastageFacts.timer_late_observed model
                  WastageFacts.model_page) as H.
    cbv zeta in H. destruct H as (H & _).
    change (mkWorld (reset model) []) with initial in H.
    rewrite Eo in H. discriminate.
Defined.

Lemma update_rank m s dt sp :
  target_marked s ->
  let s' := fst (fst (update m s dt sp)) in
  (rank (phase s) <= rank (phase s'))%nat /\ target_marked s'.
Proof.
  intros Hm. cbv zeta.
  destruct (update_phase m s dt sp) as [Hp Hr].
  unfold target_marked. rewrite Hp, Hr. clear Hp Hr.
  assert (Ht : (rank (phase s) <= rank (phase (tick s (dt * sp))))%nat
               /\ target_marked (tick s (dt * sp))).
  { destruct (tick_phase s (dt * sp)) as [[[H0 H]|H] Hq];
      unfold target_marked; rewrite H, Hq.
    - rewrite H0. split; [simpl; lia|]. intros [A|A]; discriminate A.
    - split; [lia | exact Hm]. }
  destruct Ht as [Hle Hm1].
  set (s1 := tick s (dt * sp)) in *. clearbody s1.
  unfold target_marked in Hm1.
  unfold move. destruct (phase s1) eqn:Ep; simpl.
  - rewrite Ep. split; [exact Hle|]. intros [A|A]; discriminate A.
  - destruct (rise_phase m s1) as [H|[[H Hq]|[H Hq]]]; rewrite H.
    + split; [simpl in *; lia|]. intros [A|A]; discriminate A.
    + split; [simpl in *; lia|]. intros _. exact Hq.
    + rewrite Ep. split; [exact Hle|]. intros [A|A]; discriminate A.
  - rewrite Ep. split; [exact Hle|]. intros _. apply Hm1. auto.
  - assert (Hq1 : reachedTarget s1 = true) by (apply Hm1; auto).
    destruct (rise_phase m s1) as [H|[[H Hq]|[H Hq]]].
    + rewrite H. split; [simpl in *; lia|]. intros [A|A]; discriminate A.
    + exfalso. revert H. unfold rise, Num.geb; simpl. rewrite Hq1.
      rewrite andb_false_r; simpl.
      destruct (Num.leb _ 0); simpl; rewrite ?Ep; discriminate.
    + rewrite H, Hq, Ep. split; [exact Hle|]. intros _. exact Hq1.
  - rewrite Ep. split; [exact Hle|]. intros [A|A]; discriminate A.
  - destruct (fall_phase m s1) as [[H|H] Hq]; rewrite H.
    + split; [simpl in *; lia|]. intros [A|A]; discriminate A.
    + rewrite Ep. split; [exact Hle|]. intros [A|A]; discriminate A.
  - rewrite Ep. split; [exact Hle|]. intros [A|A]; discriminate A.
Qed.

Lemma fire_rank k s :
  target_marked s ->
  (rank (phase s) <= rank (phase (fire k s)))%nat /\
  target_marked (fire k s).
Proof.
  intros Hm. unfold fire, target_marked in *.
  destruct k; destruct (phase s) eqn:Ep; simpl; rewrite ?Ep; simpl;
    split; try lia; auto; intros [H|H]; try discriminate H; auto.
Qed.

Lemma exec_rank m es : forall w w',
  target_marked (sim w) -> exec m w es = Some w' ->
  (rank (phase (sim w)) <= rank (phase (sim w')))%nat /\
  target_marked (sim w').
Proof.
  induction es as [|e rest IH]; intros w w' Hm He; simpl in He.
  - inversion He; subst. split; [lia | exact Hm].
  - destruct e as [dt sp|k]; simpl in He.
    + pose proof (update_rank m (sim w) dt sp Hm) as Hu. cbv zeta in Hu.
      destruct (update m (sim w) dt sp) as [[s2 timers] fin].
      simpl in Hu. destruct Hu as [Hr Hm2].
      destruct (IH (mkWorld s2 (pending w ++ timers)) w' Hm2 He)
        as [Hr' Hm']. simpl in Hr'.
      split; [lia | exact Hm'].
    + destruct (remove_first k (pending w)) as [rest'|]; [|discriminate].
      destruct (fire_rank k (sim w) Hm) as [Hr Hm2].
      destruct (IH (mkWorld (fire k (sim w)) rest') w' Hm2 He)
        as [Hr' Hm']. simpl in Hr'.
      split; [lia | exact Hm'].
Qed.

(** X14: the brick's phases only move forward.  Along any run of the page
    from its start, with any deltas and any timer firings, a later state
    is never in an earlier phase of the sequence throwing, ascending,
    at_target, continuing, at_max, descending, landed. *)
Theorem X14_phases_move_forward
  (m : Model) (es1 es2 : list Event) (w1 w2 : World) :
  exec m (mkWorld (reset m) []) es1 = Some w1 ->
  exec m w1 es2 = Some w2 ->
  (rank (phase (sim w1)) <= rank (phase (sim w2)))%nat.
Proof.
  intros H1 H2.
  assert (H0 : target_marked (sim (mkWorld (reset m) []))).
  { unfold target_marked; simpl. intros [H|H]; discriminate H. }
  destruct (exec_rank m es1 _ w1 H0 H1) as [_ Hm1].
  apply (exec_rank m es2 w1 w2 Hm1 H2).
Qed.

Lemma X14_phases_move_forward_witness :
  exists w1 w2,
    exec model initial [Update 0.1 4] = Some w1 /\
    exec model w1 [Update 0.1 (-2)] = Some w2 /\
    (rank (phase (sim w1)) <= rank (phase (sim w2)))%nat.
Proof.
  assert (H1 : exists w1, exec model initial [Update 0.1 4] = Some w1).
  { simpl. destruct (update model (reset model) 0.1 4) as [[? ?] ?].
    eexists. reflexivity. }
  destruct H1 as [w1 E1].
  assert (H2 : exists w2, exec model w1 [Update 0.1 (-2)] = Some w2).
  { simpl. destruct (update model (sim w1) 0.1 (-2)) as [[? ?] ?].
    eexists. reflexivity. }
  destruct H2 as [w2 E2].
  exists w1, w2. split; [exact E1|]. split; [exact E2|].
  exact (X14_phases_move_forward model _ _ w1 w2 E1 E2).
Defined.

(** X15: calculateEnergetics is consistent with the stepper for every
    gravity g > 0, target height h >= 0 and arrival speed v > 0 (the page
    uses 10, 10 and 6): a brick that has risen for timeToTarget is exactly
    at the target height with exactly the arrival speed, and update's
    rising branch then enters the pause at the target; after timeToMax the
    rising formula gives exactly maxHeight, so the apex is entered without
    a jump; the wasted energy is the kinetic energy at the target, and
    both the launch energy u^2 / 2 and the apex energy g * maxHeight equal
    the total energy at the target. *)
Theorem X15_energetics_consistent (g h v : R) :
  0 < g -> 0 <= h -> 0 < v ->
  let m := calculateEnergeticsWith g h v in
  let arriving := mkState (timeToTarget m) 0 (initialVelocity m) ascending
                    false false [] None None None in
  calculateEnergetics
    = calculateEnergeticsWith CONFIG_g CONFIG_targetHeight
        CONFIG_velocityAtTarget /\
  height (rise m arriving) = h /\
  velocity (rise m arriving) = v /\
  phase (rise m arriving) = at_target /\
  initialVelocity m * timeToMax m
    - 0.5 * g * timeToMax m * timeToMax m = maxHeight m /\
  initialVelocity m - g * timeToMax m = 0 /\
  wastedEnergy m = keAtTarget m /\
  0.5 * initialVelocity m * initialVelocity m = totalEnergyAtTarget m /\
  g * maxHeight m = totalEnergyAtTarget m.
Proof.
  intros Hg Hh Hv m arriving.
  split; [reflexivity|].
  assert (Hrad : 0 <= v * v + 2 * g * h).
  { assert (0 <= v * v) by nra. assert (0 <= g * h) by nra. lra. }
  assert (Huu : initialVelocity m * initialVelocity m = v * v + 2 * g * h)
    by (simpl; apply sqrt_sqrt; exact Hrad).
  assert (Et : timeToTarget m = (initialVelocity m - v) / g) by reflexivity.
  assert (Em : timeToMax m = initialVelocity m / g) by reflexivity.
  assert (Eh : maxHeight m = h + v * v / (2 * g)) by reflexivity.
  assert (Ew : wastedEnergy m = 0.5 * v * v + g * h - g * h) by reflexivity.
  assert (Ek : keAtTarget m = 0.5 * v * v) by reflexivity.
  assert (Ee : totalEnergyAtTarget m = 0.5 * v * v + g * h) by reflexivity.
  assert (Egm : Wastage.g m = g) by reflexivity.
  assert (Etg : targetHeight m = h) by reflexivity.
  set (u := initialVelocity m) in *.
  assert (Hf : u * timeToTarget m
               - 0.5 * g * timeToTarget m * timeToTarget m = h).
  { rewrite Et. replace 0.5 with (/ 2) by lra.
    replace (u * ((u - v) / g) - / 2 * g * ((u - v) / g) * ((u - v) / g))
      with ((u * u - v * v) / (2 * g)) by (field; lra).
    rewrite Huu. field. lra. }
  assert (Hvel : u - g * timeToTarget m = v) by (rewrite Et; field; lra).
  assert (Hrise : height (rise m arriving) = h /\
                  velocity (rise m arriving) = v /\
                  phase (rise m arriving) = at_target).
  { unfold rise, Num.geb. subst arriving.
    cbn [time height velocity phase reachedTarget reachedMax trail
         currentKE currentPE currentTotal set_motion].
    fold u. rewrite Egm, Etg, Hf, Hvel.
    rewrite (proj2 (NumFacts.leb_true h h)) by lra.
    cbn [negb andb velocity].
    rewrite (proj2 (NumFacts.leb_false v 0)) by lra.
    cbn [height velocity phase]. auto. }
  destruct Hrise as (R1 & R2 & R3).
  clearbody m. clearbody arriving.
  split; [exact R1|]. split; [exact R2|]. split; [exact R3|].
  rewrite Em, Eh, Ew, Ek, Ee.
  replace 0.5 with (/ 2) in * by lra.
  split.
  { replace (u * (u / g) - / 2 * g * (u / g) * (u / g))
      with (u * u / (2 * g)) by (field; lra).
    rewrite Huu. field. lra. }
  split; [field; lra|]. split; [ring|].
  split; [rewrite Rmult_assoc, Huu; field|].
  field. lra.
Qed.

Lemma X15_energetics_consistent_witness :
  let m := calculateEnergeticsWith 10 10 6 in
  height (rise m (mkState (timeToTarget m) 0 (initialVelocity m) ascending
                    false false [] None None None)) = 10.
Proof.
  intros m.
  apply (X15_energetics_consistent 10 10 6); lra.
Defined.

Lemma update_trail m s dt sp :
  (length (trail s) <= 80)%nat ->
  (length (trail (fst (fst (update m s dt sp)))) <= 80)%nat.
Proof.
  intros H. unfold update.
  assert (Ht : trail (tick s (dt * sp)) = trail s).
  { unfold tick; simpl. destruct (_ && _); reflexivity. }
  assert (Hm : (length (trail (fst (move m (tick s (dt * sp))))) <= 80)%nat).
  { rewrite <- Ht in H. set (s1 := tick s (dt * sp)) in *. clearbody s1.
    unfold move, rise, fall, Num.geb.
    destruct (phase s1); simpl; try exact H;
      repeat match goal with
             | |- context [if ?c then _ else _] => destruct c; simpl
             end; apply TrailFacts.push_length; exact H. }
  destruct (move m (tick s (dt * sp))) as [s2 timers]; simpl in *. exact Hm.
Qed.

Lemma exec_trail m es : forall w w',
  (length (trail (sim w)) <= 80)%nat -> exec m w es = Some w' ->
  (length (trail (sim w')) <= 80)%nat.
Proof.
  induction es as [|e rest IH]; intros w w' Hw He; simpl in He.
  - inversion He; subst. exact Hw.
  - destruct e as [dt sp|k]; simpl in He.
    + pose proof (update_trail m (sim w) dt sp Hw) as Hu.
      destruct (update m (sim w) dt sp) as [[s2 timers] fin]. simpl in Hu.
      apply (IH (mkWorld s2 (pending w ++ timers)) w' Hu He).
    + destruct (remove_first k (pending w)) as [rest'|]; [|discriminate].
      apply (IH (mkWorld (fire k (sim w)) rest') w'); [|exact He].
      simpl. unfold fire.
      destruct k; destruct (phase_eqb _ _); simpl; exact Hw.
Qed.

(** X2: the trails are bounded buffers.  Whatever update calls (and, for
    the brick, timer firings) a page has seen, each dual-ball trail holds
    at most 60 heights and the brick's trail at most 80. *)
Theorem X2_trails_bounded
  (inputs : list (R * R)) (es : list Event) (w : World) :
  exec model initial es = Some w ->
  Forall (fun b => (length (DualBall.trail b) <= 60)%nat)
         (DualBall.balls (DualBall.run DualBall.constructor inputs)) /\
  (length (trail (sim w)) <= 80)%nat.
Proof.
  intros He. split.
  - apply DualBallMoreFacts.run_trails.
    unfold DualBall.constructor; simpl.
    constructor; [simpl; lia|]. constructor; [simpl; lia|]. constructor.
  - apply (exec_trail model es initial w); [simpl; lia | exact He].
Qed.

Lemma X2_trails_bounded_witness :
  exists w, exec model initial [Update 0.1 4] = Some w /\
            (length (trail (sim w)) <= 80)%nat.
Proof.
  assert (H1 : exists w1, exec model initial [Update 0.1 4] = Some w1).
  { simpl. destruct (update model (reset model) 0.1 4) as [[? ?] ?].
    eexists. reflexivity. }
  destruct H1 as [w E]. exists w. split; [exact E|].
  apply (X2_trails_bounded [(0.1, 1)] [Update 0.1 4] w E).
Defined.

End WastageMoreFacts.

Module FreeFallFacts.
Import FreeFall FreeFallView.

Lemma floor_nonneg x : 0 <= x -> (0 <= floor x)%Z.
Proof.
  intros Hx. unfold floor.
  destruct (base_Int_part x) as [_ H].
  apply Z.lt_succ_r. apply lt_IZR. rewrite succ_IZR. lra.
Qed.

Lemma floor_le x k : x <= IZR k -> (floor x <= k)%Z.
Proof.
  intros Hx. unfold floor.
  destruct (base_Int_part x) as [H _].
  apply le_IZR. lra.
Qed.

Lemma floor_IZR k x : x = IZR k -> floor x = k.
Proof.
  intros ->. unfold floor. symmetry. apply Int_part_spec. lra.
Qed.

(** X16: whatever time an unfinished ball is updated with, the storey
    counters stay consistent: storeysFallen lies between 0 and 16,
    currentFloor is 16 - storeysFallen, the distance fallen is
    g t^2 / 2 at the time capped at totalTime (so never negative, and at
    most totalHeight when the time is not negative), and the ball is
    finished exactly when the time given reached totalTime; a finished
    ball ignores the call. *)
Theorem X16_storeys_consistent (b : FallingBall) (t : R) :
  let b' := update b t in
  (finished b = true -> b' = b) /\
  (finished b = false ->
   (0 <= storeysFallen b' <= 16)%Z /\
   currentFloor b' = (16 - storeysFallen b')%Z /\
   y b' = 0.5 * CONFIG_g * Rmin t CONFIG_totalTime * Rmin t CONFIG_totalTime /\
   velocity b' = CONFIG_g * Rmin t CONFIG_totalTime /\
   0 <= y b' /\
   (0 <= t -> y b' <= CONFIG_totalHeight) /\
   (finished b' = true <-> CONFIG_totalTime <= t)).
Proof.
  cbv zeta. split.
  - intros Hf. unfold update. rewrite Hf. reflexivity.
  - intros Hf. unfold update, Num.geb. rewrite Hf.
    unfold CONFIG_totalTime, CONFIG_g, CONFIG_storeyHeight,
      CONFIG_totalHeight.
    destruct (NumFacts.leb_spec 4 t) as [Hle|Hgt];
      cbn [y velocity currentFloor storeysFallen finished].
    + rewrite Rmin_right by lra.
      assert (Hfl : floor (0.5 * 10 * 4 * 4 / 5) = 16%Z)
        by (apply floor_IZR; lra).
      rewrite Hfl.
      repeat split; try lia; try lra; auto.
    + rewrite Rmin_left by lra.
      assert (Htt : 0 <= t * t) by nra.
      assert (Hfl : (0 <= floor (0.5 * 10 * t * t / 5))%Z)
        by (apply floor_nonneg; lra).
      repeat split; try lia; try discriminate; try nra.
Qed.

Lemma X16_storeys_consistent_witness :
  (0 <= storeysFallen (update reset 2.5) <= 16)%Z.
Proof.
  apply (X16_storeys_consistent reset 2.5). reflexivity.
Defined.

Lemma update_reset_whole (k : Z) :
  (0 <= k <= 4)%Z ->
  y (update reset (IZR k)) = 0.5 * CONFIG_g * IZR k * IZR k /\
  storeysFallen (update reset (IZR k)) = (k * k)%Z.
Proof.
  intros Hk.
  assert (Hc : k = 0%Z \/ k = 1%Z \/ k = 2%Z \/ k = 3%Z \/ k = 4%Z) by lia.
  unfold update, Num.geb, CONFIG_totalTime, CONFIG_g, CONFIG_storeyHeight.
  cbn [finished reset].
  destruct Hc as [->|[->|[->|[->| ->]]]];
    match goal with
    | |- context [Num.leb ?a ?b] =>
        destruct (NumFacts.leb_spec a b) as [Hle|Hgt]; try lra
    end;
    cbn [y storeysFallen];
    (split; [lra|]);
    match goal with
    | |- Z.min 16 (floor ?x) = ?z =>
        let H := fresh in
        assert (H : floor x = z) by (apply floor_IZR; simpl; lra);
        rewrite H; reflexivity
    end.
Qed.

Lemma getStoreysInInterval_whole (k : Z) :
  (1 <= k <= 4)%Z -> getStoreysInInterval k = (2 * k - 1)%Z.
Proof.
  intros Hk.
  assert (Hc : k = 1%Z \/ k = 2%Z \/ k = 3%Z \/ k = 4%Z) by lia.
  destruct Hc as [->|[->|[->| ->]]]; reflexivity.
Qed.

(** X17: the three look-up tables agree with the ball: for every whole
    second k from 0 to 4, DISTANCES[k] and STOREYS_AT[k] are the distance
    and the storeys of a fresh ball updated to time k; for k from 1 to 4,
    getStoreysInInterval(k) is the difference of two successive STOREYS_AT
    entries, that is 2k - 1; for every other key the [|| 0] fallback
    gives 0. *)
Theorem X17_tables_agree (k : Z) :
  ((0 <= k <= 4)%Z ->
   DISTANCES k = Some (y (update reset (IZR k))) /\
   STOREYS_AT k = Some (storeysFallen (update reset (IZR k)))) /\
  ((1 <= k <= 4)%Z ->
   getStoreysInInterval k = (2 * k - 1)%Z /\
   STOREYS_AT k = Some (k * k)%Z /\
   STOREYS_AT (k - 1) = Some (k * k - getStoreysInInterval k)%Z) /\
  (~ (1 <= k <= 4)%Z -> getStoreysInInterval k = 0%Z).
Proof.
  split; [|split].
  - intros Hk. destruct (update_reset_whole k Hk) as [Hy Hs].
    rewrite Hy, Hs.
    assert (Hc : k = 0%Z \/ k = 1%Z \/ k = 2%Z \/ k = 3%Z \/ k = 4%Z) by lia.
    destruct Hc as [->|[->|[->|[->| ->]]]]; cbn [DISTANCES STOREYS_AT];
      (split; [f_equal; lra|reflexivity]).
  - intros Hk.
    assert (Hc : k = 1%Z \/ k = 2%Z \/ k = 3%Z \/ k = 4%Z) by lia.
    destruct Hc as [->|[->|[->| ->]]]; repeat split; reflexivity.
  - intros Hk. unfold getStoreysInInterval, STOREYS_PER_SECOND.
    destruct k as [|p|p]; try reflexivity.
    destruct p as [[[|q|]|[|q|]|]|[[|q|]|[|q|]|]|]; try reflexivity; lia.
Qed.

Lemma X17_tables_agree_witness :
  getStoreysInInterval 4 = 7%Z /\ getStoreysInInterval 5 = 0%Z.
Proof.
  split.
  - apply (proj1 (proj2 (X17_tables_agree 4))). lia.
  - apply (proj2 (proj2 (X17_tables_agree 5))). lia.
Defined.

Lemma loaded_in_sync : in_sync loaded.
Proof.
  unfold in_sync, loaded, CONFIG_totalTime, CONFIG_g. cbn.
  repeat split; try lra; try discriminate; intros; lra.
Qed.

Lemma resetSimulation_in_sync st : in_sync (resetSimulation st).
Proof.
  unfold in_sync, resetSimulation, CONFIG_totalTime, CONFIG_g. cbn.
  repeat split; try lra; try discriminate; intros; lra.
Qed.

Lemma animate_in_sync st ts : in_sync st -> in_sync (animate st ts).
Proof.
  intros (Hy & Hv & Hle & Hfin & Hpl).
  unfold animate. destruct (isPlaying st) eqn:Ep; cbn [negb].
  2: { repeat split; auto; try apply Hfin. rewrite Ep. discriminate. }
  specialize (Hpl eq_refl).
  assert (Hnf : finished (ball st) = false).
  { destruct (finished (ball st)); [|reflexivity].
    exfalso. assert (currentTime st = CONFIG_totalTime) by (apply Hfin; auto).
    lra. }
  set (t := currentTime st + frame_delta st ts * speed st).
  unfold in_sync. cbn [isPlaying currentTime ball].
  unfold update. rewrite Hnf. cbn [y velocity finished].
  unfold Num.geb, CONFIG_totalTime, CONFIG_g in *.
  destruct (NumFacts.leb_spec 4 t) as [H1|H1].
  - destruct (NumFacts.leb_spec 4 4) as [H2|H2]; [|lra].
    repeat split; try lra; try discriminate; auto.
  - destruct (NumFacts.leb_spec 4 t) as [H2|H2]; [lra|].
    repeat split; try lra; try discriminate; intros; lra.
Qed.

Lemma playClick_in_sync st now : in_sync st -> in_sync (playClick st now).
Proof.
  intros H. unfold playClick, Num.geb.
  destruct (NumFacts.leb_spec CONFIG_totalTime (currentTime st)) as [H1|H1].
  - destruct (resetSimulation_in_sync st) as (Hy & Hv & Hle & Hfin & Hpl).
    unfold in_sync. unfold resetSimulation in *.
    cbn [isPlaying currentTime ball] in *.
    repeat split; auto; try apply Hfin.
    intros _. unfold CONFIG_totalTime. lra.
  - destruct H as (Hy & Hv & Hle & Hfin & Hpl).
    unfold in_sync. cbn [isPlaying currentTime ball].
    repeat split; auto; try apply Hfin.
    intros _. lra.
Qed.

Lemma handle_in_sync st e :
  is_jump e = false -> in_sync st -> in_sync (handle st e).
Proof.
  intros He H. destruct e; cbn [handle]; try discriminate.
  - apply animate_in_sync, H.
  - apply playClick_in_sync, H.
  - destruct H as (Hy & Hv & Hle & Hfin & Hpl).
    unfold in_sync, pauseClick. cbn [isPlaying currentTime ball].
    repeat split; auto; try apply Hfin. discriminate.
  - apply resetSimulation_in_sync.
  - destruct H as (Hy & Hv & Hle & Hfin & Hpl).
    unfold in_sync, speedClick. cbn [isPlaying currentTime ball].
    repeat split; auto; apply Hfin.
Qed.

(** X18: from the loaded page, after any sequence of animation frames
    (with any timestamps, also late or out of order), play, pause, reset
    and speed clicks (with any speed), the ball shows the clock: distance
    g t^2 / 2 and velocity g t at the page's currentTime, the clock never
    exceeds totalTime, the ball is finished exactly when the clock stands
    at totalTime, and the animation is not playing then. *)
Theorem X18_ball_shows_clock (es : list Event) :
  forallb (fun e => negb (is_jump e)) es = true ->
  in_sync (handle_all loaded es).
Proof.
  unfold handle_all. generalize loaded_in_sync. generalize loaded.
  induction es as [|e es IH]; intros st Hst Hes; cbn [fold_left].
  - exact Hst.
  - cbn [forallb] in Hes. apply andb_prop in Hes. destruct Hes as [He Hes].
    apply IH; [|exact Hes]. apply handle_in_sync; [|exact Hst].
    destruct (is_jump e); [discriminate|reflexivity].
Qed.

Lemma X18_ball_shows_clock_witness :
  in_sync (handle_all loaded [Play 0; Frame 1500; Speed 2; Frame 9000]).
Proof.
  apply (X18_ball_shows_clock [Play 0; Frame 1500; Speed 2; Frame 9000]).
  reflexivity.
Defined.

Lemma mem_interval_In i l : mem_interval i l = true <-> In i l.
Proof.
  unfold mem_interval. rewrite existsb_exists. split.
  - intros (x & Hx & E). apply Z.eqb_eq in E. subst. exact Hx.
  - intros H. exists i. split; [exact H|apply Z.eqb_refl].
Qed.

Lemma NoDup_snoc (i : Z) l : NoDup l -> ~ In i l -> NoDup (l ++ [i]).
Proof.
  intros Hl Hi. induction Hl as [|x l Hx Hl IH]; cbn.
  - constructor; [intros []|constructor].
  - constructor.
    + rewrite in_app_iff. intros [H|[H|[]]]; [auto|].
      subst. apply Hi. left. reflexivity.
    + apply IH. intros H. apply Hi. right. exact H.
Qed.

Lemma add_interval_ok i l :
  (1 <= i <= 4)%Z -> intervals_ok l -> intervals_ok (add_interval i l).
Proof.
  intros Hi [Hf Hn]. unfold add_interval.
  destruct (mem_interval i l) eqn:E; [split; assumption|].
  split.
  - apply Forall_app. split; [exact Hf|]. constructor; [exact Hi|constructor].
  - apply NoDup_snoc; [exact Hn|]. rewrite <- mem_interval_In, E. discriminate.
Qed.

Lemma animate_intervals st ts :
  intervals_ok (completedIntervals st) ->
  intervals_ok (completedIntervals (animate st ts)).
Proof.
  intros H. unfold animate. destruct (isPlaying st); cbn [negb]; [|exact H].
  cbn [completedIntervals].
  set (t := currentTime st + frame_delta st ts * speed st).
  set (t' := if Num.geb t CONFIG_totalTime then CONFIG_totalTime else t).
  assert (Ht' : t' <= 4).
  { unfold t', Num.geb, CONFIG_totalTime.
    destruct (NumFacts.leb_spec 4 t); lra. }
  destruct (Z.ltb 0 (floor t')) eqn:E0; cbn [andb]; [|exact H].
  apply Z.ltb_lt in E0.
  destruct (mem_interval (floor t') (completedIntervals st)) eqn:E;
    cbn [negb]; [exact H|].
  assert (Hi : (1 <= floor t' <= 4)%Z).
  { split; [lia|]. apply floor_le. exact Ht'. }
  generalize (add_interval_ok _ _ Hi H). unfold add_interval.
  rewrite E. auto.
Qed.

Lemma handle_intervals st e :
  intervals_ok (completedIntervals st) ->
  intervals_ok (completedIntervals (handle st e)).
Proof.
  intros H. destruct e; cbn [handle].
  - apply animate_intervals, H.
  - unfold playClick. destruct (Num.geb _ _); cbn [completedIntervals].
    + split; constructor.
    + exact H.
  - exact H.
  - split; constructor.
  - exact H.
  - unfold lastSecondClick. cbn [completedIntervals].
    repeat apply add_interval_ok; try lia. exact H.
Qed.

(** X19: whatever the page is put through (frames with any timestamps
    and speeds, any button), the seconds reported as completed are whole
    seconds from 1 to 4, each reported once: so at most four of them, and
    getStoreysInInterval never falls back to 0 on a reported second. *)
Theorem X19_reported_seconds (es : list Event) :
  let l := completedIntervals (handle_all loaded es) in
  intervals_ok l /\
  (length l <= 4)%nat /\
  Forall (fun i => (0 < getStoreysInInterval i)%Z) l.
Proof.
  cbv zeta.
  assert (H : intervals_ok (completedIntervals (handle_all loaded es))).
  { unfold handle_all.
    assert (H0 : intervals_ok (completedIntervals loaded))
      by (split; constructor).
    revert H0. generalize loaded.
    induction es as [|e es IH]; intros st Hst; cbn [fold_left].
    - exact Hst.
    - apply IH. apply handle_intervals. exact Hst. }
  split; [exact H|]. destruct H as [Hf Hn]. split.
  - assert (Hincl : incl (completedIntervals (handle_all loaded es))
                         [1; 2; 3; 4]%Z).
    { intros i Hi. rewrite Forall_forall in Hf. specialize (Hf i Hi).
      cbn. lia. }
    apply (NoDup_incl_length Hn) in Hincl. exact Hincl.
  - eapply Forall_impl; [|exact Hf]. cbn beta. intros i Hi.
    rewrite (getStoreysInInterval_whole i Hi). lia.
Qed.

(** X20: the jump-to-last-second button on a page whose ball shows the
    clock: if the ball has not finished, the page then shows second 3
    (45 m, 30 m/s, 9 storeys fallen, floor 7), paused; if the ball has
    finished, the clock is put back to 3 but the ball stays on the
    ground at 80 m, and the next click on play resumes from 3 with a ball
    that no longer moves. *)
Theorem X20_last_second (st : State) :
  in_sync st ->
  let st' := lastSecondClick st in
  currentTime st' = 3 /\ isPlaying st' = false /\
  (finished (ball st) = false ->
   in_sync st' /\ y (ball st') = 45 /\ velocity (ball st') = 30 /\
   storeysFallen (ball st') = 9%Z /\ currentFloor (ball st') = 7%Z) /\
  (finished (ball st) = true ->
   y (ball st') = CONFIG_totalHeight /\
   forall now ts,
     ball (animate (playClick st' now) ts) = ball st /\
     currentTime (playClick st' now) = 3).
Proof.
  intros (Hy & Hv & Hle & Hfin & Hpl). cbv zeta.
  unfold lastSecondClick. cbn [currentTime isPlaying ball].
  split; [reflexivity|]. split; [reflexivity|]. split.
  - intros Hnf. unfold in_sync. cbn [currentTime isPlaying ball].
    unfold update. rewrite Hnf. unfold Num.geb, CONFIG_totalTime, CONFIG_g,
      CONFIG_storeyHeight.
    destruct (NumFacts.leb_spec 4 3) as [H|H]; [lra|].
    cbn [y velocity finished storeysFallen currentFloor].
    assert (Hfl : floor (0.5 * 10 * 3 * 3 / 5) = 9%Z)
      by (apply floor_IZR; lra).
    rewrite Hfl.
    repeat split; try lra; try discriminate; try reflexivity.
  - intros Hf. unfold update. rewrite Hf. split.
    + rewrite Hy. assert (currentTime st = CONFIG_totalTime)
        by (apply Hfin; exact Hf).
      unfold CONFIG_totalTime, CONFIG_g, CONFIG_totalHeight in *. nra.
    + intros now ts. unfold playClick, Num.geb. cbn [currentTime].
      unfold CONFIG_totalTime.
      destruct (NumFacts.leb_spec 4 3) as [H|H]; [lra|].
      cbn [currentTime ball speed completedIntervals]. split; [|reflexivity].
      unfold animate. cbn [isPlaying negb ball]. unfold update.
      rewrite Hf. reflexivity.
Qed.

Lemma X20_last_second_witness :
  currentTime (lastSecondClick loaded) = 3 /\
  in_sync (lastSecondClick loaded).
Proof.
  pose proof (X20_last_second loaded loaded_in_sync) as H.
  cbv zeta in H. destruct H as (H1 & _ & H2 & _).
  split; [exact H1|]. apply H2. reflexivity.
Defined.

End FreeFallFacts.


Module SolarSystemFacts.
Import Kepler SolarSystem.

Lemma GM_sun_pos : 0 < CONFIG_G * CONFIG_M_sun.
Proof.
  unfold CONFIG_G, CONFIG_M_sun. apply Rmult_lt_0_compat; lra.
Qed.

Lemma calculatePeriod_pos r : 0 < r -> 0 < calculatePeriod r.
Proof.
  intros Hr. unfold calculatePeriod.
  pose proof PI_RGT_0. pose proof GM_sun_pos.
  apply Rmult_lt_0_compat; [lra|].
  apply sqrt_lt_R0. apply Rdiv_lt_0_compat; [apply pow_lt; exact Hr|lra].
Qed.

Lemma calculatePeriod_sqr r :
  0 < r ->
  calculatePeriod r * calculatePeriod r
  = 4 * PI * PI * r ^ 3 / (CONFIG_G * CONFIG_M_sun).
Proof.
  intros Hr. unfold calculatePeriod.
  pose proof GM_sun_pos as Hk.
  assert (Hq : 0 <= r ^ 3 / (CONFIG_G * CONFIG_M_sun)).
  { apply Rlt_le, Rdiv_lt_0_compat; [apply pow_lt; exact Hr|lra]. }
  pose proof (sqrt_sqrt _ Hq) as Hs.
  set (q := sqrt (r ^ 3 / (CONFIG_G * CONFIG_M_sun))) in *.
  replace (2 * PI * q * (2 * PI * q)) with (4 * PI * PI * (q * q)) by ring.
  rewrite Hs. field. unfold CONFIG_G, CONFIG_M_sun. split; lra.
Qed.

(** X21: Kepler's third law for calculatePeriod at any two positive
    radii: the squares of the periods are as the cubes of the radii, a
    larger orbit has the longer period, and the period itself is
    positive. *)
Theorem X21_third_law (r1 r2 : R) :
  0 < r1 -> 0 < r2 ->
  0 < calculatePeriod r1 /\
  (calculatePeriod r1 / calculatePeriod r2) ^ 2 = (r1 / r2) ^ 3 /\
  (r1 < r2 -> calculatePeriod r1 < calculatePeriod r2).
Proof.
  intros H1 H2.
  pose proof (calculatePeriod_pos r1 H1) as P1.
  pose proof (calculatePeriod_pos r2 H2) as P2.
  pose proof (calculatePeriod_sqr r1 H1) as S1.
  pose proof (calculatePeriod_sqr r2 H2) as S2.
  pose proof GM_sun_pos as Hk. pose proof PI_RGT_0 as Hpi.
  split; [exact P1|]. split.
  - replace ((calculatePeriod r1 / calculatePeriod r2) ^ 2)
      with ((calculatePeriod r1 * calculatePeriod r1)
            / (calculatePeriod r2 * calculatePeriod r2))
      by (field; lra).
    rewrite S1, S2. field. unfold CONFIG_G, CONFIG_M_sun.
    repeat split; lra.
  - intros Hlt. unfold calculatePeriod.
    apply Rmult_lt_compat_l; [lra|].
    apply sqrt_lt_1_alt. split.
    + apply Rlt_le, Rdiv_lt_0_compat; [apply pow_lt; exact H1|lra].
    + unfold Rdiv. apply Rmult_lt_compat_r.
      * apply Rinv_0_lt_compat. lra.
      * assert (Hsq : r1 * r1 < r2 * r2) by nra.
        simpl. nra.
Qed.

Lemma X21_third_law_witness :
  (calculatePeriod 4 / calculatePeriod 1) ^ 2 = (4 / 1) ^ 3.
Proof.
  apply (X21_third_law 4 1); lra.
Defined.

Lemma periods : 0 < T2 /\ T1 = 1000 * T2.
Proof.
  split; [apply calculatePeriod_pos; unfold CONFIG_R2; lra|].
  unfold T1, T2, calculatePeriod, CONFIG_R1, CONFIG_R2.
  pose proof GM_sun_pos as Hk.
  set (k := CONFIG_G * CONFIG_M_sun) in *.
  set (a := 1e10 ^ 3 / k).
  assert (Hp : 0 < 1e10 ^ 3) by (apply pow_lt; lra).
  assert (Ha : 0 < a) by (apply Rdiv_lt_0_compat; assumption).
  replace (1e12 ^ 3 / k) with ((1000 * 1000) * a).
  2:{ unfold a. replace 1e12 with (100 * 1e10) by lra.
      rewrite Rpow_mult_distr. field. lra. }
  rewrite sqrt_mult by lra.
  rewrite sqrt_square by lra. ring.
Qed.

Lemma small_parts d : 0 <= d < 1 -> Int_part d = 0%Z /\ frac_part d = d.
Proof.
  intros Hd.
  destruct (Int_part_frac_part_spec d 0 d Hd) as [H1 H2]; [lra|].
  split; [symmetry; exact H1|symmetry; exact H2].
Qed.

Lemma turn_parts x d :
  0 <= d < 1 ->
  (1 <= frac_part x + d ->
   Int_part (x + d) = (Int_part x + 1)%Z /\
   frac_part (x + d) = frac_part x + d - 1) /\
  (frac_part x + d < 1 ->
   Int_part (x + d) = Int_part x /\
   frac_part (x + d) = frac_part x + d).
Proof.
  intros Hd. destruct (small_parts d Hd) as [Hi Hf]. split; intros H.
  - rewrite plus_Int_part1, plus_frac_part1 by (rewrite Hf; lra).
    rewrite Hi, Hf. split; [lia|reflexivity].
  - rewrite plus_Int_part2, plus_frac_part2 by (rewrite Hf; lra).
    rewrite Hi, Hf. split; [lia|reflexivity].
Qed.

Lemma at_turn_0 : constructor = at_turn 0.
Proof.
  unfold constructor, at_turn.
  replace (0 / 5000) with 0 by lra. replace (0 / 5) with 0 by lra.
  rewrite fp_R0.
  assert (H0 : Int_part 0 = 0%Z) by (apply small_parts; lra).
  rewrite H0. repeat f_equal; lra.
Qed.

(** One planet's step when its angular step is the fraction [d] of a
    turn. *)
Lemma step_planet_turn index r t w x d simDelta :
  (index < 2)%nat -> 0 <= d < 1 ->
  w * simDelta = 2 * PI * d ->
  step_planet index simDelta (mkPlanet r t w (2 * PI * frac_part x))
  = (mkPlanet r t w (2 * PI * frac_part (x + d)),
     if Nat.eqb index 1 then (Int_part (x + d) - Int_part x)%Z else 0%Z).
Proof.
  intros Hi Hd Hw. unfold step_planet. cbn [angle omega R_orbit T].
  rewrite Hw. pose proof PI_RGT_0 as Hpi.
  destruct (base_fp x) as [F0 F1].
  destruct (turn_parts x d Hd) as [Hup Hsame].
  unfold Num.geb.
  destruct (NumFacts.leb_spec (2 * PI)
              (2 * PI * frac_part x + 2 * PI * d)) as [H|H].
  - assert (H1 : 1 <= frac_part x + d) by nra.
    destruct (Hup H1) as [Ei Ef]. rewrite Ei, Ef.
    assert (Hlow : ~ 2 * PI <= 2 * PI * frac_part x + 2 * PI * d - 2 * PI)
      by nra.
    destruct index as [|[|index]]; [| |lia]; cbn [Nat.eqb andb].
    + destruct (NumFacts.leb_spec (2 * PI)
                  (2 * PI * frac_part x + 2 * PI * d)) as [H'|H'];
        [|contradiction].
      f_equal. f_equal. ring.
    + destruct (NumFacts.leb_spec (2 * PI)
                  (2 * PI * frac_part x + 2 * PI * d - 2 * PI));
        cbn [andb]; f_equal; try (f_equal; ring); lia.
  - assert (H1 : frac_part x + d < 1) by nra.
    destruct (Hsame H1) as [Ei Ef]. rewrite Ei, Ef.
    destruct index as [|[|index]]; [| |lia]; cbn [Nat.eqb andb].
    + destruct (NumFacts.leb_spec (2 * PI)
                  (2 * PI * frac_part x + 2 * PI * d)) as [H'|H'];
        [contradiction|].
      f_equal. f_equal. ring.
    + f_equal; [f_equal; ring|lia].
Qed.

Lemma update_at_turn x dt sp :
  0 <= dt * sp < 5 ->
  update (at_turn x) dt sp = at_turn (x + dt * sp).
Proof.
  intros Hd. destruct periods as [HT2 HT1].
  pose proof PI_RGT_0 as Hpi.
  unfold update, at_turn.
  cbn [planets simulationTime innerOrbits baseTimeScale step_planets].
  rewrite (step_planet_turn 0 _ _ _ (x / 5000) (dt * sp / 5000));
    [|lia|lra|rewrite HT1; field; lra].
  rewrite (step_planet_turn 1 _ _ _ (x / 5) (dt * sp / 5));
    [|lia|lra|field; lra].
  cbn [Nat.eqb].
  replace (x / 5000 + dt * sp / 5000) with ((x + dt * sp) / 5000) by lra.
  replace (x / 5 + dt * sp / 5) with ((x + dt * sp) / 5) by lra.
  f_equal; [lra|lia].
Qed.

Lemma turned_app l1 l2 : turned (l1 ++ l2) = turned l1 + turned l2.
Proof.
  unfold turned. induction l1 as [|i l1 IH]; cbn [app fold_right].
  - lra.
  - rewrite IH. lra.
Qed.

Lemma run_at_turn inputs x :
  gentle inputs ->
  run (at_turn x) inputs = at_turn (x + turned inputs).
Proof.
  unfold gentle, run. revert x.
  induction inputs as [|i inputs IH]; intros x H; cbn [fold_left].
  - unfold turned. cbn [fold_right]. f_equal. lra.
  - inversion H as [|? ? Hi Hrest]; subst.
    rewrite (update_at_turn x _ _ Hi). rewrite (IH _ Hrest).
    f_equal. unfold turned. cbn [fold_right]. lra.
Qed.

Lemma turned_nonneg inputs : gentle inputs -> 0 <= turned inputs.
Proof.
  unfold gentle, turned.
  induction 1 as [|i l Hi Hl IH]; cbn [fold_right]; lra.
Qed.

(** X22: when every update call advances by less than one inner orbit
    (0 <= deltaTime * speedMultiplier < 5), whole orbits and angles
    account for all of the simulated time after any number of calls: the
    simulation time is T2 x / 5 for the summed advance x, 2 pi times
    innerOrbits plus the inner planet's angle is its angular velocity
    times the simulation time, the outer planet's angle is its angular
    velocity times the simulation time less a whole number of turns, both
    angles stay between 0 and 2 pi, and the orbit count is never
    negative. *)
Theorem X22_orbits_account_for_time (inputs : list (R * R)) :
  gentle inputs ->
  let s := run constructor inputs in
  exists (p1 p2 : Planet) (k : Z),
    planets s = [p1; p2] /\
    simulationTime s = T2 / 5 * turned inputs /\
    0 <= angle p1 <= 2 * PI /\
    0 <= angle p2 <= 2 * PI /\
    (0 <= innerOrbits s)%Z /\ (0 <= k)%Z /\
    2 * PI * IZR (innerOrbits s) + angle p2 = omega p2 * simulationTime s /\
    2 * PI * IZR k + angle p1 = omega p1 * simulationTime s.
Proof.
  intros Hg. cbv zeta. rewrite at_turn_0, (run_at_turn _ _ Hg).
  replace (0 + turned inputs) with (turned inputs) by lra.
  pose proof PI_RGT_0 as Hpi. destruct periods as [HT2 HT1].
  pose proof (turned_nonneg _ Hg) as Hx.
  unfold at_turn. cbn [planets innerOrbits simulationTime].
  eexists. eexists. exists (Int_part (turned inputs / 5000)).
  split; [reflexivity|]. cbn [angle omega].
  destruct (base_fp (turned inputs / 5000)) as [A0 A1].
  destruct (base_fp (turned inputs / 5)) as [B0 B1].
  pose proof (Rplus_Int_part_frac_part (turned inputs / 5)) as E5.
  pose proof (Rplus_Int_part_frac_part (turned inputs / 5000)) as E5000.
  split; [reflexivity|].
  split; [split; nra|]. split; [split; nra|].
  split; [apply FreeFallFacts.floor_nonneg; lra|].
  split; [apply FreeFallFacts.floor_nonneg; lra|].
  split.
  - replace (2 * PI / T2 * (T2 / 5 * turned inputs))
      with (2 * PI * (turned inputs / 5)) by (field; lra).
    transitivity (2 * PI * (IZR (Int_part (turned inputs / 5))
                            + frac_part (turned inputs / 5)));
      [ring | rewrite <- E5; reflexivity].
  - rewrite HT1.
    replace (2 * PI / (1000 * T2) * (T2 / 5 * turned inputs))
      with (2 * PI * (turned inputs / 5000)) by (field; lra).
    transitivity (2 * PI * (IZR (Int_part (turned inputs / 5000))
                            + frac_part (turned inputs / 5000)));
      [ring | rewrite <- E5000; reflexivity].
Qed.

Lemma X22_orbits_account_for_time_witness :
  exists (p1 p2 : Planet) (k : Z),
    planets (run constructor [(0.1, 1); (0.1, 2); (0.1, 0.5)]) = [p1; p2] /\
    simulationTime (run constructor [(0.1, 1); (0.1, 2); (0.1, 0.5)])
    = T2 / 5 * turned [(0.1, 1); (0.1, 2); (0.1, 0.5)] /\
    0 <= angle p1 <= 2 * PI /\
    0 <= angle p2 <= 2 * PI /\
    Z.le 0 (innerOrbits (run constructor [(0.1, 1); (0.1, 2); (0.1, 0.5)])) /\
    Z.le 0 k /\
    2 * PI
      * IZR (innerOrbits (run constructor [(0.1, 1); (0.1, 2); (0.1, 0.5)]))
      + angle p2
    = omega p2
      * simulationTime (run constructor [(0.1, 1); (0.1, 2); (0.1, 0.5)]) /\
    2 * PI * IZR k + angle p1
    = omega p1
      * simulationTime (run constructor [(0.1, 1); (0.1, 2); (0.1, 0.5)]).
Proof.
  apply (X22_orbits_account_for_time [(0.1, 1); (0.1, 2); (0.1, 0.5)]).
  repeat constructor; cbn [fst snd]; lra.
Defined.

Lemma rem_small a b : 0 <= a < b -> rem a b = a.
Proof.
  intros H. unfold rem, trunc.
  assert (Hq : 0 <= a / b < 1).
  { split.
    - apply Rmult_le_pos; [lra|]. apply Rlt_le, Rinv_0_lt_compat. lra.
    - apply Rmult_lt_reg_r with b; [lra|].
      unfold Rdiv. rewrite Rmult_assoc, Rinv_l by lra. lra. }
  destruct (NumFacts.leb_spec 0 (a / b)) as [H0|H0]; [|lra].
  destruct (small_parts _ Hq) as [Hi _]. rewrite Hi. lra.
Qed.

(** X23: when every update call advances by less than one inner orbit
    (0 <= deltaTime * speedMultiplier < 5), the remainder in getProgress
    never acts: for either planet getProgress returns the planet's angle
    divided by 2 pi, a number in [0, 1); any other index has no
    planet. *)
Theorem X23_progress (inputs : list (R * R)) :
  gentle inputs ->
  let s := run constructor inputs in
  exists p1 p2 : Planet,
    planets s = [p1; p2] /\
    getProgress s 0 = Some (angle p1 / (2 * PI)) /\
    getProgress s 1 = Some (angle p2 / (2 * PI)) /\
    (forall i, (2 <= i)%nat -> getProgress s i = None) /\
    (forall i v, getProgress s i = Some v -> 0 <= v < 1).
Proof.
  intros Hg. cbv zeta. rewrite at_turn_0, (run_at_turn _ _ Hg).
  replace (0 + turned inputs) with (turned inputs) by lra.
  pose proof PI_RGT_0 as Hpi.
  assert (Hp : forall f, 0 <= f < 1 ->
                 rem (2 * PI * f) (2 * PI) / (2 * PI) = f).
  { intros f Hf. rewrite rem_small by nra. field. lra. }
  assert (Hq : forall f, 2 * PI * f / (2 * PI) = f)
    by (intros f; field; lra).
  pose proof (base_fp (turned inputs / 5000)) as [A0 A1].
  pose proof (base_fp (turned inputs / 5)) as [B0 B1].
  unfold getProgress, at_turn. cbn [planets].
  eexists. eexists. split; [reflexivity|]. cbn [angle].
  split; [|split; [|split]].
  - cbn [nth_error angle]. rewrite Hp, Hq by lra. reflexivity.
  - cbn [nth_error angle]. rewrite Hp, Hq by lra. reflexivity.
  - intros i Hi. destruct i as [|[|i]]; [lia|lia|].
    cbn [nth_error]. destruct i; reflexivity.
  - intros i v. destruct i as [|[|i]]; cbn [nth_error angle].
    + rewrite Hp by lra. intros E. inversion E. lra.
    + rewrite Hp by lra. intros E. inversion E. lra.
    + destruct i; discriminate.
Qed.

Lemma X23_progress_witness :
  exists p1 p2 : Planet,
    planets (run constructor [(0.1, 1); (0.1, 2); (0.1, 0.5)]) = [p1; p2] /\
    getProgress (run constructor [(0.1, 1); (0.1, 2); (0.1, 0.5)]) 1
    = Some (angle p2 / (2 * PI)).
Proof.
  destruct (X23_progress [(0.1, 1); (0.1, 2); (0.1, 0.5)])
    as (p1 & p2 & Hp & _ & H1 & _).
  - repeat constructor; cbn [fst snd]; lra.
  - exists p1, p2. split; assumption.
Defined.

(** X24: as long as the outer planet has not completed its first orbit
    (summed advance below 5000), the inner planet has turned through
    exactly 1000 times the outer planet's angle, whole orbits
    included. *)
Theorem X24_thousand_to_one (inputs : list (R * R)) :
  gentle inputs -> turned inputs < 5000 ->
  let s := run constructor inputs in
  exists p1 p2,
    planets s = [p1; p2] /\
    omega p2 = 1000 * omega p1 /\
    angle p1 = omega p1 * simulationTime s /\
    2 * PI * IZR (innerOrbits s) + angle p2 = 1000 * angle p1.
Proof.
  intros Hg Hlt. cbv zeta. rewrite at_turn_0, (run_at_turn _ _ Hg).
  replace (0 + turned inputs) with (turned inputs) by lra.
  pose proof PI_RGT_0 as Hpi. destruct periods as [HT2 HT1].
  pose proof (turned_nonneg _ Hg) as Hx.
  unfold at_turn. cbn [planets innerOrbits simulationTime].
  eexists. eexists. split; [reflexivity|]. cbn [angle omega].
  assert (Hs : 0 <= turned inputs / 5000 < 1) by lra.
  destruct (small_parts _ Hs) as [_ Hf]. rewrite Hf.
  pose proof (Rplus_Int_part_frac_part (turned inputs / 5)) as E.
  split; [rewrite HT1; field; lra|]. split.
  - rewrite HT1. field. lra.
  - replace (2 * PI * IZR (Int_part (turned inputs / 5))
             + 2 * PI * frac_part (turned inputs / 5))
      with (2 * PI * (IZR (Int_part (turned inputs / 5))
                      + frac_part (turned inputs / 5))) by ring.
    rewrite <- E. lra.
Qed.

Lemma X24_thousand_to_one_witness :
  exists p1 p2,
    planets (run constructor [(0.1, 10); (0.1, 30)]) = [p1; p2] /\
    omega p2 = 1000 * omega p1 /\
    angle p1
    = omega p1 * simulationTime (run constructor [(0.1, 10); (0.1, 30)]) /\
    2 * PI * IZR (innerOrbits (run constructor [(0.1, 10); (0.1, 30)]))
      + angle p2 = 1000 * angle p1.
Proof.
  apply (X24_thousand_to_one [(0.1, 10); (0.1, 30)]).
  - repeat constructor; cbn [fst snd]; lra.
  - unfold turned. cbn [fold_right fst snd]. lra.
Defined.

(** X25: update wraps an angle once only: a single call that advances a
    fresh system by two inner orbits or more (deltaTime * speedMultiplier
    >= 10) counts one orbit and leaves the inner planet's angle at or
    above 2 pi, where getProgress still reports a fraction below 1
    through its remainder. *)
Theorem X25_one_wrap_per_call (dt sp : R) :
  10 <= dt * sp ->
  let s := update constructor dt sp in
  innerOrbits s = 1%Z /\
  (exists p1 p2, planets s = [p1; p2] /\
     angle p2 = 2 * PI * (dt * sp / 5) - 2 * PI /\ 2 * PI <= angle p2) /\
  (exists v, getProgress s 1 = Some v /\ 0 <= v < 1).
Proof.
  intros Hd. cbv zeta. pose proof PI_RGT_0 as Hpi.
  destruct periods as [HT2 HT1].
  unfold update, constructor, getProgress.
  cbn [planets simulationTime innerOrbits baseTimeScale step_planets].
  unfold step_planet. cbn [angle omega R_orbit T Nat.eqb andb].
  assert (E2 : 2 * PI / T2 * (dt * (T2 / 5) * sp)
               = 2 * PI * (dt * sp / 5)) by (field; lra).
  rewrite E2. unfold Num.geb.
  replace (0 + 2 * PI * (dt * sp / 5)) with (2 * PI * (dt * sp / 5)) by ring.
  destruct (NumFacts.leb_spec (2 * PI) (2 * PI * (dt * sp / 5))) as [H|H];
    [|exfalso; nra].
  repeat match goal with
         | |- context [Num.leb ?a ?b] => destruct (Num.leb a b)
         end; cbn [planets nth_error angle].
  all: split; [reflexivity|]; split;
    [eexists; eexists; split; [reflexivity|]; cbn [angle]; split; [ring|nra]|].
  all: eexists; split; [reflexivity|].
  all: set (a := 2 * PI * (dt * sp / 5) - 2 * PI).
  all: unfold rem.
  all: assert (Ha : 0 <= a / (2 * PI))
         by (unfold a; apply Rmult_le_pos;
             [nra|apply Rlt_le, Rinv_0_lt_compat; lra]).
  all: unfold trunc; destruct (NumFacts.leb_spec 0 (a / (2 * PI)));
         [|lra].
  all: destruct (base_Int_part (a / (2 * PI))) as [L U].
  all: set (k := IZR (Int_part (a / (2 * PI)))) in *.
  all: assert (Eq : a = 2 * PI * (a / (2 * PI))) by (field; lra).
  all: split.
  all: try (apply Rmult_le_pos; [|apply Rlt_le, Rinv_0_lt_compat; lra]; nra).
  all: apply Rmult_lt_reg_r with (2 * PI); [lra|].
  all: unfold Rdiv; rewrite Rmult_assoc, Rinv_l by lra; nra.
Qed.

Lemma X25_one_wrap_per_call_witness :
  innerOrbits (update constructor 0.1 100) = 1%Z.
Proof.
  apply (X25_one_wrap_per_call 0.1 100). lra.
Defined.

End SolarSystemFacts.

Module StoneThrowFacts.
Import StoneThrow StoneThrowView.

Lemma constructor_configured : configured constructor.
Proof.
  unfold configured, constructor. cbn.
  repeat split; try reflexivity.
  unfold CONFIG_maxHeight, CONFIG_g.
  rewrite <- sqrt_1 at 1. apply sqrt_lt_1_alt. lra.
Qed.

Lemma constructor_bounded : bounded constructor.
Proof.
  unfold bounded, constructor, CONFIG_maxHeight, CONFIG_timeToMaxHeight.
  cbn. pose proof (sqrt_pos (2 * 500 / CONFIG_g)).
  repeat split; try lra; intros _; lra.
Qed.

Lemma update_configured s dt :
  configured s -> configured (fst (update s dt)).
Proof.
  intros H. unfold update.
  destruct (Num.geb _ _); [exact H|].
  destruct (Num.leb _ _); exact H.
Qed.

Lemma update_bounded s dt :
  configured s -> bounded (fst (update s dt)).
Proof.
  intros (Hg & Hm & Ht & Hu & Htot & Hfall).
  unfold update, bounded, Num.geb.
  unfold CONFIG_g, CONFIG_maxHeight, CONFIG_timeToMaxHeight in *.
  set (t := time s + dt).
  destruct (NumFacts.leb_spec (totalTime s) t) as [H1|H1];
    [cbn; rewrite Hm, Ht; repeat split; try lra; intros; lra|].
  destruct (NumFacts.leb_spec t (timeToMaxHeight s)) as [H2|H2]; cbn.
  - rewrite Hu, Hg, Hm, Ht in *.
    assert (Hsq : 0 <= (t - 10) * (t - 10)) by nra.
    assert (Hh : 98 * t - 0.5 * 9.8 * t * t <= 490) by nra.
    repeat split.
    + apply Rmax_l.
    + apply Rmax_lub; lra.
    + lra.
    + intros _. apply Rmax_lub; lra.
  - rewrite Hg, Hm, Ht in *.
    assert (Hsq : 0 <= (t - 10) * (t - 10)) by nra.
    repeat split.
    + apply Rmax_l.
    + apply Rmax_lub; [lra|nra].
    + lra.
    + intros Hc. exfalso. lra.
Qed.

Lemma run_invariant deltas : forall s,
  configured s -> bounded s ->
  configured (run s deltas) /\ bounded (run s deltas).
Proof.
  induction deltas as [|dt rest IH]; intros s Hc Hb; cbn [run].
  - split; assumption.
  - apply IH; [apply update_configured|apply update_bounded]; exact Hc.
Qed.

(** X26: whatever deltas the stone-throw stepper is fed (negative ones
    too), the height stays between 0 and maxHeight, the clock never
    passes totalTime, so getProgress is at most 100, and the stone is
    drawn between groundOffset and groundOffset + animationHeight
    pixels. *)
Theorem X26_stone_on_screen (deltas : list R) :
  let s := run constructor deltas in
  0 <= height s <= CONFIG_maxHeight /\
  time s <= totalTime s /\
  getProgress s <= 100 /\
  groundOffset <= getStonePosition s <= groundOffset + animationHeight.
Proof.
  cbv zeta.
  destruct (run_invariant deltas constructor constructor_configured
              constructor_bounded) as [Hc Hb].
  destruct Hc as (Hg & Hm & Ht & Hu & Htot & Hfall).
  destruct Hb as (Hh & Htime & _).
  set (s := run constructor deltas) in *.
  unfold getProgress, getStonePosition, scale, animationHeight, groundOffset.
  rewrite Hm in *.
  unfold CONFIG_maxHeight, CONFIG_timeToMaxHeight in *.
  assert (Hpos : 0 < totalTime s) by lra.
  split; [exact Hh|]. split; [exact Htime|]. split; [|lra].
  assert (Hq : time s / totalTime s <= 1).
  { apply Rmult_le_reg_r with (totalTime s); [exact Hpos|].
    unfold Rdiv. rewrite Rmult_assoc, Rinv_l by lra. lra. }
  lra.
Qed.

(** X27: the rising branch peaks 10 m below maxHeight (at u^2 / 2g =
    490 m), the falling branch starts from maxHeight (500 m): from any
    state of a run that is still at or before timeToMaxHeight, an update
    that carries the clock less than one second past timeToMaxHeight
    enters the falling phase with a height more than 5 m above the one
    before, while the velocity is already negative. *)
Theorem X27_apex_gap (deltas : list R) (dt : R) :
  let s := run constructor deltas in
  time s <= timeToMaxHeight s ->
  timeToMaxHeight s < time s + dt < timeToMaxHeight s + 1 ->
  let s' := fst (update s dt) in
  phase s' = Falling /\
  height s + 5 < height s' /\
  velocity s' < 0.
Proof.
  cbv zeta. intros Hbefore Hdt.
  destruct (run_invariant deltas constructor constructor_configured
              constructor_bounded) as [Hc Hb].
  destruct Hc as (Hg & Hm & Ht & Hu & Htot & Hfall).
  destruct Hb as (Hh & Htime & Hrise).
  set (s := run constructor deltas) in *.
  specialize (Hrise Hbefore).
  unfold update, Num.geb.
  unfold CONFIG_g, CONFIG_maxHeight, CONFIG_timeToMaxHeight in *.
  set (t := time s + dt) in *.
  destruct (NumFacts.leb_spec (totalTime s) t) as [H1|H1]; [lra|].
  destruct (NumFacts.leb_spec t (timeToMaxHeight s)) as [H2|H2]; [lra|].
  cbn. rewrite Hg, Hm, Ht in *.
  split; [reflexivity|]. split.
  - eapply Rlt_le_trans; [|apply Rmax_r]. nra.
  - nra.
Qed.

Lemma X27_apex_gap_witness :
  height (run constructor [10]) + 5
  < height (fst (update (run constructor [10]) 0.5)).
Proof.
  assert (E : time (run constructor [10]) = 10).
  { cbn [run]. unfold update, Num.geb.
    destruct constructor_configured as (Hg & Hm & Ht & Hu & Htot & Hfall).
    unfold CONFIG_timeToMaxHeight in *.
    assert (E0 : time constructor = 0) by reflexivity.
    destruct (NumFacts.leb_spec (totalTime constructor)
                (time constructor + 10)) as [H1|H1]; [lra|].
    destruct (NumFacts.leb_spec (time constructor + 10)
                (timeToMaxHeight constructor)) as [H2|H2]; [|lra].
    cbn. lra. }
  assert (Ec : timeToMaxHeight (run constructor [10]) = 10).
  { destruct (run_invariant [10] constructor constructor_configured
                constructor_bounded) as [(_ & _ & Ht & _) _].
    exact Ht. }
  apply (X27_apex_gap [10] 0.5); rewrite ?E, ?Ec; lra.
Defined.

End StoneThrowFacts.

Module BallThrowFacts.
Import BallThrow BallThrowView.

(** X28: the "distance in the last t seconds" identity for any launch
    speed u >= 0 and gravity g > 0: when the last tLast seconds fit into
    the ascent (0 <= tLast <= u / g), the distance the model measures
    from its heights equals g tLast^2 / 2 whatever u is, and the interval
    is tLast long; when they do not fit, the interval starts at 0 and the
    measured distance is the whole maxHeight, below g tLast^2 / 2.  The
    page's model is the instance u = 20, g = 10, tLast = 1. *)
Theorem X28_last_seconds (u0 g0 tLast0 : R) :
  0 < g0 -> 0 <= u0 -> 0 <= tLast0 ->
  let m := calculateTheoreticalValuesWith u0 g0 tLast0 in
  calculateTheoreticalValuesWith CONFIG_u CONFIG_g CONFIG_tLast
  = calculateTheoreticalValues /\
  maxHeight m = u0 * totalAscentTime m - 0.5 * g0 * totalAscentTime m ^ 2 /\
  (tLast0 <= u0 / g0 ->
   actualIntervalDistance m = theoreticalDistance m /\
   intervalEnd m - intervalStart m = tLast0) /\
  (u0 / g0 < tLast0 ->
   intervalStart m = 0 /\
   actualIntervalDistance m = maxHeight m /\
   actualIntervalDistance m < theoreticalDistance m).
Proof.
  intros Hg Hu Ht. cbv zeta.
  unfold calculateTheoreticalValuesWith. cbn.
  split; [reflexivity|].
  assert (Hq : u0 / g0 * g0 = u0) by (field; lra).
  assert (Hq0 : 0 <= u0 / g0).
  { apply Rmult_le_pos; [lra|]. apply Rlt_le, Rinv_0_lt_compat. lra. }
  set (T := u0 / g0) in *.
  assert (Hm : u0 * u0 / (2 * g0) = 0.5 * g0 * T * T).
  { unfold T. replace 0.5 with (/ 2) by lra. field. lra. }
  split; [rewrite Hm; nra|]. split.
  - intros Hfit. rewrite Rmax_right by lra. rewrite Hm. split; nra.
  - intros Hlong. rewrite Rmax_left by lra. rewrite Hm.
    split; [reflexivity|]. split; [ring|].
    assert (Hsq : T * T < tLast0 * tLast0) by nra.
    assert (Hgs : g0 * (T * T) < g0 * (tLast0 * tLast0))
      by (apply Rmult_lt_compat_l; assumption).
    lra.
Qed.

Lemma X28_last_seconds_witness :
  actualIntervalDistance (calculateTheoreticalValuesWith 30 10 2)
  = theoreticalDistance (calculateTheoreticalValuesWith 30 10 2).
Proof.
  apply (X28_last_seconds 30 10 2); lra.
Defined.

Lemma update_symmetry m s dt sp :
  symmetryHeight s = 0.5 * g m * symmetryTime s * symmetryTime s ->
  let s' := fst (update m s dt sp) in
  symmetryHeight s' = 0.5 * g m * symmetryTime s' * symmetryTime s'.
Proof.
  intros H. cbv zeta. unfold update.
  destruct (phase s).
  - destruct (Num.geb _ _); cbn; exact H.
  - destruct (Num.leb (maxHeight m - _) 0);
      destruct (Num.leb (time s + dt * sp) (tLast m)); cbn; try exact H; ring.
  - exact H.
Qed.

Lemma update_symmetry_time m s dt sp :
  symmetryTime s <= Rmax 0 (tLast m) ->
  symmetryTime (fst (update m s dt sp)) <= Rmax 0 (tLast m).
Proof.
  intros H. unfold update.
  destruct (phase s).
  - destruct (Num.geb _ _); cbn; exact H.
  - destruct (Num.leb (maxHeight m - _) 0);
      destruct (NumFacts.leb_spec (time s + dt * sp) (tLast m));
      cbn; try exact H;
      (eapply Rle_trans; [eassumption|apply Rmax_r]).
  - exact H.
Qed.

(** X29: the symmetry read-out of the ball-throw model, for any model
    parameters and any update inputs: after any run from reset the
    recorded symmetryHeight is g symmetryTime^2 / 2, the formula of the
    distance in the last symmetryTime seconds of the ascent, and
    symmetryTime never exceeds tLast (or 0 when tLast is negative). *)
Theorem X29_symmetry (m : Model) (inputs : list (R * R)) :
  let s := run m (reset m) inputs in
  symmetryHeight s = 0.5 * g m * symmetryTime s * symmetryTime s /\
  symmetryTime s <= Rmax 0 (tLast m).
Proof.
  cbv zeta.
  assert (H0 : symmetryHeight (reset m)
               = 0.5 * g m * symmetryTime (reset m) * symmetryTime (reset m))
    by (cbn; ring).
  assert (H1 : symmetryTime (reset m) <= Rmax 0 (tLast m))
    by (cbn; apply Rmax_l).
  revert H0 H1. generalize (reset m).
  induction inputs as [|[dt sp] rest IH]; intros s H0 H1; cbn [run].
  - split; assumption.
  - apply IH; [apply update_symmetry|apply update_symmetry_time]; assumption.
Qed.

Lemma model_values :
  u model = 20 /\ g model = 10 /\ tLast model = 1 /\
  totalAscentTime model = 2 /\ maxHeight model = 20 /\
  intervalStart model = 1 /\ intervalEnd model = 2.
Proof.
  unfold model, calculateTheoreticalValues, CONFIG_u, CONFIG_g, CONFIG_tLast.
  cbn. assert (E : 20 / 10 = 2) by lra. rewrite E.
  rewrite Rmax_right by lra. repeat split; lra.
Qed.

Lemma update_on_clock s dt sp :
  0 <= dt * sp -> on_clock model s ->
  let s' := fst (update model s dt sp) in
  on_clock model s' /\
  getDisplayTime model s <= getDisplayTime model s'
  <= 2 * totalAscentTime model.
Proof.
  intros Hd Hs. cbv zeta.
  destruct model_values as (Hu & Hg & Htl & HT & Hm & Hi0 & Hi1).
  unfold on_clock, getDisplayTime, update in *.
  generalize dependent model. intros m Hs Hu Hg Htl HT Hm Hi0 Hi1.
  destruct (phase s) eqn:Ep.
  - unfold Num.geb.
    destruct (NumFacts.leb_spec (totalAscentTime m)
                (time s + dt * sp)) as [H|H]; cbn [fst phase time]; lra.
  - rewrite Hg, Hm, HT in *.
    set (t := time s + dt * sp) in *.
    destruct (NumFacts.leb_spec (20 - 0.5 * 10 * t * t) 0) as [H|H];
      cbn [fst phase time].
    + lra.
    + assert (Ht : t < 2).
      { destruct (Rlt_le_dec t 2) as [L|L]; [exact L|].
        exfalso. apply H. assert (4 <= t * t) by nra. lra. }
      unfold t in *. lra.
  - cbn [fst]. rewrite Ep. lra.
Qed.

(** X30: the ball-throw page's displayed time (getDisplayTime) under
    non-negative scaled deltas: it never goes back from one update to
    the next, although the model's own clock restarts at 0 at the apex,
    and it never exceeds twice the ascent time, which it shows once the
    flight is complete. *)
Theorem X30_display_time (inputs : list (R * R)) (dt sp : R) :
  nonneg_inputs inputs -> 0 <= dt * sp ->
  let s := run model (reset model) inputs in
  let s' := fst (update model s dt sp) in
  getDisplayTime model s <= getDisplayTime model s' /\
  getDisplayTime model s' <= 2 * totalAscentTime model /\
  (phase s' = complete ->
   getDisplayTime model s' = 2 * totalAscentTime model).
Proof.
  intros Hin Hd. cbv zeta.
  assert (Hs : on_clock model (run model (reset model) inputs)).
  { assert (H0 : on_clock model (reset model)).
    { destruct model_values as (Hu & Hg & Htl & HT & _).
      unfold on_clock, reset. cbn [phase time]. lra. }
    revert H0. generalize (reset model).
    induction Hin as [|[a b] rest Hi Hrest IH]; intros s H0; cbn [run].
    - exact H0.
    - apply IH. apply (update_on_clock s a b Hi H0). }
  destruct (update_on_clock _ dt sp Hd Hs) as [_ [H1 H2]].
  split; [exact H1|]. split; [exact H2|].
  intros Ep. unfold getDisplayTime. rewrite Ep. ring.
Qed.

Lemma X30_display_time_witness :
  getDisplayTime model (run model (reset model) [(0.5, 1); (2, 1)])
  <= getDisplayTime model
       (fst (update model (run model (reset model) [(0.5, 1); (2, 1)])
               0.1 1)).
Proof.
  apply (X30_display_time [(0.5, 1); (2, 1)] 0.1 1).
  - repeat constructor; cbn [fst snd]; lra.
  - lra.
Defined.

End BallThrowFacts.
